(** * leetcode-sync: the incremental sync engine of [src/test_config.js]

    A shallow embedding of the engine that mirrors accepted LeetCode
    submissions into commits of a GitHub repository, and the properties its
    design document states about it.

    Layout of the development:
    - [JSDate]   : the two [Date] built-ins the engine relies on,
                   [new Date(ms).toISOString()] and [Date.parse];
    - [JSObject] : an object literal read as a table, with the members it
                   inherits;
    - [GitHub]   : the version-control host seen through the five REST calls
                   the engine makes;
    - [LeetCode] : the submission source seen through its three GraphQL
                   queries;
    - [Effects]  : the world a run executes in, and the error/state monad the
                   asynchronous code is written in;
    - [Engine]   : [commit], [addToSubmissions], [getSubmissions],
                   [getSubmissionData], [getQuestionData] and [sync],
                   transcribed from the source;
    - [Spec]     : the vocabulary of the design document (checkpoint, pending
                   submissions, the commit of a submission), written from its
                   words and compared with the engine below;
    - [Calendar] : the conversion of a date to epoch seconds, written from the
                   civil calendar;
    - [Sample]   : a small repository and account on which the engine is run;
    - [Shape]    : the vocabulary for the trace and the object store of a run
                   that nothing stops;
    - [History]  : a repository with more than a hundred commits;
    - the facts about each module, then the properties of the design
      document.

    Console output ([log], [console.log]) is not modelled: no property below
    depends on it. *)

From Stdlib Require Import ZArith QArith String Ascii List Sorted Lia.
From stdpp Require Import base option list gmap strings.

Open Scope Z_scope.

(** ** The Date built-ins *)

Module JSDate.

(** Time values are integers, milliseconds since the epoch. *)
Definition msPerDay : Z := 86400000.
Definition maxTime : Z := 8640000000000000.

Definition is_leap (y : Z) : bool :=
  ((y mod 4 =? 0) && negb (y mod 100 =? 0)) || (y mod 400 =? 0).

Definition days_in_month (y m : Z) : Z :=
  if m =? 2 then (if is_leap y then 29 else 28)
  else if (m =? 4) || (m =? 6) || (m =? 9) || (m =? 11) then 30
  else 31.

(** Day number (days since 1970-01-01) of a proleptic Gregorian date.  The
    year is shifted to start on 1 March, and split into 400-year eras of
    146097 days. *)
Definition days_from_civil (y m d : Z) : Z :=
  let y' := if m <=? 2 then y - 1 else y in
  let era := y' / 400 in
  let yoe := y' - era * 400 in
  let mp := (m + 9) mod 12 in
  let doy := (153 * mp + 2) / 5 + d - 1 in
  let doe := yoe * 365 + yoe / 4 - yoe / 100 + doy in
  era * 146097 + doe - 719468.

(** The calendar position of a day inside its era: year of era, month
    counted from March, day of month. *)
Definition civil_of_doe (doe : Z) : Z * Z * Z :=
  let yoe := (doe - doe / 1460 + doe / 36524 - doe / 146096) / 365 in
  let doy := doe - (365 * yoe + yoe / 4 - yoe / 100) in
  let mp := (5 * doy + 2) / 153 in
  let d := doy - (153 * mp + 2) / 5 + 1 in
  (yoe, mp, d).

Definition civil_from_days (z : Z) : Z * Z * Z :=
  let z' := z + 719468 in
  let era := z' / 146097 in
  let doe := z' - era * 146097 in
  let '(yoe, mp, d) := civil_of_doe doe in
  let m := if mp <? 10 then mp + 3 else mp - 9 in
  let y := yoe + era * 400 + (if m <=? 2 then 1 else 0) in
  (y, m, d).

(** *** Formatting *)

Definition digit (n : Z) : ascii := ascii_of_nat (48 + Z.to_nat (n mod 10)).

Fixpoint pad (width : nat) (n : Z) (rest : string) : string :=
  match width with
  | O => rest
  | S w => pad w (n / 10) (String (digit n) rest)
  end.

Definition year_string (y : Z) (rest : string) : string :=
  if (0 <=? y) && (y <=? 9999) then pad 4 y rest
  else String (if y <? 0 then "-"%char else "+"%char) (pad 6 (Z.abs y) rest).

(** [new Date(ms).toISOString()]: [None] stands for the [RangeError] raised
    on a time value outside the representable range. *)
Definition toISOString (ms : Z) : option string :=
  if Z.abs ms <=? maxTime then
    Some (let day := ms / msPerDay in
          let tod := ms mod msPerDay in
          let '(y, m, d) := civil_from_days day in
          year_string y (String "-" (pad 2 m (String "-" (pad 2 d (String "T"
            (pad 2 (tod / 3600000) (String ":"
            (pad 2 (tod / 60000 mod 60) (String ":"
            (pad 2 (tod / 1000 mod 60) (String "."
            (pad 3 (tod mod 1000) "Z")))))))))))))
  else None.

(** *** Parsing *)

Definition digit_value (c : ascii) : option Z :=
  let n := Z.of_nat (nat_of_ascii c) in
  if (48 <=? n) && (n <=? 57) then Some (n - 48) else None.

(** Reads exactly [width] decimal digits. *)
Fixpoint number (width : nat) (acc : Z) (s : string) : option (Z * string) :=
  match width with
  | O => Some (acc, s)
  | S w =>
      match s with
      | String c s' =>
          match digit_value c with
          | Some v => number w (10 * acc + v) s'
          | None => None
          end
      | EmptyString => None
      end
  end.

Definition expect (c : ascii) (s : string) : option string :=
  match s with
  | String c' s' => if Ascii.eqb c c' then Some s' else None
  | EmptyString => None
  end.

(** The optional [.sss] part. *)
Definition fraction (s : string) : option (Z * string) :=
  match expect "." s with
  | Some s' => number 3 0 s'
  | None => Some (0, s)
  end.

(** [Date.parse] of Node on the UTC forms of the ECMAScript date-time
    format, [YYYY-MM-DDTHH:mm:ssZ] (what the host returns for commit dates)
    and [YYYY-MM-DDTHH:mm:ss.sssZ] (what [toISOString] produces for the
    years 0000 to 9999).  [None] stands for [NaN], the answer for an element
    out of range.  As in Node, a day up to 31 is accepted in every month and
    carries over into the next one.  Strings of another shape (another time
    zone, a date alone, an expanded year), some of which Node accepts, are
    outside the model: it answers [None] for them too, and no statement of
    this development rests on that answer. *)
Definition parse (s : string) : option Z :=
  '(y, s) ← number 4 0 s;
  s ← expect "-" s;
  '(m, s) ← number 2 0 s;
  s ← expect "-" s;
  '(d, s) ← number 2 0 s;
  s ← expect "T" s;
  '(h, s) ← number 2 0 s;
  s ← expect ":" s;
  '(mi, s) ← number 2 0 s;
  s ← expect ":" s;
  '(sec, s) ← number 2 0 s;
  '(f, s) ← fraction s;
  s ← expect "Z" s;
  if negb (String.eqb s "") then None
  else if negb ((1 <=? m) && (m <=? 12) && (1 <=? d) && (d <=? 31)) then None
  else if negb ((mi <=? 59) && (sec <=? 59)) then None
  else if negb ((h <=? 23) || ((h =? 24) && (mi =? 0) && (sec =? 0) && (f =? 0))) then None
  else Some (days_from_civil y m d * msPerDay + h * 3600000 + mi * 60000 + sec * 1000 + f).

End JSDate.


(** ** Objects used as tables *)

(** A table written as an object literal, [{ 'key': 'value', ... }], is an
    object whose prototype is [Object.prototype]: reading [table[key]] finds
    the entries of the literal, and for a key that is not one of them the
    members that every object inherits. *)
Module JSObject.

(** The names of the members of [Object.prototype]. *)
Definition Object_prototype : list string :=
  [ "constructor"; "hasOwnProperty"; "isPrototypeOf"; "propertyIsEnumerable";
    "toLocaleString"; "toString"; "valueOf"; "__proto__";
    "__defineGetter__"; "__defineSetter__"; "__lookupGetter__"; "__lookupSetter__" ].

(** What a read finds: the string of an entry, or an inherited member,
    which is a function, or for [__proto__] the prototype itself. *)
Inductive Value :=
| Own (s : string)
| Inherited (member : string).

(** [table[key]]; [None] stands for [undefined]. *)
Definition get (table : gmap string string) (key : string) : option Value :=
  match table !! key with
  | Some s => Some (Own s)
  | None => if bool_decide (key ∈ Object_prototype) then Some (Inherited key) else None
  end.

(** Whether [!value] is false: [undefined] and the empty string are
    falsy, functions and objects are truthy. *)
Definition truthy (value : option Value) : bool :=
  match value with
  | Some (Own s) => negb (String.eqb s "")
  | Some (Inherited _) => true
  | None => false
  end.

(** The value in a template literal, [`${value}`], as Node prints it. *)
Definition template (value : option Value) : string :=
  match value with
  | Some (Own s) => s
  | Some (Inherited member) =>
      if String.eqb member "__proto__" then "[object Object]"
      else if String.eqb member "constructor" then "function Object() { [native code] }"
      else "function " +:+ member +:+ "() { [native code] }"
  | None => "undefined"
  end.

End JSObject.

(** ** The version-control host *)

(** The repository the engine writes to, as the five REST calls of the engine
    see it: [repos.listCommits], [repos.get], [git.createTree],
    [git.createCommit] and [git.updateRef].  Object names stand for SHA-1
    hashes; the engine only stores and passes them on.  Histories are linear:
    the log of the branch follows the first parent. *)
Module GitHub.

Definition sha := nat.

(** [commit.author] and [commit.committer] of a listed commit; the same
    shape is sent to [createCommit]. *)
Record Person := { name : string; email : string; date : string }.

Record TreeEntry := { path : string; mode : string; content : string }.

Record Tree := { tree_sha : sha; base_tree : sha; entries : list TreeEntry }.

(** An element of [commits.data]: [c.sha], [c.commit.message],
    [c.commit.tree.sha], [c.commit.author], [c.commit.committer]. *)
Record Commit := {
  commit_sha : sha;
  message : string;
  tree : sha;
  parents : list sha;
  author : Person;
  committer : Person;
}.

(** The object store lists objects newest first; [head] is the commit the
    default branch points to. *)
Record Repo := {
  trees : list Tree;
  commits : list Commit;
  head : sha;
  default_branch : string;
}.

(** The log of a commit: the commit, then the log of its first parent, which
    is an older object. *)
Fixpoint log_from (store : list Commit) (s : sha) : list Commit :=
  match store with
  | [] => []
  | c :: older =>
      if decide (commit_sha c = s) then
        c :: match parents c with
             | p :: _ => log_from older p
             | [] => []
             end
      else log_from older s
  end.

Definition branch_log (r : Repo) : list Commit := log_from (commits r) (head r).

(** Every object name the repository mentions. *)
Definition names (r : Repo) : list sha :=
  head r
  :: flat_map (fun t => [tree_sha t; base_tree t]) (trees r)
  ++ flat_map (fun c => commit_sha c :: tree c :: parents c) (commits r).

(** The name given to the next object: one that is not in use. *)
Definition fresh (r : Repo) : sha := S (max_list (names r)).

(** [GET /repos/{owner}/{repo}/commits?per_page=n]: the newest [n] commits
    of the default branch, newest first. *)
Definition listCommits (per_page : nat) (r : Repo) : list Commit :=
  take per_page (branch_log r).

(** [GET /repos/{owner}/{repo}]: [data.default_branch]. *)
Definition get (r : Repo) : string := default_branch r.

(** [POST /repos/{owner}/{repo}/git/trees]: [data.sha] of the new tree. *)
Definition createTree (base : sha) (tree : list TreeEntry) (r : Repo) : sha * Repo :=
  let s := fresh r in
  (s, {| trees := {| tree_sha := s; base_tree := base; entries := tree |} :: trees r;
         commits := commits r; head := head r; default_branch := default_branch r |}).

(** [POST /repos/{owner}/{repo}/git/commits]: [data.sha] of the new commit.
    The commit is stored; no reference moves. *)
Definition createCommit (message : string) (tree : sha) (parents : list sha)
    (author committer : Person) (r : Repo) : sha * Repo :=
  let s := fresh r in
  (s, {| trees := trees r;
         commits := {| commit_sha := s; message := message; tree := tree;
                       parents := parents; author := author;
                       committer := committer |} :: commits r;
         head := head r; default_branch := default_branch r |}).

(** [PATCH /repos/{owner}/{repo}/git/refs/{ref}] with [force: true]: the
    branch is moved to the commit whatever its position.  Only the default
    branch exists; another reference is refused ([None]). *)
Definition updateRef (ref : string) (s : sha) (r : Repo) : option Repo :=
  if decide (ref = "heads/" +:+ default_branch r) then
    Some {| trees := trees r; commits := commits r; head := s;
            default_branch := default_branch r |}
  else None.

End GitHub.

(** ** The submission source *)

(** The platform's GraphQL endpoint, as the three queries of the engine see
    it.  The platform keeps one record per attempt; the listing and the detail
    query are two views of that record. *)
Module LeetCode.

(** One attempt, as the platform stores it. *)
Record Attempt := {
  id : Z;
  timestamp : Z;              (* epoch seconds *)
  statusDisplay : string;
  titleSlug : string;
  lang : string;
  code : string;
  runtimeDisplay : string;
  memoryDisplay : string;
}.

(** [data.question] of the question query; [topicTags] holds the [name] of
    each tag. *)
Record Question := {
  title : string;
  content : string;
  difficulty : string;
  topicTags : list string;
}.

(** The account's attempts, newest first, and the problem set. *)
Record Source := {
  attempts : list Attempt;
  questions : gmap string Question;
}.

(** [data.submissionList] of the listing query: the fields of each entry
    that the engine reads are [id], [timestamp], [statusDisplay] and
    [titleSlug]. *)
Record SubmissionList := {
  hasNext : bool;
  submissions : list Attempt;
}.

(** [data.submissionDetails] of the detail query; [lang_name] is
    [lang.name]. *)
Record SubmissionDetails := {
  d_runtimeDisplay : string;
  d_memoryDisplay : string;
  d_code : string;
  d_timestamp : Z;
  lang_name : string;
}.

Definition submissionList (src : Source) (offset limit : nat) : SubmissionList :=
  {| hasNext := Nat.ltb (offset + limit) (length (attempts src));
     submissions := take limit (drop offset (attempts src)) |}.

(** [null] ([None]) when the platform has no such attempt. *)
Definition submissionDetails (src : Source) (i : Z) : option SubmissionDetails :=
  match List.find (fun a => id a =? i) (attempts src) with
  | Some a => Some {| d_runtimeDisplay := runtimeDisplay a;
                      d_memoryDisplay := memoryDisplay a;
                      d_code := code a;
                      d_timestamp := timestamp a;
                      lang_name := lang a |}
  | None => None
  end.

(** [null] ([None]) when the platform has no such problem. *)
Definition question (src : Source) (slug : string) : option Question :=
  questions src !! slug.

End LeetCode.

(** ** Effects *)

(** A run performs remote calls and sleeps, and it may fail.  The world is
    the repository, the list of failures about to hit the coming remote calls,
    and the trace of what the run did. *)
Module Effects.

(** What can be thrown. *)
Inductive Exn :=
| HttpError (reason : string)   (* a rejected request of axios or octokit *)
| Thrown (message : string)     (* [throw `...`] *)
| TypeError (message : string)  (* a property read on [undefined] or [null] *)
| RangeError (message : string).

Inductive Call :=
| ListCommits (per_page : nat)
| GetRepo
| CreateTree
| CreateCommit
| UpdateRef
| SubmissionList (offset limit : nat)
| SubmissionDetails (submissionId : Z)
| QuestionDetail (titleSlug : string).

Inductive Event :=
| Request (c : Call)
| Delay (ms : Z).

(** [faults]: the outcome of the coming requests, in order; [Some reason]
    rejects the request, [None] lets it through, and requests beyond the end
    of the list go through.  [trace] is in order of occurrence. *)
Record World := {
  repo : GitHub.Repo;
  faults : list (option string);
  trace : list Event;
}.

(** [Timeout] is the outcome of a loop that has not ended within the
    number of iterations the model was given. *)
Inductive Result (A : Type) :=
| Ok (a : A)
| Throw (e : Exn)
| Timeout.
Arguments Ok {A} a.
Arguments Throw {A} e.
Arguments Timeout {A}.

Definition M (A : Type) : Type := World -> Result A * World.

Definition ret {A} (a : A) : M A := fun w => (Ok a, w).

Definition throw {A} (e : Exn) : M A := fun w => (Throw e, w).

Definition timeout {A} : M A := fun w => (Timeout, w).

Definition bind {A B} (m : M A) (f : A -> M B) : M B := fun w =>
  match m w with
  | (Ok a, w') => f a w'
  | (Throw e, w') => (Throw e, w')
  | (Timeout, w') => (Timeout, w')
  end.

(** [try { m } catch (e) { handler e }] *)
Definition try_catch {A} (m : M A) (handler : Exn -> M A) : M A := fun w =>
  match m w with
  | (Throw e, w') => handler e w'
  | other => other
  end.

Definition emit (e : Event) (w : World) : World :=
  {| repo := repo w; faults := faults w; trace := trace w ++ [e] |}.

(** [await delay(ms)] *)
Definition delay (ms : Z) : M unit := fun w => (Ok tt, emit (Delay ms) w).

(** A remote call: it is recorded, then it is rejected if a failure is due,
    and served by the host otherwise. *)
Definition request {A} (c : Call) (serve : GitHub.Repo -> Exn + A * GitHub.Repo) : M A :=
  fun w =>
    let w := emit (Request c) w in
    let served rest :=
      match serve (repo w) with
      | inl e => (Throw e, {| repo := repo w; faults := rest; trace := trace w |})
      | inr (a, r) => (Ok a, {| repo := r; faults := rest; trace := trace w |})
      end in
    match faults w with
    | Some reason :: rest =>
        (Throw (HttpError reason), {| repo := repo w; faults := rest; trace := trace w |})
    | None :: rest => served rest
    | [] => served []
    end.

(** A query: a call that reads the repository, or does not touch it. *)
Definition query {A} (c : Call) (answer : GitHub.Repo -> A) : M A :=
  request c (fun r => inr (answer r, r)).

End Effects.

Declare Scope engine_scope.
Delimit Scope engine_scope with engine.
Notation "x <- m ;; k" := (Effects.bind m (fun x => k))
  (at level 100, m at next level, right associativity) : engine_scope.
Notation "m ;; k" := (Effects.bind m (fun _ => k))
  (at level 100, right associativity) : engine_scope.

(** ** The engine *)

Module Engine.
Import Effects.
Local Open Scope engine_scope.

Definition COMMIT_MESSAGE : string := "[".

(** The table is an object literal: it is read with [JSObject.get]. *)
Definition LANG_TO_EXTENSION : gmap string string := {[ "golang" := "go" ]}.

(** The numbers [mostRecentTimestamp] ranges over: [0], or the quotient
    [Date.parse(...) / 1000], which is [NaN] for a date that does not
    parse. *)
Inductive number :=
| Num (q : Q)
| NaN.

(** [Date.parse(date) / 1000] *)
Definition parse_seconds (date : string) : number :=
  match JSDate.parse date with
  | Some ms => Num (ms # 1000)
  | None => NaN
  end.

(** [t <= n]; a comparison with [NaN] is false. *)
Definition leq (t : Z) (n : number) : bool :=
  match n with
  | Num q => Qle_bool (inject_Z t) q
  | NaN => false
  end.

(** An element of the array [submissions] of [sync]. *)
Record Ref := { ref_id : Z; ref_titleSlug : string }.

(** The object [submission] built by [sync] for [commit]. *)
Record Submission := {
  id : Z;
  slug : string;
  title : string;
  lang : string;
  timestamp : Z;
  code : string;
  question : string;
  difficulty : string;
  tags : list string;
  runtimeDisplay : string;
  memoryDisplay : string;
  readme : option string;
}.

(** [submission.readme = text] *)
Definition set_readme (s : Submission) (text : string) : Submission :=
  {| id := id s; slug := slug s; title := title s; lang := lang s;
     timestamp := timestamp s; code := code s; question := question s;
     difficulty := difficulty s; tags := tags s;
     runtimeDisplay := runtimeDisplay s; memoryDisplay := memoryDisplay s;
     readme := Some text |}.

(** An array in a template literal: the elements separated by commas. *)
Fixpoint join (l : list string) : string :=
  match l with
  | [] => ""
  | [x] => x
  | x :: rest => x +:+ "," +:+ join rest
  end.

(** The property [readme] of a submission as [commit] sends it.  [sync]
    sets it before its only call of [commit] (line 284).  For a submission
    without it, which [commit] does not receive, the request would carry no
    content; the rendering below does not model that case. *)
Definition text (o : option string) : string := default "undefined" o.

(** The message of the commit made for a submission (line 73). *)
Definition commit_message (submission : Submission) : string :=
  COMMIT_MESSAGE +:+ difficulty submission +:+ "] [" +:+ join (tags submission)
    +:+ "] [" +:+ runtimeDisplay submission +:+ "] [" +:+ memoryDisplay submission +:+ "]".

(** [commit(params)], lines 31 to 99.  The fields [octokit], [owner] and
    [repo] of [params] designate the repository, which is the one of the
    world. *)
Definition commit (defaultBranch : string) (commitInfo : GitHub.Person)
    (treeSHA latestCommitSHA : GitHub.sha) (submission : Submission)
    : M (GitHub.sha * GitHub.sha) :=
  if negb (JSObject.truthy (JSObject.get LANG_TO_EXTENSION (lang submission))) then
    throw (Thrown ("Language " +:+ lang submission
                     +:+ " does not have a registered extension."))
  else
    let treeData := [
      {| GitHub.path := title submission +:+ "/" +:+ slug submission +:+ "."
                          +:+ JSObject.template
                                (JSObject.get LANG_TO_EXTENSION (lang submission));
         GitHub.mode := "100644";
         GitHub.content := code submission |};
      {| GitHub.path := title submission +:+ "/README.md";
         GitHub.mode := "100644";
         GitHub.content := text (readme submission) |} ] in
    treeResponse <- request CreateTree
                      (fun r => inr (GitHub.createTree treeSHA treeData r));;
    match JSDate.toISOString (timestamp submission * 1000) with
    | None => throw (RangeError "Invalid time value")
    | Some date =>
        let person := {| GitHub.email := GitHub.email commitInfo;
                         GitHub.name := GitHub.name commitInfo;
                         GitHub.date := date |} in
        commitResponse <- request CreateCommit
                            (fun r => inr (GitHub.createCommit (commit_message submission)
                                             treeResponse [latestCommitSHA] person person r));;
        request UpdateRef
          (fun r => match GitHub.updateRef ("heads/" +:+ defaultBranch) commitResponse r with
                    | Some r' => inr (tt, r')
                    | None => inl (HttpError "Reference does not exist")
                    end);;
        ret (treeResponse, commitResponse)
    end.

(** The loop of [addToSubmissions] over the entries of a page. *)
Fixpoint addEntries (entries : list LeetCode.Attempt) (submissions : list Ref)
    (mostRecentTimestamp : number) : bool * list Ref :=
  match entries with
  | [] => (true, submissions)
  | submission :: entries =>
      let submissionTimestamp := LeetCode.timestamp submission in
      if leq submissionTimestamp mostRecentTimestamp then (false, submissions)
      else if negb (String.eqb (LeetCode.statusDisplay submission) "Accepted") then
        addEntries entries submissions mostRecentTimestamp
      else
        addEntries entries
          (submissions ++ [ {| ref_id := LeetCode.id submission;
                               ref_titleSlug := LeetCode.titleSlug submission |} ])
          mostRecentTimestamp
  end.

(** [addToSubmissions(params)], lines 102 to 126: the flag returned, and the
    array [submissions] after the call. *)
Definition addToSubmissions (response : LeetCode.SubmissionList) (submissions : list Ref)
    (mostRecentTimestamp : number) : bool * list Ref :=
  addEntries (LeetCode.submissions response) submissions mostRecentTimestamp.

(** The loop of lines 155 to 162. *)
Fixpoint scan (commits : list GitHub.Commit) (mostRecentTimestamp : number)
    (commitInfo : GitHub.Person) : number * GitHub.Person :=
  match commits with
  | [] => (mostRecentTimestamp, commitInfo)
  | commit :: commits =>
      if negb (String.prefix COMMIT_MESSAGE (GitHub.message commit)) then
        scan commits mostRecentTimestamp commitInfo
      else
        (parse_seconds (GitHub.date (GitHub.committer commit)), GitHub.author commit)
  end.

(** Lines 150 to 162 of [sync]: [mostRecentTimestamp] and [commitInfo] from
    the listed commits.  Reading [commits.data[commits.data.length - 1]] of
    an empty list yields [undefined], whose property [commit] cannot be
    read. *)
Definition resolveCheckpoint (commits : list GitHub.Commit) : M (number * GitHub.Person) :=
  match last commits with
  | None => throw (TypeError "Cannot read properties of undefined (reading 'commit')")
  | Some oldest => ret (scan commits (Num 0) (GitHub.author oldest))
  end.

(** The body shared by the closures [getSubmissions] (lines 172 to 219) and
    [getInfo] (lines 330 to 350): try the request; when it fails, rethrow
    if [retryCount >= maxRetries], else sleep [3 ** retryCount] seconds and
    call again with [retryCount + 1].  [fuel] bounds the depth of the
    calls. *)
Fixpoint retrying {A} (fuel : nat) (attempt : M A) (maxRetries retryCount : nat) : M A :=
  match fuel with
  | O => timeout
  | S fuel =>
      try_catch attempt
        (fun exception =>
           if (maxRetries <=? retryCount)%nat then throw exception
           else
             delay (3 ^ Z.of_nat retryCount * 1000);;
             retrying fuel attempt maxRetries (retryCount + 1))
  end.

Section Run.

(** The platform during the run, and the two rendering collaborators:
    [NodeHtmlMarkdown.translate] and [sprightly.sprightly]. *)
Variable src : LeetCode.Source.
Variable translate : string -> string.
Variable sprightly : string -> Submission -> string.

(** [getSubmissions(maxRetries, retryCount = 0)] at the current
    [offset]. *)
Definition getSubmissions (offset : nat) (maxRetries retryCount : nat)
    : M LeetCode.SubmissionList :=
  retrying (S (maxRetries - retryCount))
    (query (SubmissionList offset 20) (fun _ => LeetCode.submissionList src offset 20))
    maxRetries retryCount.

(** [getSubmissionData(id, session, csrfToken)], lines 309 to 353: the
    field [data.data.submissionDetails] of the response of
    [getInfo()]. *)
Definition getSubmissionData (id : Z) : M (option LeetCode.SubmissionDetails) :=
  let getInfo maxRetries retryCount :=
    retrying (S (maxRetries - retryCount))
      (query (SubmissionDetails id) (fun _ => LeetCode.submissionDetails src id))
      maxRetries retryCount in
  getInfo 5%nat 0%nat.

(** [getQuestionData(titleSlug, session, csrfToken)], lines 356 to 384:
    the field [data.data.question] of the response, or [undefined]
    ([None]) when the request failed, the [catch] block having printed the
    error and returned nothing. *)
Definition getQuestionData (titleSlug : string) : M (option (option LeetCode.Question)) :=
  try_catch
    (response <- query (QuestionDetail titleSlug) (fun _ => LeetCode.question src titleSlug);;
     ret (Some response))
    (fun error => ret None).

(** The loop [do { ... } while (response.data.data.submissionList.hasNext)]
    of lines 169 to 239, entered with the current [response], [offset] and
    [submissions]; it yields the final [submissions].  [fuel] bounds the
    number of iterations. *)
Fixpoint listing (fuel : nat) (mostRecentTimestamp : number)
    (response : option LeetCode.SubmissionList) (offset : nat)
    (submissions : list Ref) : M (list Ref) :=
  match fuel with
  | O => timeout
  | S fuel =>
      let maxRetries := match response with None => 0%nat | Some _ => 5%nat end in
      match response with
      | None => ret tt
      | Some _ => delay 1000
      end;;
      response <- getSubmissions offset maxRetries 0;;
      let (more, submissions) := addToSubmissions response submissions mostRecentTimestamp in
      if negb more then ret submissions
      else
        let offset := (offset + 20)%nat in
        if LeetCode.hasNext response then
          listing fuel mostRecentTimestamp (Some response) offset submissions
        else ret submissions
  end.

(** One iteration of the loop of lines 255 to 296, for [submissions[i]];
    it yields the new [treeSHA] and [latestCommitSHA]. *)
Definition syncOne (ref : Ref) (defaultBranch : string) (commitInfo : GitHub.Person)
    (treeSHA latestCommitSHA : GitHub.sha) : M (GitHub.sha * GitHub.sha) :=
  submissionData <- getSubmissionData (ref_id ref);;
  questionData <- getQuestionData (ref_titleSlug ref);;
  match questionData with
  | None => throw (TypeError "Cannot read properties of undefined (reading 'data')")
  | Some question =>
      match question with
      | None => throw (TypeError "Cannot read properties of null (reading 'topicTags')")
      | Some question =>
          let tags := LeetCode.topicTags question in
          match submissionData with
          | None => throw (TypeError "Cannot read properties of null (reading 'lang')")
          | Some submissionDetails =>
              let submission := {|
                id := ref_id ref;
                slug := ref_titleSlug ref;
                title := LeetCode.title question;
                lang := LeetCode.lang_name submissionDetails;
                timestamp := LeetCode.d_timestamp submissionDetails;
                code := LeetCode.d_code submissionDetails;
                question := translate (LeetCode.content question);
                difficulty := LeetCode.difficulty question;
                tags := tags;
                runtimeDisplay := LeetCode.d_runtimeDisplay submissionDetails;
                memoryDisplay := LeetCode.d_memoryDisplay submissionDetails;
                readme := None |} in
              let submission := set_readme submission (sprightly "readme.tmpl" submission) in
              commit defaultBranch commitInfo treeSHA latestCommitSHA submission
          end
      end
  end.

(** The loop [for (i = submissions.length - 1; i >= 0; i--)], entered with
    [i = n - 1]. *)
Fixpoint syncAll (n : nat) (submissions : list Ref) (defaultBranch : string)
    (commitInfo : GitHub.Person) (treeSHA latestCommitSHA : GitHub.sha) : M unit :=
  match n with
  | O => ret tt
  | S i =>
      match submissions !! i with
      | None => throw (TypeError "Cannot read properties of undefined (reading 'id')")
      | Some ref =>
          next <- syncOne ref defaultBranch commitInfo treeSHA latestCommitSHA;;
          syncAll i submissions defaultBranch commitInfo next.1 next.2
      end
  end.

(** [sync(inputs)], lines 128 to 298.  The credentials of [inputs] are
    those the requests are made with; [fuel] bounds the number of pages
    requested. *)
Definition sync (fuel : nat) : M unit :=
  commits <- query (ListCommits 100) (GitHub.listCommits 100);;
  checkpoint <- resolveCheckpoint commits;;
  let (mostRecentTimestamp, commitInfo) := checkpoint in
  submissions <- listing fuel mostRecentTimestamp None 0 [];;
  defaultBranch <- query GetRepo GitHub.get;;
  match commits with
  | [] => throw (TypeError "Cannot read properties of undefined (reading 'sha')")
  | newest :: _ =>
      syncAll (length submissions) submissions defaultBranch commitInfo
        (GitHub.tree newest) (GitHub.commit_sha newest)
  end.

End Run.

End Engine.

(** ** The vocabulary of the design document *)

Module Spec.
Import Engine.

(** A commit carries the sync marker when its message starts with it. *)
Definition marked (c : GitHub.Commit) : bool :=
  String.prefix COMMIT_MESSAGE (GitHub.message c).

Definition accepted (a : LeetCode.Attempt) : bool :=
  String.eqb (LeetCode.statusDisplay a) "Accepted".

(** An entry is above the checkpoint when its timestamp is not at or below
    it. *)
Definition above (resumeTimestamp : number) (a : LeetCode.Attempt) : bool :=
  negb (leq (LeetCode.timestamp a) resumeTimestamp).

Fixpoint take_while {A} (p : A -> bool) (l : list A) : list A :=
  match l with
  | [] => []
  | x :: l => if p x then x :: take_while p l else []
  end.

(** The entries considered: those delivered before the first entry at or
    below the checkpoint. *)
Definition considered (resumeTimestamp : number) (entries : list LeetCode.Attempt)
    : list LeetCode.Attempt :=
  take_while (above resumeTimestamp) entries.

Definition ref_of (a : LeetCode.Attempt) : Ref :=
  {| ref_id := LeetCode.id a; ref_titleSlug := LeetCode.titleSlug a |}.

(** The result list: the accepted entries among those considered, newest
    first. *)
Definition gathered (resumeTimestamp : number) (entries : list LeetCode.Attempt)
    : list Ref :=
  map ref_of (List.filter accepted (considered resumeTimestamp entries)).

(** The pending submissions, oldest first. *)
Definition pending (resumeTimestamp : number) (src : LeetCode.Source)
    : list LeetCode.Attempt :=
  rev (List.filter accepted (considered resumeTimestamp (LeetCode.attempts src))).

(** The checkpoint of the contract of the Checkpoint Resolver: the first
    marked commit gives its committer date in seconds and its author; with
    no marked commit, [0] and the author of the oldest commit. *)
Definition checkpoint (commits : list GitHub.Commit) : option (number * GitHub.Person) :=
  match List.find marked commits with
  | Some c => Some (parse_seconds (GitHub.date (GitHub.committer c)), GitHub.author c)
  | None =>
      match last commits with
      | Some oldest => Some (Num 0, GitHub.author oldest)
      | None => None
      end
  end.

(** The checkpoint of a repository: that of its newest 100 commits. *)
Definition checkpoint_of (r : GitHub.Repo) : option (number * GitHub.Person) :=
  checkpoint (GitHub.listCommits 100 r).

(** The author and committer of the commit made for an attempt. *)
Definition signature (authorIdentity : GitHub.Person) (a : LeetCode.Attempt)
    : option GitHub.Person :=
  date ← JSDate.toISOString (LeetCode.timestamp a * 1000);
  Some {| GitHub.name := GitHub.name authorIdentity;
          GitHub.email := GitHub.email authorIdentity;
          GitHub.date := date |}.

(** The message of the commit made for an attempt on a question. *)
Definition message_for (a : LeetCode.Attempt) (q : LeetCode.Question) : string :=
  "[" +:+ LeetCode.difficulty q +:+ "] [" +:+ join (LeetCode.topicTags q)
    +:+ "] [" +:+ LeetCode.runtimeDisplay a +:+ "] [" +:+ LeetCode.memoryDisplay a +:+ "]".

(** [c] is the commit of attempt [a]: signed by [authorIdentity] at the
    instant of the attempt, with the message of the attempt. *)
Definition commit_of (src : LeetCode.Source) (authorIdentity : GitHub.Person)
    (a : LeetCode.Attempt) (c : GitHub.Commit) : Prop :=
  signature authorIdentity a = Some (GitHub.author c)
  /\ GitHub.committer c = GitHub.author c
  /\ (exists q, LeetCode.questions src !! LeetCode.titleSlug a = Some q
                /\ GitHub.message c = message_for a q).

(** [chained p cs]: the commits [cs], oldest first, each have the previous
    one as their only parent, the first one having [p]. *)
Fixpoint chained (p : GitHub.sha) (cs : list GitHub.Commit) : Prop :=
  match cs with
  | [] => True
  | c :: cs => GitHub.parents c = [p] /\ chained (GitHub.commit_sha c) cs
  end.

(** An attempt the engine can commit: its language has an extension, its
    question is known, and its time is one of the years 1970 to 9999. *)
Definition committable (src : LeetCode.Source) (a : LeetCode.Attempt) : Prop :=
  is_Some (LANG_TO_EXTENSION !! LeetCode.lang a)
  /\ is_Some (LeetCode.questions src !! LeetCode.titleSlug a)
  /\ 0 <= LeetCode.timestamp a < 253402300800.

(** The platform delivers the attempts in strictly decreasing order of
    time, and names each attempt once. *)
Definition newest_first (src : LeetCode.Source) : Prop :=
  StronglySorted Z.gt (map LeetCode.timestamp (LeetCode.attempts src)).

Definition distinct_ids (src : LeetCode.Source) : Prop :=
  NoDup (map LeetCode.id (LeetCode.attempts src)).

(** The commit object [commit] stores for a submission. *)
Definition commit_object (commitInfo : GitHub.Person) (latestCommitSHA : GitHub.sha)
    (submission : Submission) (date : string) (s t : GitHub.sha) : GitHub.Commit :=
  let person := {| GitHub.name := GitHub.name commitInfo;
                   GitHub.email := GitHub.email commitInfo;
                   GitHub.date := date |} in
  {| GitHub.commit_sha := s; GitHub.message := commit_message submission;
     GitHub.tree := t; GitHub.parents := [latestCommitSHA];
     GitHub.author := person; GitHub.committer := person |}.

(** The answer of the detail query about an attempt. *)
Definition details_of (a : LeetCode.Attempt) : LeetCode.SubmissionDetails :=
  {| LeetCode.d_runtimeDisplay := LeetCode.runtimeDisplay a;
     LeetCode.d_memoryDisplay := LeetCode.memoryDisplay a;
     LeetCode.d_code := LeetCode.code a;
     LeetCode.d_timestamp := LeetCode.timestamp a;
     LeetCode.lang_name := LeetCode.lang a |}.

(** [created r r']: the commits of [r'] that [r] does not have carry the
    marker. *)
Definition created (r r' : GitHub.Repo) : Prop :=
  forall c, c ∈ GitHub.commits r' ->
    c ∈ GitHub.commits r \/ String.prefix "[" (GitHub.message c) = true.

Section Made.

Variable src : LeetCode.Source.
Variable translate : string -> string.
Variable sprightly : string -> Submission -> string.

(** The object [submission] that an iteration of [sync] builds from the
    two responses (lines 270 to 284). *)
Definition enriched (ref : Ref) (details : LeetCode.SubmissionDetails)
    (q : LeetCode.Question) : Submission :=
  let submission := {|
    id := ref_id ref;
    slug := ref_titleSlug ref;
    title := LeetCode.title q;
    lang := LeetCode.lang_name details;
    timestamp := LeetCode.d_timestamp details;
    code := LeetCode.d_code details;
    question := translate (LeetCode.content q);
    difficulty := LeetCode.difficulty q;
    tags := LeetCode.topicTags q;
    runtimeDisplay := LeetCode.d_runtimeDisplay details;
    memoryDisplay := LeetCode.d_memoryDisplay details;
    readme := None |} in
  set_readme submission (sprightly "readme.tmpl" submission).

(** [c] is a commit made for the element [ref] of [submissions]. *)
Definition made (commitInfo : GitHub.Person) (ref : Ref) (c : GitHub.Commit) : Prop :=
  exists details q date,
    LeetCode.submissionDetails src (ref_id ref) = Some details
    /\ LeetCode.question src (ref_titleSlug ref) = Some q
    /\ JSObject.truthy (JSObject.get LANG_TO_EXTENSION (LeetCode.lang_name details)) = true
    /\ JSDate.toISOString (LeetCode.d_timestamp details * 1000) = Some date
    /\ c = commit_object commitInfo (hd O (GitHub.parents c))
             (enriched ref details q) date (GitHub.commit_sha c) (GitHub.tree c)
    /\ length (GitHub.parents c) = 1%nat.

(** Why an iteration for [ref] throws [e] although its requests went
    through: the platform does not know the attempt or the question; or
    the table has nothing for the language, and then the repository is
    as before;
    or the language has one and the time is out of range; or the branch is
    not the default one. *)
Definition refused (ref : Ref) (defaultBranch : string) (r : GitHub.Repo)
    (e : Effects.Exn) (r' : GitHub.Repo) : Prop :=
  LeetCode.submissionDetails src (ref_id ref) = None
  \/ LeetCode.question src (ref_titleSlug ref) = None
  \/ exists details q,
       LeetCode.submissionDetails src (ref_id ref) = Some details
       /\ LeetCode.question src (ref_titleSlug ref) = Some q
       /\ ((JSObject.truthy (JSObject.get LANG_TO_EXTENSION (LeetCode.lang_name details))
             = false
            /\ e = Effects.Thrown ("Language " +:+ LeetCode.lang_name details
                                     +:+ " does not have a registered extension.")
            /\ r' = r)
           \/ (JSObject.truthy (JSObject.get LANG_TO_EXTENSION (LeetCode.lang_name details))
                = true
               /\ JSDate.toISOString (LeetCode.d_timestamp details * 1000) = None)
           \/ defaultBranch <> GitHub.default_branch r).

(** What a run leaves, started in world [w] on a repository whose
    checkpoint is [(mostRecentTimestamp, commitInfo)]: the commits [cs],
    oldest first, were made for the oldest of the gathered submissions and
    chained on top of the head, and [r] is the repository they leave.
    Then either the run ended, all of them being committed, or it failed:
    by a rejected request, by lack of fuel before the first commit, or by
    an iteration that threw. *)
Definition run_outcome (fuel : nat) (mostRecentTimestamp : number)
    (commitInfo : GitHub.Person) (w : Effects.World) (res : Effects.Result unit)
    (w' : Effects.World) : Prop :=
  let order := rev (gathered mostRecentTimestamp (LeetCode.attempts src)) in
  GitHub.default_branch (Effects.repo w') = GitHub.default_branch (Effects.repo w)
  /\ created (Effects.repo w) (Effects.repo w')
  /\ exists cs r,
      Forall2 (made commitInfo) (take (length cs) order) cs
      /\ (length cs <= length order)%nat
      /\ chained (GitHub.head (Effects.repo w)) cs
      /\ GitHub.branch_log r = rev cs ++ GitHub.branch_log (Effects.repo w)
      /\ GitHub.commits r = rev cs ++ GitHub.commits (Effects.repo w)
      /\ length (GitHub.trees r)
         = (length (GitHub.trees (Effects.repo w)) + length cs)%nat
      /\ GitHub.default_branch r = GitHub.default_branch (Effects.repo w)
      /\ GitHub.branch_log (Effects.repo w') = GitHub.branch_log r
      /\ (cs = [] -> r = Effects.repo w)
      /\ (length cs = length order -> Effects.repo w' = r)
      /\ ((res = Effects.Ok tt /\ length cs = length order
            /\ (Effects.faults w = [] -> Effects.faults w' = []))
          \/ ((forall v, res <> Effects.Ok v)
              /\ (Effects.faults w <> []
                  \/ (res = Effects.Timeout
                      /\ ~ (length (LeetCode.attempts src) < 20 * fuel)%nat)
                  \/ (exists e ref,
                        res = Effects.Throw e
                        /\ order !! length cs = Some ref
                        /\ (Effects.faults w = [] -> Effects.faults w' = [])
                        /\ refused ref (GitHub.default_branch (Effects.repo w)) r e
                             (Effects.repo w'))))).

End Made.

(** What a retried request leaves in the trace after [n] failed attempts
    numbered from [first]: each failed attempt and the sleep that follows
    it, then the attempt that ends the sequence. *)
Definition retry_trace (c : Effects.Call) (first n : nat) : list Effects.Event :=
  flat_map (fun i => [Effects.Request c; Effects.Delay (3 ^ Z.of_nat i * 1000)])
    (seq first n)
    ++ [Effects.Request c].

End Spec.

(** ** The calendar of the design document *)

(** "Committer date converted to epoch seconds", written from the civil
    calendar: the seconds from 1970-01-01T00:00:00Z to an instant given by its
    fields, counted year by year and month by month.  The engine's
    conversion is compared with it below. *)
Module Calendar.

Definition leap (y : Z) : bool :=
  (y mod 4 =? 0) && (negb (y mod 100 =? 0) || (y mod 400 =? 0)).

(** The lengths of the months of year [y]. *)
Definition months (y : Z) : list Z :=
  [31; if leap y then 29 else 28; 31; 30; 31; 30; 31; 31; 30; 31; 30; 31].

Definition month_length (y m : Z) : Z := nth (Z.to_nat (m - 1)) (months y) 0.

(** The leap years from year 1 to the year before [y]. *)
Definition leaps_before (y : Z) : Z := (y - 1) / 4 - (y - 1) / 100 + (y - 1) / 400.

(** The days from 1 January 1970 to 1 January of year [y]. *)
Definition days_before_year (y : Z) : Z :=
  365 * (y - 1970) + (leaps_before y - leaps_before 1970).

(** The days from 1 January of year [y] to the first of its month [m]. *)
Definition days_before_month (y m : Z) : Z :=
  foldr Z.add 0 (take (Z.to_nat (m - 1)) (months y)).

Definition epoch_seconds (y m d h mi s : Z) : Z :=
  (days_before_year y + days_before_month y m + (d - 1)) * 86400
  + h * 3600 + mi * 60 + s.

(** The fields of an instant of the years 0000 to 9999. *)
Definition valid (y m d h mi s : Z) : Prop :=
  0 <= y <= 9999 /\ 1 <= m <= 12 /\ 1 <= d <= month_length y m
  /\ 0 <= h <= 23 /\ 0 <= mi <= 59 /\ 0 <= s <= 59.

(** The instant as the host writes it: [YYYY-MM-DDTHH:MM:SSZ]. *)
Definition instant (y m d h mi s : Z) : string :=
  JSDate.pad 4 y (String "-" (JSDate.pad 2 m (String "-" (JSDate.pad 2 d (String "T"
    (JSDate.pad 2 h (String ":" (JSDate.pad 2 mi (String ":" (JSDate.pad 2 s "Z")))))))))).

End Calendar.

(** ** A sample account and repository *)

(** The data the theorems are exercised on: a repository holding one commit
    made by hand, and an account with three attempts at one problem. *)
Module Sample.
Import Effects.

Definition ada : GitHub.Person :=
  {| GitHub.name := "Ada"; GitHub.email := "ada@example.org";
     GitHub.date := "2022-12-31T10:00:00Z" |}.

Definition initial : GitHub.Commit :=
  {| GitHub.commit_sha := 1%nat; GitHub.message := "Initial commit";
     GitHub.tree := 0%nat; GitHub.parents := [];
     GitHub.author := ada; GitHub.committer := ada |}.

Definition repository : GitHub.Repo :=
  {| GitHub.trees := []; GitHub.commits := [initial]; GitHub.head := 1%nat;
     GitHub.default_branch := "main" |}.

Definition empty_repository : GitHub.Repo :=
  {| GitHub.trees := []; GitHub.commits := []; GitHub.head := 0%nat;
     GitHub.default_branch := "main" |}.

Definition attempt (i t : Z) (status language : string) : LeetCode.Attempt :=
  {| LeetCode.id := i; LeetCode.timestamp := t; LeetCode.statusDisplay := status;
     LeetCode.titleSlug := "two-sum"; LeetCode.lang := language;
     LeetCode.code := "package main"; LeetCode.runtimeDisplay := "3 ms";
     LeetCode.memoryDisplay := "2 MB" |}.

Definition two_sum : LeetCode.Question :=
  {| LeetCode.title := "Two Sum"; LeetCode.content := "<p>Given an array</p>";
     LeetCode.difficulty := "Easy"; LeetCode.topicTags := ["Array"; "Hash Table"] |}.

(** Two accepted attempts in Go around a rejected one. *)
Definition account : LeetCode.Source :=
  {| LeetCode.attempts :=
       [ attempt 13 1672531500 "Accepted" "golang";
         attempt 12 1672531400 "Wrong Answer" "golang";
         attempt 11 1672531200 "Accepted" "golang" ];
     LeetCode.questions := {[ "two-sum" := two_sum ]} |}.

(** The same, the second attempt being accepted and written in Rust. *)
Definition account_with_rust : LeetCode.Source :=
  {| LeetCode.attempts :=
       [ attempt 13 1672531500 "Accepted" "golang";
         attempt 12 1672531400 "Accepted" "rust";
         attempt 11 1672531200 "Accepted" "golang" ];
     LeetCode.questions := {[ "two-sum" := two_sum ]} |}.

Definition translate (html : string) : string := html.

Definition sprightly (template : string) (submission : Engine.Submission) : string :=
  "# " +:+ Engine.title submission.

Definition world (r : GitHub.Repo) (failures : list (option string)) : World :=
  {| repo := r; faults := failures; trace := [] |}.

(** A history of three commits, the oldest of which carries the marker and
    the date of the example of the design document. *)
Definition marked_third : list GitHub.Commit :=
  let by_hand message :=
    {| GitHub.commit_sha := 0%nat; GitHub.message := message; GitHub.tree := 0%nat;
       GitHub.parents := []; GitHub.author := ada; GitHub.committer := ada |} in
  [ by_hand "Update README"; by_hand "Add licence";
    {| GitHub.commit_sha := 0%nat; GitHub.message := "[Easy] [Array] [3 ms] [2 MB]";
       GitHub.tree := 0%nat; GitHub.parents := [];
       GitHub.author := {| GitHub.name := "Grace"; GitHub.email := "grace@example.org";
                           GitHub.date := "2023-01-01T00:00:00Z" |};
       GitHub.committer := {| GitHub.name := "Grace"; GitHub.email := "grace@example.org";
                              GitHub.date := "2023-01-01T00:00:00Z" |} |} ].

End Sample.

(** ** The shape of a run *)

(** What a run that nothing stops leaves in the trace and in the object
    store, for the statements about whole runs. *)
Module Shape.
Import Effects Engine.

(** The requests of one iteration of the commit loop: the two lookups, then
    the three writes of [commit]. *)
Definition requests_of (ref : Ref) : list Event :=
  [ Request (SubmissionDetails (ref_id ref));
    Request (QuestionDetail (ref_titleSlug ref));
    Request CreateTree; Request CreateCommit; Request UpdateRef ].

(** The [count] pages of the listing from page number [first] on, each
    requested after a sleep of one second. *)
Definition pages_trace (first count : nat) : list Event :=
  flat_map (fun k => [Delay 1000; Request (SubmissionList (20 * k) 20)])
    (seq first count).

(** The number of pages requested after the first one, when [stop] entries
    are delivered before the first one at or below the checkpoint and the
    account has [total] entries. *)
Definition later_pages (stop total : nat) : nat := (stop `min` (total - 1)) / 20.

(** [based b ts]: the trees [ts], oldest first, are each built on the
    previous one, the first one on [b]. *)
Fixpoint based (b : GitHub.sha) (ts : list GitHub.Tree) : Prop :=
  match ts with
  | [] => True
  | t :: ts => GitHub.base_tree t = b /\ based (GitHub.tree_sha t) ts
  end.

(** The events of a trace that are sleeps, in milliseconds. *)
Definition sleeps (t : list Event) : list Z :=
  omap (fun e => match e with Delay ms => Some ms | Request _ => None end) t.

(** The calls of a trace. *)
Definition calls (t : list Event) : list Call :=
  omap (fun e => match e with Request c => Some c | Delay _ => None end) t.

End Shape.

(** ** A long history *)

(** A repository whose branch has 101 commits: the oldest one was made by the
    engine, the hundred on top of it by hand. *)
Module History.

Definition by_hand (n : nat) : GitHub.Commit :=
  {| GitHub.commit_sha := S n;
     GitHub.message := if decide (n = 0%nat) then "[Easy] [Array] [3 ms] [2 MB]"
                       else "Update notes";
     GitHub.tree := 0%nat;
     GitHub.parents := match n with O => [] | S _ => [n] end;
     GitHub.author := {| GitHub.name := if decide (n = 1%nat) then "Grace" else "Ada";
                         GitHub.email := "team@example.org";
                         GitHub.date := "2023-01-01T00:00:00Z" |};
     GitHub.committer := {| GitHub.name := "Ada"; GitHub.email := "team@example.org";
                            GitHub.date := "2023-01-01T00:00:00Z" |} |}.

Definition long : GitHub.Repo :=
  {| GitHub.trees := []; GitHub.commits := map by_hand (rev (seq 0 101));
     GitHub.head := 101%nat; GitHub.default_branch := "main" |}.

End History.
(** * Facts about the Date built-ins *)

Example toISOString_2023 :
  JSDate.toISOString 1672531200000 = Some "2023-01-01T00:00:00.000Z"%string.
Proof. reflexivity. Qed.

Example parse_2023 : JSDate.parse "2023-01-01T00:00:00Z" = Some 1672531200000.
Proof. reflexivity. Qed.

Example parse_2023_ms : JSDate.parse "2024-02-29T23:59:59.123Z" = Some 1709251199123.
Proof. reflexivity. Qed.

Example parse_carries_over : JSDate.parse "2023-02-29T00:00:00Z" = Some 1677628800000.
Proof. reflexivity. Qed.

Example parse_invalid : JSDate.parse "2023-13-01T00:00:00Z" = None.
Proof. reflexivity. Qed.

Module JSDateFacts.
Import JSDate.

Lemma digit_value_digit n : digit_value (digit n) = Some (n mod 10).
Proof.
  unfold digit.
  assert (H : 0 <= n mod 10 < 10) by (apply Z.mod_pos_bound; lia).
  destruct (n mod 10) as [|p|p] eqn:E; try lia.
  - reflexivity.
  - do 4 (destruct p as [p|p|]; try lia; try reflexivity).
Qed.

Lemma number_pad w : forall n acc rest k,
  0 <= n < 10 ^ Z.of_nat w ->
  number (w + k) acc (pad w n rest) = number k (acc * 10 ^ Z.of_nat w + n) rest.
Proof.
  induction w as [|w IH]; intros n acc rest k Hn.
  - simpl in *. f_equal. lia.
  - cbn [pad]. replace (S w + k)%nat with (w + S k)%nat by lia.
    rewrite Nat2Z.inj_succ, Z.pow_succ_r in * by lia.
    rewrite IH by (split; [apply Z.div_pos; lia | apply Z.div_lt_upper_bound; lia]).
    cbn [number]. rewrite digit_value_digit. f_equal.
    pose proof (Z.div_mod n 10 ltac:(lia)). lia.
Qed.

Lemma number_pad0 w n rest :
  0 <= n < 10 ^ Z.of_nat w -> number w 0 (pad w n rest) = Some (n, rest).
Proof.
  intros H. replace w with (w + 0)%nat at 1 by lia.
  rewrite number_pad by done. simpl. f_equal. 
Qed.

Lemma civil_of_doe_facts doe :
  0 <= doe < 146097 ->
  let '(yoe, mp, d) := civil_of_doe doe in
  0 <= yoe < 400 /\ 0 <= mp <= 11 /\ 1 <= d <= 31 /\
  (mp = 1 \/ mp = 3 \/ mp = 6 \/ mp = 8 -> d <= 30) /\
  (mp = 11 -> d <= 29) /\
  (mp = 11 -> d = 29 ->
     (yoe + 1) mod 4 = 0 /\ ((yoe + 1) mod 100 <> 0 \/ (yoe + 1) mod 400 = 0)) /\
  yoe * 365 + yoe / 4 - yoe / 100 + ((153 * mp + 2) / 5 + d - 1) = doe /\
  (doe < 146037 -> yoe + (if mp <? 10 then 0 else 1) <= 399) /\
  (135080 <= doe -> 370 <= yoe + (if mp <? 10 then 0 else 1)).
Proof.
  intros H. unfold civil_of_doe.
  set (yoe := (doe - doe / 1460 + doe / 36524 - doe / 146096) / 365).
  set (doy := doe - (365 * yoe + yoe / 4 - yoe / 100)).
  set (mp := (5 * doy + 2) / 153).
  assert (Hy : 0 <= yoe < 400 /\ 0 <= doy <= 365 /\
               (doy = 365 -> (yoe + 1) mod 4 = 0 /\
                  ((yoe + 1) mod 100 <> 0 \/ (yoe + 1) mod 400 = 0)) /\
               (doe < 146037 -> yoe < 399 \/ doy < 306) /\
               (135080 <= doe -> 370 <= yoe \/ (369 <= yoe /\ 306 <= doy))).
  { subst doy yoe. Z.div_mod_to_equations; lia. }
  destruct Hy as (Hyoe & Hdoy & Hleap & Hhi & Hlo).
  assert (Hm : 0 <= mp <= 11 /\ 1 <= doy - (153 * mp + 2) / 5 + 1 <= 31 /\
               (mp = 1 \/ mp = 3 \/ mp = 6 \/ mp = 8 -> doy - (153 * mp + 2) / 5 + 1 <= 30) /\
               (mp = 11 -> doy - (153 * mp + 2) / 5 + 1 = doy - 336) /\
               (mp < 10 <-> doy < 306)).
  { subst mp. clearbody doy. clear -Hdoy. Z.div_mod_to_equations; lia. }
  destruct Hm as (Hmp & Hd & H30 & H11 & H10).
  split; [lia|]. split; [lia|]. split; [lia|]. split; [exact H30|].
  split. { intros E. specialize (H11 E). lia. }
  split. { intros E E'. apply Hleap. specialize (H11 E). lia. }
  split. { subst doy. lia. }
  split; intros E; destruct (Z.ltb_spec mp 10); lia.
Qed.

Lemma is_leap_shift y k : is_leap (y + k * 400) = is_leap y.
Proof.
  unfold is_leap.
  replace ((y + k * 400) mod 4) with (y mod 4) by (Z.div_mod_to_equations; lia).
  replace ((y + k * 400) mod 100) with (y mod 100) by (Z.div_mod_to_equations; lia).
  replace ((y + k * 400) mod 400) with (y mod 400) by (Z.div_mod_to_equations; lia).
  done.
Qed.

Lemma civil_from_days_valid z :
  let '(y, m, d) := civil_from_days z in
  days_from_civil y m d = z /\ 1 <= m <= 12 /\ 1 <= d <= days_in_month y m.
Proof.
  unfold civil_from_days.
  set (era := (z + 719468) / 146097).
  set (doe := z + 719468 - era * 146097).
  assert (Hdoe : 0 <= doe < 146097) by (subst doe era; Z.div_mod_to_equations; lia).
  pose proof (civil_of_doe_facts doe Hdoe) as F.
  destruct (civil_of_doe doe) as [[yoe mp] d].
  destruct F as (Hyoe & Hmp & Hd & H30 & H29 & Hleap & Hre & _ & _).
  set (m := if mp <? 10 then mp + 3 else mp - 9).
  assert (Hm : 1 <= m <= 12 /\ (m + 9) mod 12 = mp /\ ((m <=? 2) = negb (mp <? 10))).
  { subst m. destruct (Z.ltb_spec mp 10); (split; [lia|split]).
    - Z.div_mod_to_equations; lia.
    - simpl. apply Z.leb_gt. lia.
    - Z.div_mod_to_equations; lia.
    - simpl. apply Z.leb_le. lia. }
  destruct Hm as (Hm & Hmp' & Hm2).
  split; [|split; [done|split; [lia|]]].
  - unfold days_from_civil. rewrite Hmp'.
    set (y' := if m <=? 2 then _ - 1 else _).
    assert (Hy' : y' = yoe + era * 400) by (subst y'; destruct (m <=? 2); lia).
    rewrite Hy'. replace ((yoe + era * 400) / 400) with era by (Z.div_mod_to_equations; lia).
    replace (yoe + era * 400 - era * 400) with yoe by lia. subst doe. lia.
  - unfold days_in_month.
    destruct (Z.eqb_spec m 2) as [E2|N2].
    + assert (mp = 11) as Emp by (subst m; destruct (Z.ltb_spec mp 10); lia).
      rewrite E2.
      replace (yoe + era * 400 + (if 2 <=? 2 then 1 else 0))
        with (yoe + 1 + era * 400) by (simpl; lia).
      rewrite is_leap_shift.
      destruct (is_leap (yoe + 1)) eqn:L; [lia|].
      specialize (H29 Emp).
      destruct (decide (d = 29)) as [E29|]; [|lia].
      destruct (Hleap Emp E29) as [L4 L100]. unfold is_leap in L.
      apply orb_false_iff in L as [La Lb]. apply andb_false_iff in La.
      rewrite L4 in La. simpl in La. 
      destruct La as [?|La]; [done|]. apply negb_false_iff in La.
      apply Z.eqb_eq in La. apply Z.eqb_neq in Lb. lia.
    + assert (Hc : (m =? 4) || (m =? 6) || (m =? 9) || (m =? 11) = true ->
                   mp = 1 \/ mp = 3 \/ mp = 6 \/ mp = 8).
      { subst m. destruct (Z.ltb_spec mp 10); intros Hc;
        repeat (apply orb_true_iff in Hc as [Hc|Hc]); apply Z.eqb_eq in Hc; lia. }
      destruct ((m =? 4) || (m =? 6) || (m =? 9) || (m =? 11)); [|lia].
      specialize (H30 (Hc eq_refl)). lia.
Qed.

Lemma civil_from_days_year z :
  0 <= z < 2932897 ->
  1970 <= (civil_from_days z).1.1 <= 9999.
Proof.
  intros Hz. unfold civil_from_days.
  set (era := (z + 719468) / 146097).
  set (doe := z + 719468 - era * 146097).
  assert (Hdoe : 0 <= doe < 146097) by (subst doe era; Z.div_mod_to_equations; lia).
  assert (Hera : 4 <= era <= 24) by (subst era; Z.div_mod_to_equations; lia).
  pose proof (civil_of_doe_facts doe Hdoe) as F.
  destruct (civil_of_doe doe) as [[yoe mp] d].
  destruct F as (Hyoe & Hmp & Hd & H30 & H29 & Hleap & Hre & Hhi & Hlo).
  cbn [fst].
  assert ((if (if mp <? 10 then mp + 3 else mp - 9) <=? 2 then 1 else 0)
          = (if mp <? 10 then 0 else 1)) as ->.
  { destruct (Z.ltb_spec mp 10).
    - destruct (Z.leb_spec (mp + 3) 2); lia.
    - destruct (Z.leb_spec (mp - 9) 2); lia. }
  assert (Edoe : doe = z + 719468 - era * 146097) by reflexivity.
  clearbody doe era. destruct (mp <? 10); lia.
Qed.

Lemma expect_same c s : expect c (String c s) = Some s.
Proof. unfold expect. by rewrite Ascii.eqb_refl. Qed.

(** Round trip: a time value of the years 1970 to 9999 is recovered by
    [Date.parse] from the string [toISOString] prints for it. *)
Lemma parse_toISOString ms :
  0 <= ms < 253402300800000 ->
  exists s, toISOString ms = Some s /\ parse s = Some ms.
Proof.
  intros Hms. unfold toISOString.
  assert ((Z.abs ms <=? maxTime) = true) as -> by (apply Z.leb_le; unfold maxTime; lia).
  eexists; split; [reflexivity|].
  set (day := ms / msPerDay). set (tod := ms mod msPerDay).
  assert (Hday : 0 <= day < 2932897)
    by (subst day; unfold msPerDay; Z.div_mod_to_equations; lia).
  assert (Htod : 0 <= tod < 86400000)
    by (subst tod; unfold msPerDay; Z.div_mod_to_equations; lia).
  assert (Hsum : day * msPerDay + tod = ms)
    by (subst day tod; unfold msPerDay; Z.div_mod_to_equations; lia).
  pose proof (civil_from_days_valid day) as V.
  pose proof (civil_from_days_year day Hday) as Y.
  destruct (civil_from_days day) as [[y m] d]. cbn [fst] in Y.
  destruct V as (Vd & Vm & Vdm).
  assert (Hdim : days_in_month y m <= 31).
  { unfold days_in_month. repeat case_match; lia. }
  unfold year_string.
  assert ((0 <=? y) && (y <=? 9999) = true) as ->
    by (apply andb_true_iff; split; apply Z.leb_le; lia).
  unfold parse.
  rewrite number_pad0 by (simpl; lia). cbn [mbind option_bind]. rewrite expect_same.
  cbn [mbind option_bind].
  rewrite number_pad0 by (simpl; lia). cbn [mbind option_bind]. rewrite expect_same.
  cbn [mbind option_bind].
  rewrite number_pad0 by (simpl; lia). cbn [mbind option_bind]. rewrite expect_same.
  cbn [mbind option_bind].
  rewrite number_pad0 by (simpl; Z.div_mod_to_equations; lia).
  cbn [mbind option_bind]. rewrite expect_same. cbn [mbind option_bind].
  rewrite number_pad0 by (simpl; Z.div_mod_to_equations; lia).
  cbn [mbind option_bind]. rewrite expect_same. cbn [mbind option_bind].
  rewrite number_pad0 by (simpl; Z.div_mod_to_equations; lia).
  cbn [mbind option_bind]. unfold fraction. rewrite expect_same.
  rewrite number_pad0 by (simpl; Z.div_mod_to_equations; lia).
  cbn [mbind option_bind]. rewrite expect_same. cbn [mbind option_bind].
  rewrite String.eqb_refl. cbn [negb].
  assert ((1 <=? m) && (m <=? 12) && (1 <=? d) && (d <=? 31) = true) as ->
    by (rewrite !andb_true_iff, !Z.leb_le; lia).
  assert ((tod / 60000 mod 60 <=? 59) && (tod / 1000 mod 60 <=? 59) = true) as ->
    by (rewrite !andb_true_iff, !Z.leb_le; Z.div_mod_to_equations; lia).
  assert ((tod / 3600000 <=? 23) = true) as ->
    by (rewrite Z.leb_le; Z.div_mod_to_equations; lia).
  cbn [negb orb]. f_equal. rewrite Vd, <- Hsum. unfold msPerDay.
  clear -Htod. Z.div_mod_to_equations; lia.
Qed.

(** The same for a whole number of seconds, as the engine uses it. *)
Lemma parse_toISOString_seconds t :
  0 <= t < 253402300800 ->
  exists s, toISOString (t * 1000) = Some s /\ parse s = Some (t * 1000).
Proof. intros H. apply parse_toISOString. lia. Qed.
End JSDateFacts.

(** * Facts about the calendar *)

Module CalendarFacts.
Import JSDate Calendar JSDateFacts.

Lemma leap_true y :
  leap y = true -> y mod 4 = 0 /\ (y mod 100 <> 0 \/ y mod 400 = 0).
Proof.
  unfold leap. rewrite andb_true_iff, orb_true_iff, negb_true_iff, !Z.eqb_eq, Z.eqb_neq.
  tauto.
Qed.

Lemma leap_false y :
  leap y = false -> y mod 4 <> 0 \/ (y mod 100 = 0 /\ y mod 400 <> 0).
Proof.
  unfold leap. rewrite andb_false_iff, orb_false_iff, negb_false_iff, !Z.eqb_eq, !Z.eqb_neq.
  tauto.
Qed.

Lemma days_from_civil_early y m d :
  m <= 2 ->
  days_from_civil y m d
  = let y' := y - 1 in
    y' / 400 * 146097
    + ((y' - y' / 400 * 400) * 365 + (y' - y' / 400 * 400) / 4
       - (y' - y' / 400 * 400) / 100 + ((153 * ((m + 9) mod 12) + 2) / 5 + d - 1))
    - 719468.
Proof. intros H. unfold days_from_civil. by apply Z.leb_le in H as ->. Qed.

Lemma days_from_civil_late y m d :
  2 < m ->
  days_from_civil y m d
  = y / 400 * 146097
    + ((y - y / 400 * 400) * 365 + (y - y / 400 * 400) / 4
       - (y - y / 400 * 400) / 100 + ((153 * ((m + 9) mod 12) + 2) / 5 + d - 1))
    - 719468.
Proof. intros H. unfold days_from_civil. by apply Z.leb_gt in H as ->. Qed.

(** The day number of the engine's conversion is the count of the
    calendar. *)
Lemma days_from_civil_calendar y m d :
  1 <= m <= 12 ->
  days_from_civil y m d = days_before_year y + days_before_month y m + (d - 1).
Proof.
  intros Hm.
  assert (Hcases : m = 1 \/ m = 2 \/ m = 3 \/ m = 4 \/ m = 5 \/ m = 6 \/ m = 7
                   \/ m = 8 \/ m = 9 \/ m = 10 \/ m = 11 \/ m = 12) by lia.
  unfold days_before_year, leaps_before, days_before_month, months.
  destruct (leap y) eqn:L; [apply leap_true in L|apply leap_false in L];
    repeat (destruct Hcases as [->|Hcases]); try subst m;
    first [rewrite days_from_civil_early by lia|rewrite days_from_civil_late by lia];
    match goal with |- context [Z.to_nat ?e] =>
      let n := eval vm_compute in (Z.to_nat e) in change (Z.to_nat e) with n end;
    cbn [firstn foldr]; cbv zeta; Z.div_mod_to_equations; lia.
Qed.

Lemma month_length_le y m : month_length y m <= 31.
Proof.
  unfold month_length, months.
  destruct (Z.to_nat (m - 1)) as [|[|[|[|[|[|[|[|[|[|[|[|n]]]]]]]]]]]]; cbn;
    try lia; [by destruct (leap y)|destruct n; lia].
Qed.

(** The conversion of the engine, on an instant as the host writes it, is
    the conversion of the calendar. *)
Lemma parse_instant y m d h mi s :
  valid y m d h mi s ->
  parse (instant y m d h mi s) = Some (epoch_seconds y m d h mi s * 1000).
Proof.
  intros (Hy & Hm & Hd & Hh & Hmi & Hs).
  pose proof (month_length_le y m) as Hlen.
  unfold instant, parse.
  rewrite number_pad0 by (simpl; lia). cbn [mbind option_bind]. rewrite expect_same.
  cbn [mbind option_bind].
  rewrite number_pad0 by (simpl; lia). cbn [mbind option_bind]. rewrite expect_same.
  cbn [mbind option_bind].
  rewrite number_pad0 by (simpl; lia). cbn [mbind option_bind]. rewrite expect_same.
  cbn [mbind option_bind].
  rewrite number_pad0 by (simpl; lia). cbn [mbind option_bind]. rewrite expect_same.
  cbn [mbind option_bind].
  rewrite number_pad0 by (simpl; lia). cbn [mbind option_bind]. rewrite expect_same.
  cbn [mbind option_bind].
  rewrite number_pad0 by (simpl; lia). cbn [mbind option_bind].
  change (fraction "Z") with (Some (0, "Z"%string)). cbn [mbind option_bind].
  rewrite expect_same. cbn [mbind option_bind].
  rewrite String.eqb_refl. cbn [negb].
  assert ((1 <=? m) && (m <=? 12) && (1 <=? d) && (d <=? 31) = true) as ->
    by (rewrite !andb_true_iff, !Z.leb_le; lia).
  assert ((mi <=? 59) && (s <=? 59) = true) as ->
    by (rewrite !andb_true_iff, !Z.leb_le; lia).
  assert ((h <=? 23) = true) as -> by (rewrite Z.leb_le; lia).
  cbn [negb orb]. f_equal. rewrite days_from_civil_calendar by lia.
  unfold epoch_seconds, msPerDay. lia.
Qed.

End CalendarFacts.

(** * Facts about the table of extensions *)

Module TableFacts.
Import Engine.

(** A language that has an entry: it is [golang], and its entry is what a
    read finds. *)
Lemma registered_golang lang :
  is_Some (LANG_TO_EXTENSION !! lang) ->
  lang = "golang"
  /\ JSObject.get LANG_TO_EXTENSION lang = Some (JSObject.Own "go").
Proof.
  intros [extension H]. unfold LANG_TO_EXTENSION in H.
  apply lookup_singleton_Some in H as [<- <-]. done.
Qed.

Lemma registered_truthy lang :
  is_Some (LANG_TO_EXTENSION !! lang) ->
  JSObject.truthy (JSObject.get LANG_TO_EXTENSION lang) = true.
Proof. intros H. by destruct (registered_golang lang H) as [_ ->]. Qed.

(** A read finds nothing exactly for a language that has no entry and is
    not the name of an inherited member. *)
Lemma truthy_false lang :
  JSObject.truthy (JSObject.get LANG_TO_EXTENSION lang) = false
  <-> LANG_TO_EXTENSION !! lang = None /\ lang ∉ JSObject.Object_prototype.
Proof.
  unfold JSObject.get. destruct (LANG_TO_EXTENSION !! lang) as [extension|] eqn:H.
  - unfold LANG_TO_EXTENSION in H. apply lookup_singleton_Some in H as [_ <-].
    split; [done|]. by intros [? _].
  - case_bool_decide as Hin; cbn; split; try done.
    by intros [_ ?].
Qed.

End TableFacts.

(** * Facts about the effects *)

Module EffectsFacts.
Import Effects.

Lemma bind_ok {A B} (m : M A) (f : A -> M B) w a w' :
  m w = (Ok a, w') -> bind m f w = f a w'.
Proof. unfold bind. by intros ->. Qed.

Lemma bind_throw {A B} (m : M A) (f : A -> M B) w e w' :
  m w = (Throw e, w') -> bind m f w = (Throw e, w').
Proof. unfold bind. by intros ->. Qed.

Lemma bind_timeout {A B} (m : M A) (f : A -> M B) w w' :
  m w = (Timeout, w') -> bind m f w = (Timeout, w').
Proof. unfold bind. by intros ->. Qed.

(** The three ways a bound computation ends. *)
Lemma bind_inv {A B} (m : M A) (f : A -> M B) w res w' :
  bind m f w = (res, w') ->
  (exists a w1, m w = (Ok a, w1) /\ f a w1 = (res, w'))
  \/ (exists e, m w = (Throw e, w') /\ res = Throw e)
  \/ (m w = (Timeout, w') /\ res = Timeout).
Proof.
  unfold bind. destruct (m w) as [[a|e|] w1]; intros H.
  - left. eauto.
  - right. left. exists e. by inversion H.
  - right. right. by inversion H.
Qed.

Lemma try_catch_ok {A} (m : M A) h w a w' :
  m w = (Ok a, w') -> try_catch m h w = (Ok a, w').
Proof. unfold try_catch. by intros ->. Qed.

Lemma try_catch_throw {A} (m : M A) h w e w' :
  m w = (Throw e, w') -> try_catch m h w = h e w'.
Proof. unfold try_catch. by intros ->. Qed.

(** A request when no failure is due. *)
Lemma request_calm {A} c (serve : GitHub.Repo -> Exn + A * GitHub.Repo) w :
  faults w = [] ->
  request c serve w =
    match serve (repo w) with
    | inl e => (Throw e, {| repo := repo w; faults := []; trace := trace w ++ [Request c] |})
    | inr (a, r) => (Ok a, {| repo := r; faults := []; trace := trace w ++ [Request c] |})
    end.
Proof. unfold request. cbn. by intros ->. Qed.

Lemma request_pass {A} c (serve : GitHub.Repo -> Exn + A * GitHub.Repo) w rest :
  faults w = None :: rest ->
  request c serve w =
    match serve (repo w) with
    | inl e => (Throw e, {| repo := repo w; faults := rest; trace := trace w ++ [Request c] |})
    | inr (a, r) => (Ok a, {| repo := r; faults := rest; trace := trace w ++ [Request c] |})
    end.
Proof. unfold request. cbn. by intros ->. Qed.

(** A request hit by a failure: the host is not reached. *)
Lemma request_fault {A} c (serve : GitHub.Repo -> Exn + A * GitHub.Repo) w reason rest :
  faults w = Some reason :: rest ->
  request c serve w =
    (Throw (HttpError reason),
     {| repo := repo w; faults := rest; trace := trace w ++ [Request c] |}).
Proof. unfold request. cbn. by intros ->. Qed.

Lemma query_calm {A} c (answer : GitHub.Repo -> A) w :
  faults w = [] ->
  query c answer w =
    (Ok (answer (repo w)),
     {| repo := repo w; faults := []; trace := trace w ++ [Request c] |}).
Proof. intros H. unfold query. by rewrite request_calm. Qed.

Lemma query_pass {A} c (answer : GitHub.Repo -> A) w rest :
  faults w = None :: rest ->
  query c answer w =
    (Ok (answer (repo w)),
     {| repo := repo w; faults := rest; trace := trace w ++ [Request c] |}).
Proof. intros H. unfold query. by rewrite (request_pass _ _ _ rest). Qed.

Lemma query_fault {A} c (answer : GitHub.Repo -> A) w reason rest :
  faults w = Some reason :: rest ->
  query c answer w =
    (Throw (HttpError reason),
     {| repo := repo w; faults := rest; trace := trace w ++ [Request c] |}).
Proof. intros H. unfold query. by apply request_fault. Qed.

(** A query answers or is rejected; it leaves the repository as it is, and
    it is not rejected when no failure is due. *)
Lemma query_inv {A} c (answer : GitHub.Repo -> A) w res w' :
  query c answer w = (res, w') ->
  repo w' = repo w
  /\ trace w' = trace w ++ [Request c]
  /\ ((res = Ok (answer (repo w)) /\ (faults w = [] -> faults w' = []))
      \/ (exists reason, res = Throw (HttpError reason) /\ faults w <> [])).
Proof.
  destruct (faults w) as [|[reason|] rest] eqn:F.
  - rewrite query_calm by done. intros [= <- <-]. cbn. eauto.
  - rewrite (query_fault _ _ _ reason rest) by done. intros [= <- <-]. cbn.
    split; [done|]. split; [done|]. right. by exists reason.
  - rewrite (query_pass _ _ _ rest) by done. intros [= <- <-]. cbn.
    split; [done|]. split; [done|]. left. done.
Qed.

End EffectsFacts.

(** * Facts about the retry policy *)

Module RetryFacts.
Import Effects EffectsFacts Engine Spec.

Lemma retry_trace_step c first n :
  [Request c; Delay (3 ^ Z.of_nat first * 1000)] ++ retry_trace c (first + 1) n
  = retry_trace c first (S n).
Proof. unfold retry_trace. cbn [seq flat_map]. by rewrite Nat.add_1_r, <- app_assoc. Qed.

(** After [length reasons] failures within the budget, the next attempt
    succeeds. *)
Lemma retrying_recovers {A} c (answer : GitHub.Repo -> A) maxRetries :
  forall reasons fuel retryCount w rest,
    faults w = map Some reasons ++ rest ->
    (rest = [] \/ exists rest', rest = None :: rest') ->
    (retryCount + length reasons <= maxRetries)%nat ->
    (maxRetries - retryCount < fuel)%nat ->
    retrying fuel (query c answer) maxRetries retryCount w =
      (Ok (answer (repo w)),
       {| repo := repo w; faults := tail rest;
          trace := trace w ++ retry_trace c retryCount (length reasons) |}).
Proof.
  induction reasons as [|reason reasons IH]; intros fuel retryCount w rest F R B Hfuel;
    (destruct fuel as [|fuel]; [lia|]); cbn [retrying].
  - cbn in F. destruct R as [->|[rest' ->]].
    + rewrite (try_catch_ok _ _ _ _ _ (query_calm _ _ _ F)). done.
    + rewrite (try_catch_ok _ _ _ _ _ (query_pass _ _ _ _ F)). done.
  - cbn [map app length] in *.
    rewrite (try_catch_throw _ _ _ _ _ (query_fault _ _ _ _ _ F)).
    destruct (Nat.leb_spec maxRetries retryCount); [lia|].
    unfold bind, delay. cbn.
    rewrite (IH fuel (retryCount + 1)%nat _ rest); cbn; [|done|done|lia|lia].
    f_equal. f_equal. rewrite <- !app_assoc. f_equal. apply retry_trace_step.
Qed.

(** After [maxRetries + 1] failures the last one is thrown again. *)
Lemma retrying_gives_up {A} c (answer : GitHub.Repo -> A) maxRetries :
  forall reasons fuel retryCount w final rest,
    faults w = map Some (reasons ++ [final]) ++ rest ->
    (retryCount + length reasons = maxRetries)%nat ->
    (maxRetries - retryCount < fuel)%nat ->
    retrying fuel (query c answer) maxRetries retryCount w =
      (Throw (HttpError final),
       {| repo := repo w; faults := rest;
          trace := trace w ++ retry_trace c retryCount (length reasons) |}).
Proof.
  induction reasons as [|reason reasons IH]; intros fuel retryCount w final rest F B Hfuel;
    (destruct fuel as [|fuel]; [lia|]); cbn [retrying].
  - cbn in F, B.
    rewrite (try_catch_throw _ _ _ _ _ (query_fault _ _ _ _ _ F)).
    destruct (Nat.leb_spec maxRetries retryCount); [|lia]. done.
  - cbn [map app length] in *.
    rewrite (try_catch_throw _ _ _ _ _ (query_fault _ _ _ _ _ F)).
    destruct (Nat.leb_spec maxRetries retryCount); [lia|].
    unfold bind, delay. cbn.
    rewrite (IH fuel (retryCount + 1)%nat _ final rest); cbn; [|done|lia|lia].
    f_equal. f_equal. rewrite <- !app_assoc. f_equal. apply retry_trace_step.
Qed.

(** Whatever failures are due, a retried query answers or throws the
    failure of a request; it never runs out of fuel, leaves the repository
    as it is and, when no failure is due, answers. *)
Lemma retrying_inv {A} c (answer : GitHub.Repo -> A) maxRetries :
  forall fuel retryCount w res w',
    (maxRetries - retryCount < fuel)%nat ->
    retrying fuel (query c answer) maxRetries retryCount w = (res, w') ->
    repo w' = repo w
    /\ ((res = Ok (answer (repo w)) /\ (faults w = [] -> faults w' = []))
        \/ (exists reason, res = Throw (HttpError reason) /\ faults w <> [])).
Proof.
  induction fuel as [|fuel IH]; intros retryCount w res w' Hfuel; [lia|].
  cbn [retrying]. unfold try_catch.
  destruct (query c answer w) as [r w1] eqn:Q.
  apply query_inv in Q as (Hr & _ & [[-> Hf]|[reason [-> Hf]]]).
  - intros [= <- <-]. rewrite Hr. eauto.
  - destruct (Nat.leb_spec maxRetries retryCount).
    + intros [= <- <-]. split; [done|]. right. eauto.
    + unfold bind, delay. cbn. intros H'.
      apply IH in H' as (Hr' & H'); [|lia]. cbn in Hr'. split; [congruence|].
      destruct H' as [[-> _]|[reason' [-> _]]].
      * left. cbn. rewrite Hr. split; [done|]. intros; done.
      * right. eauto.
Qed.

End RetryFacts.

(** * Facts about the host *)

Module GitHubFacts.
Import GitHub.

Lemma head_lt_fresh r : (head r < fresh r)%nat.
Proof.
  unfold fresh. assert (head r ∈ names r) as H by (unfold names; left).
  apply max_list_elem_of_le in H. lia.
Qed.

(** The first commit of a log is the one asked for. *)
Lemma log_from_first store s c l : log_from store s = c :: l -> commit_sha c = s.
Proof.
  induction store as [|x store IH]; cbn; [done|].
  destruct (decide (commit_sha x = s)); [|done]. by intros [= <- _].
Qed.

Lemma branch_log_first r c l : branch_log r = c :: l -> commit_sha c = head r.
Proof. apply log_from_first. Qed.

(** A tree added: the log of the branch does not change. *)
Lemma branch_log_createTree base entries r :
  branch_log (createTree base entries r).2 = branch_log r.
Proof. done. Qed.

(** A commit added without moving the branch: its log does not change. *)
Lemma branch_log_createCommit m t ps a c r :
  branch_log (createCommit m t ps a c r).2 = branch_log r.
Proof.
  unfold branch_log. cbn. destruct (decide (fresh r = head r)) as [E|]; [|done].
  pose proof (head_lt_fresh r). lia.
Qed.

(** The branch moved to a commit just added: its log is the new commit
    followed by the log of its parent. *)
Lemma branch_log_advance m t p ps a c r ref r' :
  updateRef ref (createCommit m t (p :: ps) a c r).1 (createCommit m t (p :: ps) a c r).2 = Some r' ->
  branch_log r' =
    {| commit_sha := fresh r; message := m; tree := t; parents := p :: ps;
       author := a; committer := c |} :: log_from (commits r) p.
Proof.
  unfold updateRef. case_decide; [|done]. intros [= <-].
  unfold branch_log. cbn. by rewrite decide_True.
Qed.

End GitHubFacts.

(** * Facts about [commit] *)

Module CommitFacts.
Import Effects EffectsFacts Engine Spec GitHubFacts.

(** A request is rejected, refused by the host, or served. *)
Lemma request_inv {A} c (serve : GitHub.Repo -> Exn + A * GitHub.Repo) w res w' :
  request c serve w = (res, w') ->
  trace w' = trace w ++ [Request c]
  /\ ((exists reason, res = Throw (HttpError reason) /\ repo w' = repo w /\ faults w <> [])
      \/ ((faults w = [] -> faults w' = [])
          /\ match serve (repo w) with
             | inl e => res = Throw e /\ repo w' = repo w
             | inr (a, r) => res = Ok a /\ repo w' = r
             end)).
Proof.
  destruct (faults w) as [|[reason|] rest] eqn:F.
  - rewrite request_calm by done.
    destruct (serve (repo w)) as [e|[a r]]; intros [= <- <-]; cbn; eauto.
  - rewrite (request_fault _ _ _ reason rest) by done. intros [= <- <-]. cbn.
    split; [done|]. left. by exists reason.
  - rewrite (request_pass _ _ _ rest) by done.
    destruct (serve (repo w)) as [e|[a r]]; intros [= <- <-]; cbn;
      (split; [done|]); right; (split; [done|]); done.
Qed.

(** A request the host always serves. *)
Lemma request_served_inv {A} c (f : GitHub.Repo -> A * GitHub.Repo) w res w' :
  request c (fun r => inr (f r)) w = (res, w') ->
  (exists reason, res = Throw (HttpError reason) /\ repo w' = repo w /\ faults w <> [])
  \/ (res = Ok (f (repo w)).1 /\ repo w' = (f (repo w)).2
      /\ (faults w = [] -> faults w' = [])).
Proof.
  intros H. apply request_inv in H as [_ [(reason & -> & Hr & Hf)|[F H]]].
  - left. eauto.
  - destruct (f (repo w)) as [a r]. destruct H as [-> ->]. right. auto.
Qed.

(** An unregistered language: the exception is thrown before anything is
    done. *)
Lemma commit_unregistered defaultBranch commitInfo treeSHA latestCommitSHA submission w :
  JSObject.truthy (JSObject.get LANG_TO_EXTENSION (lang submission)) = false ->
  commit defaultBranch commitInfo treeSHA latestCommitSHA submission w =
    (Throw (Thrown ("Language " +:+ lang submission
                      +:+ " does not have a registered extension.")), w).
Proof. unfold commit. by intros ->. Qed.

(** The outcomes of [commit]: either it returns, having stored one tree and
    one commit and moved the branch to that commit, or it fails and the log
    of the branch is as before. *)
Lemma commit_inv defaultBranch commitInfo treeSHA latestCommitSHA submission w res w' :
  commit defaultBranch commitInfo treeSHA latestCommitSHA submission w = (res, w') ->
  GitHub.default_branch (repo w') = GitHub.default_branch (repo w)
  /\ ((exists date tsha csha,
         let new := commit_object commitInfo latestCommitSHA submission date csha tsha in
         res = Ok (tsha, csha)
         /\ JSDate.toISOString (timestamp submission * 1000) = Some date
         /\ JSObject.truthy (JSObject.get LANG_TO_EXTENSION (lang submission)) = true
         /\ GitHub.head (repo w') = csha
         /\ GitHub.commits (repo w') = new :: GitHub.commits (repo w)
         /\ (exists t, GitHub.trees (repo w') = t :: GitHub.trees (repo w)
                       /\ GitHub.tree_sha t = tsha)
         /\ GitHub.branch_log (repo w') =
              new :: GitHub.log_from (GitHub.commits (repo w)) latestCommitSHA
         /\ (faults w = [] -> faults w' = []))
      \/ (exists e,
            res = Throw e
            /\ GitHub.head (repo w') = GitHub.head (repo w)
            /\ GitHub.branch_log (repo w') = GitHub.branch_log (repo w)
            /\ (forall c, c ∈ GitHub.commits (repo w') ->
                  c ∈ GitHub.commits (repo w)
                  \/ GitHub.message c = commit_message submission)
            /\ (faults w <> []
                \/ ((faults w = [] -> faults w' = [])
                    /\ ((JSObject.truthy (JSObject.get LANG_TO_EXTENSION (lang submission)) = false
                         /\ e = Thrown ("Language " +:+ lang submission
                                          +:+ " does not have a registered extension.")
                         /\ w' = w)
                        \/ (JSObject.truthy (JSObject.get LANG_TO_EXTENSION (lang submission)) = true
                            /\ JSDate.toISOString (timestamp submission * 1000) = None)
                        \/ defaultBranch <> GitHub.default_branch (repo w)))))).
Proof.
  unfold commit.
  destruct (JSObject.truthy (JSObject.get LANG_TO_EXTENSION (lang submission))) eqn:L; cbn [negb].
  2:{ intros [= <- <-]. split; [done|]. right. eexists. split_and!; auto.
      all: try (right; split; [done|]; left; done). }
  intros H. apply bind_inv in H as [(tsha & w1 & H1 & H)|[(e & H1 & ->)|[H1 ->]]];
    apply request_served_inv in H1 as [(reason & R1 & Hr1 & Hf1)|(R1 & Hr1 & F1)]; try done.
  2:{ rewrite Hr1. split; [done|]. right. eexists. split_and!; auto. }
  injection R1 as ->.
  destruct (JSDate.toISOString (timestamp submission * 1000)) as [date|] eqn:D.
  2:{ injection H as <- <-. rewrite Hr1. split; [done|]. right. eexists. split_and!; auto.
      right. split; [done|]. right. left. done. }
  apply bind_inv in H as [(csha & w2 & H2 & H)|[(e & H2 & ->)|[H2 ->]]];
    apply request_served_inv in H2 as [(reason & R2 & Hr2 & Hf2)|(R2 & Hr2 & F2)]; try done.
  2:{ rewrite Hr2, Hr1. split; [done|]. right. eexists. split_and!; auto. }
  injection R2 as ->. rewrite Hr1 in Hr2.
  assert (Horphan : GitHub.default_branch (repo w2) = GitHub.default_branch (repo w)
            /\ GitHub.head (repo w2) = GitHub.head (repo w)
            /\ GitHub.branch_log (repo w2) = GitHub.branch_log (repo w)
            /\ (forall c, c ∈ GitHub.commits (repo w2) ->
                   c ∈ GitHub.commits (repo w)
                   \/ GitHub.message c = commit_message submission)).
  { rewrite Hr2. split; [done|]. split; [done|].
    split; [etrans; [apply branch_log_createCommit|apply branch_log_createTree]|].
    intros c. cbn. rewrite elem_of_cons. intros [->|]; auto. }
  destruct Horphan as (O1 & O2 & O3 & O4).
  apply bind_inv in H as [([] & w3 & H3 & H)|[(e & H3 & ->)|[H3 ->]]];
    apply request_inv in H3 as [_ [(reason & R3 & Hr3 & Hf3)|[F3 R3]]]; try done.
  - injection H as <- <-. rewrite Hr1, Hr2 in R3.
    match type of R3 with context [GitHub.updateRef ?a ?b ?c] =>
      destruct (GitHub.updateRef a b c) as [r3|] eqn:U end; [|by destruct R3].
    destruct R3 as [_ R3]. rewrite R3.
    pose proof (branch_log_advance _ _ _ _ _ _ _ _ _ U) as BL.
    unfold GitHub.updateRef in U. case_decide; [|done]. injection U as <-.
    split; [done|]. left.
    eexists date, _, _. cbn zeta. split; [reflexivity|]. split; [done|]. split; [done|].
    split; [by rewrite ?Hr1|]. split; [by rewrite ?Hr1|].
    split; [rewrite ?Hr1; cbn; eauto|].
    split; [by rewrite BL, ?Hr1|]. intros F. by apply F3, F2, F1.
  - rewrite Hr3. split; [done|]. right. eexists. split_and!; auto 10.
  - match type of R3 with context [GitHub.updateRef ?a ?b ?c] =>
      destruct (GitHub.updateRef a b c) as [r3|] eqn:U end; [by destruct R3|].
    destruct R3 as [[= ->] R3]. rewrite R3. split; [done|]. right. eexists.
    split_and!; auto.
    right. split; [auto|]. do 2 right.
    unfold GitHub.updateRef in U. case_decide as E; [done|].
    intros ->. apply E. by rewrite O1.
  - match type of R3 with context [GitHub.updateRef ?a ?b ?c] =>
      destruct (GitHub.updateRef a b c) as [r3|] eqn:U end; by destruct R3.
Qed.

End CommitFacts.

(** * Facts about the checkpoint *)

Module CheckpointFacts.
Import Effects EffectsFacts Engine Spec.

Lemma scan_find commits mostRecentTimestamp commitInfo :
  scan commits mostRecentTimestamp commitInfo =
    match List.find marked commits with
    | Some c => (parse_seconds (GitHub.date (GitHub.committer c)), GitHub.author c)
    | None => (mostRecentTimestamp, commitInfo)
    end.
Proof.
  induction commits as [|c commits IH]; cbn; [done|].
  unfold marked at 1. destruct (String.prefix _ _); cbn; [done|apply IH].
Qed.

Lemma find_unmarked commits :
  Forall (fun c => marked c = false) commits -> List.find marked commits = None.
Proof. induction 1 as [|c l H _ IH]; cbn; [done|]. by rewrite H. Qed.

Lemma find_first_marked pre c post :
  Forall (fun c => marked c = false) pre -> marked c = true ->
  List.find marked (pre ++ c :: post) = Some c.
Proof.
  intros Hpre Hc. induction Hpre as [|x l H _ IH]; cbn.
  - by rewrite Hc.
  - by rewrite H.
Qed.

Lemma find_marked_last commits c :
  List.find marked commits = Some c -> is_Some (last commits).
Proof.
  destruct commits as [|x l]; [done|]. intros _.
  destruct (last (x :: l)) eqn:E; [done|]. by apply last_None in E.
Qed.

(** The code computes the checkpoint of the contract, and throws on an
    empty list of commits. *)
Lemma resolveCheckpoint_checkpoint commits w :
  resolveCheckpoint commits w =
    match checkpoint commits with
    | Some cp => (Ok cp, w)
    | None =>
        (Throw (TypeError "Cannot read properties of undefined (reading 'commit')"), w)
    end.
Proof.
  unfold resolveCheckpoint, checkpoint.
  destruct (last commits) as [oldest|] eqn:E.
  - unfold ret. rewrite scan_find. by destruct (List.find marked commits).
  - apply last_None in E as ->. done.
Qed.

Lemma checkpoint_nil commits : checkpoint commits = None <-> commits = [].
Proof.
  unfold checkpoint. split.
  - destruct (List.find marked commits) eqn:F; [done|].
    destruct (last commits) eqn:E; [done|]. intros _. by apply last_None.
  - by intros ->.
Qed.

(** Comparing a whole number of seconds with a parsed date. *)
Lemma leq_parse_seconds t date t0 :
  JSDate.parse date = Some (t0 * 1000) ->
  leq t (parse_seconds date) = (t <=? t0).
Proof.
  unfold parse_seconds. intros ->. unfold leq, Qle_bool. cbn [Qnum Qden inject_Z].
  destruct (Z.leb_spec t t0); [apply Z.leb_le|apply Z.leb_gt]; lia.
Qed.

Lemma leq_zero t : leq t (Num 0) = (t <=? 0).
Proof.
  unfold leq, Qle_bool. cbn [Qnum Qden inject_Z].
  destruct (Z.leb_spec t 0); [apply Z.leb_le|apply Z.leb_gt]; lia.
Qed.

End CheckpointFacts.

(** * Facts about the listing *)

Module ListingFacts.
Import Effects EffectsFacts Engine Spec RetryFacts.

Lemma take_while_all {A} (p : A -> bool) l1 l2 :
  forallb p l1 = true -> take_while p (l1 ++ l2) = l1 ++ take_while p l2.
Proof.
  induction l1 as [|x l1 IH]; cbn; [done|].
  destruct (p x); cbn; [|done]. intros H. by rewrite IH.
Qed.

Lemma take_while_stop {A} (p : A -> bool) l1 l2 :
  forallb p l1 = false -> take_while p (l1 ++ l2) = take_while p l1.
Proof.
  induction l1 as [|x l1 IH]; cbn; [done|].
  destruct (p x); cbn; [|done]. intros H. by rewrite IH.
Qed.

Lemma take_while_id {A} (p : A -> bool) l :
  forallb p l = true -> take_while p l = l.
Proof.
  induction l as [|x l IH]; cbn; [done|].
  destruct (p x); cbn; [|done]. intros H. by rewrite IH.
Qed.

Lemma gathered_all mrt l1 l2 :
  forallb (above mrt) l1 = true ->
  gathered mrt (l1 ++ l2) = gathered mrt l1 ++ gathered mrt l2.
Proof.
  intros H. unfold gathered, considered.
  rewrite take_while_all, (take_while_id _ l1) by done.
  by rewrite List.filter_app, map_app.
Qed.

Lemma gathered_stop mrt l1 l2 :
  forallb (above mrt) l1 = false -> gathered mrt (l1 ++ l2) = gathered mrt l1.
Proof. intros H. unfold gathered, considered. by rewrite take_while_stop. Qed.

(** The loop over a page: the flag tells whether every entry of the page is
    above the checkpoint, and the accepted entries considered are appended
    in the order of the page. *)
Lemma addEntries_gathered entries : forall submissions mrt,
  addEntries entries submissions mrt =
    (forallb (above mrt) entries, submissions ++ gathered mrt entries).
Proof.
  induction entries as [|e entries IH]; intros submissions mrt; cbn [addEntries].
  - unfold gathered. cbn. by rewrite app_nil_r.
  - pose proof (eq_refl : above mrt e = negb (leq (LeetCode.timestamp e) mrt)) as Ha.
    pose proof (eq_refl : accepted e
                          = String.eqb (LeetCode.statusDisplay e) "Accepted") as Hc.
    unfold gathered, considered. cbn [forallb take_while]. rewrite Ha.
    destruct (leq (LeetCode.timestamp e) mrt); cbn [negb andb].
    + cbn. by rewrite app_nil_r.
    + rewrite !IH. cbn [List.filter]. rewrite Hc.
      destruct (String.eqb (LeetCode.statusDisplay e) "Accepted"); cbn [negb].
      * cbn [map]. unfold gathered, considered. by rewrite <- app_assoc.
      * done.
Qed.

Lemma page_split (l : list LeetCode.Attempt) offset :
  drop offset l = take 20 (drop offset l) ++ drop (offset + 20) l.
Proof. by rewrite <- (take_drop 20 (drop offset l)) at 1; rewrite drop_drop. Qed.

Lemma getSubmissions_inv src offset maxRetries w res w' :
  getSubmissions src offset maxRetries 0 w = (res, w') ->
  repo w' = repo w
  /\ ((res = Ok (LeetCode.submissionList src offset 20) /\ (faults w = [] -> faults w' = []))
      \/ (exists reason, res = Throw (HttpError reason) /\ faults w <> [])).
Proof. unfold getSubmissions. apply retrying_inv. lia. Qed.

(** The outcomes of the listing loop: the entries gathered from the current
    offset on are appended to [submissions]; or a request failed beyond
    its budget; or the fuel ran out.  The repository is not touched. *)
Lemma listing_inv src mrt fuel : forall response offset submissions w res w',
  listing src fuel mrt response offset submissions w = (res, w') ->
  repo w' = repo w
  /\ ((res = Ok (submissions ++ gathered mrt (drop offset (LeetCode.attempts src)))
       /\ (faults w = [] -> faults w' = []))
      \/ (exists reason, res = Throw (HttpError reason) /\ faults w <> [])
      \/ (res = Timeout
          /\ ~ (length (LeetCode.attempts src) - offset < 20 * fuel)%nat)).
Proof.
  induction fuel as [|fuel IH]; intros response offset submissions w res w'.
  { intros [= <- <-]. split; [done|]. right. right. split; [done|lia]. }
  cbn [listing]. intros H.
  apply bind_inv in H as [([] & w0 & H0 & H)|[(e & H0 & ->)|[H0 ->]]].
  2,3: destruct response; discriminate H0.
  assert (W0 : repo w0 = repo w /\ faults w0 = faults w).
  { destruct response; injection H0 as <-; done. }
  destruct W0 as [Wr Wf].
  apply bind_inv in H as [(page & w1 & H1 & H)|[(e & H1 & ->)|[H1 ->]]];
    apply getSubmissions_inv in H1 as (Hr1 & [[R1 F1]|(reason & R1 & Hf1)]); try done.
  2:{ injection R1 as ->. split; [congruence|]. right. left. exists reason.
      split; [done|congruence]. }
  injection R1 as ->. unfold addToSubmissions in H. rewrite addEntries_gathered in H. 
  cbn [LeetCode.submissionList LeetCode.submissions LeetCode.hasNext] in H.
  set (page := take 20 (drop offset (LeetCode.attempts src))) in *.
  pose proof (page_split (LeetCode.attempts src) offset) as Hsplit. fold page in Hsplit.
  destruct (forallb (above mrt) page) eqn:Hall; cbn [negb] in H.
  - destruct (Nat.ltb_spec (offset + 20) (length (LeetCode.attempts src))) as [Hn|Hn].
    + apply IH in H as (Hr & H). split; [congruence|].
      destruct H as [[-> F]|[(reason & -> & Hf)|[-> Hfuel]]].
      * left. split; [|rewrite <- Wf; auto].
        rewrite Hsplit, gathered_all, app_assoc by done. done.
      * right. left. exists reason. split; [done|]. rewrite <- Wf. auto.
      * right. right. split; [done|lia].
    + injection H as <- <-. split; [congruence|]. left. split; [|rewrite <- Wf; auto].
      rewrite Hsplit, (drop_ge _ (offset + 20)), app_nil_r by lia. done.
  - injection H as <- <-. split; [congruence|]. left. split; [|rewrite <- Wf; auto].
    by rewrite Hsplit, gathered_stop.
Qed.

End ListingFacts.

(** * Facts about one iteration of the commit loop *)

Module SyncFacts.
Import Effects EffectsFacts Engine Spec RetryFacts GitHubFacts CommitFacts
       CheckpointFacts ListingFacts.

Lemma commit_message_marked submission :
  String.prefix "[" (commit_message submission) = true.
Proof.
  assert (exists rest, commit_message submission = String "[" rest) as [rest ->]
    by (eexists; reflexivity).
  by destruct rest.
Qed.

Lemma created_refl r : created r r.
Proof. intros c. auto. Qed.

Lemma created_trans r1 r2 r3 : created r1 r2 -> created r2 r3 -> created r1 r3.
Proof. intros H12 H23 c Hc. destruct (H23 c Hc) as [H|H]; auto. Qed.

Lemma getSubmissionData_inv src id w res w' :
  getSubmissionData src id w = (res, w') ->
  repo w' = repo w
  /\ ((res = Ok (LeetCode.submissionDetails src id) /\ (faults w = [] -> faults w' = []))
      \/ (exists reason, res = Throw (HttpError reason) /\ faults w <> [])).
Proof. unfold getSubmissionData. apply retrying_inv. lia. Qed.

(** The question query never throws: a rejected request yields [None]. *)
Lemma getQuestionData_inv src titleSlug w res w' :
  getQuestionData src titleSlug w = (res, w') ->
  repo w' = repo w
  /\ ((res = Ok (Some (LeetCode.question src titleSlug))
       /\ (faults w = [] -> faults w' = []))
      \/ (res = Ok None /\ faults w <> [])).
Proof.
  unfold getQuestionData, try_catch, bind.
  destruct (query _ _ w) as [r w1] eqn:Q.
  apply query_inv in Q as (Hr & _ & [[-> F]|(reason & -> & Hf)]); intros [= <- <-]; auto.
Qed.

Section Run.
Variable src : LeetCode.Source.
Variable translate : string -> string.
Variable sprightly : string -> Submission -> string.

(** The outcomes of an iteration: a commit made for [ref] on top of
    [latestCommitSHA], with the branch moved to it; or an exception, the
    log of the branch being as before. *)
Lemma syncOne_inv ref defaultBranch commitInfo treeSHA latestCommitSHA w res w' :
  syncOne src translate sprightly ref defaultBranch commitInfo treeSHA latestCommitSHA w
    = (res, w') ->
  GitHub.default_branch (repo w') = GitHub.default_branch (repo w)
  /\ created (repo w) (repo w')
  /\ ((exists new t,
         res = Ok (GitHub.tree_sha t, GitHub.commit_sha new)
         /\ made src translate sprightly commitInfo ref new
         /\ GitHub.parents new = [latestCommitSHA]
         /\ GitHub.tree new = GitHub.tree_sha t
         /\ GitHub.head (repo w') = GitHub.commit_sha new
         /\ GitHub.commits (repo w') = new :: GitHub.commits (repo w)
         /\ GitHub.trees (repo w') = t :: GitHub.trees (repo w)
         /\ GitHub.branch_log (repo w') =
              new :: GitHub.log_from (GitHub.commits (repo w)) latestCommitSHA
         /\ (faults w = [] -> faults w' = []))
      \/ (exists e,
            res = Throw e
            /\ GitHub.head (repo w') = GitHub.head (repo w)
            /\ GitHub.branch_log (repo w') = GitHub.branch_log (repo w)
            /\ (faults w <> []
                \/ ((faults w = [] -> faults w' = [])
                    /\ refused src ref defaultBranch (repo w) e (repo w'))))).
Proof.
  unfold syncOne. intros H.
  apply bind_inv in H as [(details & w1 & H1 & H)|[(e & H1 & ->)|[H1 ->]]];
    apply getSubmissionData_inv in H1 as (Hr1 & [[R1 F1]|(reason & R1 & Hf1)]); try done.
  2:{ rewrite Hr1. split; [done|]. split; [apply created_refl|]. right.
      exists e. split_and!; auto. }
  injection R1 as ->.
  apply bind_inv in H as [(q & w2 & H2 & H)|[(e & H2 & ->)|[H2 ->]]];
    apply getQuestionData_inv in H2 as (Hr2 & [[R2 F2]|[R2 Hf2]]); try done.
  2:{ injection R2 as ->. injection H as <- <-. rewrite Hr2, Hr1.
      split; [done|]. split; [apply created_refl|]. right.
      eexists. split_and!; auto. }
  injection R2 as ->.
  destruct (LeetCode.question src (ref_titleSlug ref)) as [q|] eqn:Q.
  2:{ injection H as <- <-. rewrite Hr2, Hr1.
      split; [done|]. split; [apply created_refl|]. right.
      eexists. split_and!; auto. right. split; [auto|]. right. by left. }
  destruct (LeetCode.submissionDetails src (ref_id ref)) as [details|] eqn:D.
  2:{ injection H as <- <-. rewrite Hr2, Hr1.
      split; [done|]. split; [apply created_refl|]. right.
      eexists. split_and!; auto. right. split; [auto|]. by left. }
  change (commit defaultBranch commitInfo treeSHA latestCommitSHA
            (enriched translate sprightly ref details q) w2 = (res, w')) in H.
  apply commit_inv in H as (Hdb & [(date & tsha & csha & C)|(e & -> & Hh & Hl & Hc & Cause)]).
  - cbn zeta in C. destruct C as (-> & Hd & Hlang & Hhead & Hcs & (t & Ht & <-) & Hlog & F3).
    rewrite Hr2, Hr1 in *.
    split; [done|]. split.
    { intros c. rewrite Hcs, elem_of_cons. intros [->|]; [right|by left].
      apply commit_message_marked. }
    left.
    exists (commit_object commitInfo latestCommitSHA
              (enriched translate sprightly ref details q) date csha (GitHub.tree_sha t)), t.
    split; [reflexivity|].
    split; [by exists details, q, date|]. split_and!; auto.
  - rewrite Hr2, Hr1 in *. split; [done|]. split.
    { intros c Hin. destruct (Hc c Hin) as [|M]; [by left|right].
      rewrite M. apply commit_message_marked. }
    right. exists e. split_and!; auto.
    destruct (decide (faults w = [])) as [F|]; [right|by left].
    destruct Cause as [Hf|[F3 Cause]]; [destruct Hf; auto|].
    split; [auto|]. do 2 right. exists details, q. split_and!; auto.
    destruct Cause as [(L & -> & ->)|[T|B]]; auto.
Qed.

(** The outcomes of the commit loop entered at [i = n - 1]: the commits
    [cs], oldest first, were made for the first elements of [order], the
    elements of [submissions] from index [n - 1] down, and chained on top
    of the head; [r] is the repository they leave.  Then either the loop
    ended, or the iteration for the next element threw. *)
Lemma syncAll_inv n : forall submissions defaultBranch commitInfo treeSHA latestCommitSHA
    w res w',
  syncAll src translate sprightly n submissions defaultBranch commitInfo
    treeSHA latestCommitSHA w = (res, w') ->
  (n <= length submissions)%nat ->
  latestCommitSHA = GitHub.head (repo w) ->
  let order := rev (take n submissions) in
  GitHub.default_branch (repo w') = GitHub.default_branch (repo w)
  /\ created (repo w) (repo w')
  /\ exists cs r,
      Forall2 (made src translate sprightly commitInfo) (take (length cs) order) cs
      /\ (length cs <= n)%nat
      /\ chained latestCommitSHA cs
      /\ GitHub.branch_log r = rev cs ++ GitHub.branch_log (repo w)
      /\ GitHub.commits r = rev cs ++ GitHub.commits (repo w)
      /\ length (GitHub.trees r) = (length (GitHub.trees (repo w)) + length cs)%nat
      /\ GitHub.default_branch r = GitHub.default_branch (repo w)
      /\ (cs = [] -> r = repo w)
      /\ ((res = Ok tt /\ length cs = n /\ repo w' = r
            /\ (faults w = [] -> faults w' = []))
          \/ (exists e ref,
                res = Throw e
                /\ order !! length cs = Some ref
                /\ GitHub.branch_log (repo w') = GitHub.branch_log r
                /\ (faults w <> []
                    \/ ((faults w = [] -> faults w' = [])
                        /\ refused src ref defaultBranch r e (repo w'))))).
Proof.
  induction n as [|i IH];
    intros submissions defaultBranch commitInfo treeSHA latestCommitSHA w res w' H Hn Hl order.
  { injection H as <- <-. split; [done|]. split; [apply created_refl|].
    exists [], (repo w). cbn. split_and!; auto. }
  cbn [syncAll] in H.
  destruct (lookup_lt_is_Some_2 submissions i ltac:(lia)) as [ref Hi].
  rewrite Hi in H.
  assert (Horder : order = ref :: rev (take i submissions)).
  { subst order. by rewrite (take_S_r _ _ _ Hi), rev_app_distr. }
  apply bind_inv in H as [(next & w1 & H1 & H)|[(e & H1 & ->)|[H1 ->]]];
    apply syncOne_inv in H1 as (Hdb1 & Hc1 & [(new & t & R1 & S)|(e1 & R1 & Hh1 & Hl1 & Cause)]);
    try done.
  - destruct S as (Hmade & Hpar & Htree & Hhead & Hcs & Hts & Hlog & F1).
    injection R1 as ->. cbn [fst snd] in H.
    apply IH in H as (Hdb & Hc & cs & r & Hm & Hlen & Hch & Hbl & Hcm & Htr & Hdr & _ & Hres);
      [|lia|done].
    split; [congruence|]. split; [by eapply created_trans|].
    exists (new :: cs), r. rewrite Horder. cbn [length take rev].
    split; [by constructor|]. split; [lia|]. split; [done|].
    split. { rewrite Hbl, Hlog, Hl, <- app_assoc. done. }
    split. { rewrite Hcm, Hcs, <- app_assoc. done. }
    split. { rewrite Htr, Hts. cbn. lia. }
    split; [congruence|]. split; [done|].
    destruct Hres as [(-> & <- & -> & F)|(e & ref' & -> & Href & Hbl' & Cause)].
    + left. split_and!; auto.
    + right. exists e, ref'. split_and!; auto.
      destruct Cause as [Hf|[F R]]; [left; auto|].
      right. split; [auto|done].
  - injection R1 as ->. split; [done|]. split; [done|].
    exists [], (repo w). cbn. rewrite Horder. split_and!; auto; [lia|].
    right. exists e1, ref. split_and!; auto.
Qed.


(** A run on a repository without commits: the list request, then an
    exception; nothing is asked of the platform and nothing is
    written. *)
Lemma sync_empty fuel w res w' :
  GitHub.branch_log (repo w) = [] ->
  sync src translate sprightly fuel w = (res, w') ->
  (exists e, res = Throw e)
  /\ (faults w = [] ->
        res = Throw (TypeError "Cannot read properties of undefined (reading 'commit')"))
  /\ repo w' = repo w
  /\ trace w' = trace w ++ [Request (ListCommits 100)].
Proof.
  intros Hlog. unfold sync. intros H.
  apply bind_inv in H as [(commits & w1 & H1 & H)|[(e & H1 & ->)|[H1 ->]]];
    apply query_inv in H1 as (Hr1 & Ht1 & [[R1 F1]|(reason & R1 & Hf1)]); try done.
  - injection R1 as ->. unfold GitHub.listCommits in H. rewrite Hlog in H.
    injection H as <- <-. split_and!; eauto.
  - injection R1 as ->. split_and!; eauto. intros F. by destruct Hf1.
Qed.

(** The outcomes of a run on a repository that has a checkpoint. *)
Lemma sync_inv fuel w res w' mostRecentTimestamp commitInfo :
  checkpoint_of (repo w) = Some (mostRecentTimestamp, commitInfo) ->
  sync src translate sprightly fuel w = (res, w') ->
  run_outcome src translate sprightly fuel mostRecentTimestamp commitInfo w res w'.
Proof.
  intros Hcp H. unfold sync in H.
  assert (Hfail : forall (res : Result unit) w',
            repo w' = repo w -> (forall v, res <> Ok v) ->
            (faults w <> []
             \/ (res = Timeout /\ ~ (length (LeetCode.attempts src) < 20 * fuel)%nat)) ->
            run_outcome src translate sprightly fuel mostRecentTimestamp commitInfo
              w res w').
  { intros res0 w0 Hr Hno Hcause. unfold run_outcome.
    rewrite Hr. split; [done|]. split; [apply created_refl|].
    exists [], (repo w). cbn. split_and!; auto; [lia|].
    right. split; [done|]. destruct Hcause as [?|?]; auto. }
  apply bind_inv in H as [(commits & w1 & H1 & H)|[(e & H1 & ->)|[H1 ->]]];
    apply query_inv in H1 as (Hr1 & _ & [[R1 F1]|(reason & R1 & Hf1)]); try done.
  2:{ apply Hfail; auto. }
  injection R1 as ->.
  rewrite (bind_ok _ _ _ (mostRecentTimestamp, commitInfo) w1) in H.
  2:{ rewrite resolveCheckpoint_checkpoint. unfold checkpoint_of in Hcp.
      by rewrite Hcp. }
  apply bind_inv in H as [(submissions & w2 & H2 & H)|[(e & H2 & ->)|[H2 ->]]];
    apply listing_inv in H2 as (Hr2 & [[R2 F2]|[(reason & R2 & Hf2)|[R2 Hfuel]]]); try done.
  2:{ apply Hfail; [congruence|done|]. left. auto. }
  2:{ apply Hfail; [congruence|done|]. right. split; [done|]. lia. }
  injection R2 as ->.
  change (drop 0 (LeetCode.attempts src)) with (LeetCode.attempts src) in H.
  cbn [app] in H.
  apply bind_inv in H as [(defaultBranch & w3 & H3 & H)|[(e & H3 & ->)|[H3 ->]]];
    apply query_inv in H3 as (Hr3 & _ & [[R3 F3]|(reason & R3 & Hf3)]); try done.
  2:{ apply Hfail; [congruence|done|]. left. auto. }
  injection R3 as ->.
  assert (Hw3 : repo w3 = repo w) by congruence.
  destruct (GitHub.listCommits 100 (repo w)) as [|newest rest] eqn:Hlist.
  { unfold checkpoint_of in Hcp. rewrite Hlist in Hcp. done. }
  assert (Hnewest : GitHub.commit_sha newest = GitHub.head (repo w)).
  { unfold GitHub.listCommits in Hlist.
    destruct (GitHub.branch_log (repo w)) as [|c l] eqn:Hlog; [done|].
    injection Hlist as <- _. by apply branch_log_first in Hlog. }
  assert (Hl : GitHub.commit_sha newest = GitHub.head (repo w3)) by (by rewrite Hw3).
  destruct (syncAll_inv _ _ _ _ _ _ _ _ _ H (Nat.le_refl _) Hl)
    as (Hdb & Hc & cs & r & Hm & Hlen & Hch & Hbl & Hcm & Htr & Hdr & Hnil & Hres).
  clear H Hl.
  rewrite firstn_all in Hm, Hres.
  rewrite Hw3 in Hdb, Hc, Hbl, Hcm, Htr, Hdr, Hnil. rewrite Hnewest in Hch.
  unfold run_outcome.
  set (order := rev (gathered mostRecentTimestamp (LeetCode.attempts src))) in *.
  assert (Hlo : length order
                = length (gathered mostRecentTimestamp (LeetCode.attempts src)))
    by (subst order; apply length_rev).
  split; [congruence|]. split; [done|].
  exists cs, r. split_and!; auto; [lia| | |].
  { destruct Hres as [(_ & _ & -> & _)|(e & ref & _ & _ & -> & _)]; done. }
  { intros Hall. destruct Hres as [(_ & _ & -> & _)|(e & ref & _ & Href & _)]; [done|].
    apply lookup_lt_Some in Href. lia. }
  destruct Hres as [(-> & Hn & -> & F)|(e & ref & -> & Href & Hbl' & Cause)].
  - left. split_and!; auto. lia.
  - right. split; [done|].
    destruct Cause as [Hf|[F R]]; [left; auto 10|].
    right. right. exists e, ref. split_and!; auto.
    unfold GitHub.get in R. rewrite Hr2, Hr1 in R. done.
Qed.

End Run.
End SyncFacts.

(** * Facts about the platform's data *)

Module DataFacts.
Import Effects EffectsFacts Engine Spec CheckpointFacts ListingFacts SyncFacts.

Lemma find_by_id (l : list LeetCode.Attempt) a :
  NoDup (map LeetCode.id l) -> a ∈ l ->
  List.find (fun b => LeetCode.id b =? LeetCode.id a) l = Some a.
Proof.
  induction l as [|b l IH]; intros Hnd Hin; [by apply elem_of_nil in Hin|].
  cbn in Hnd |- *. apply NoDup_cons in Hnd as [Hb Hnd].
  apply elem_of_cons in Hin as [->|Hin].
  - by rewrite Z.eqb_refl.
  - destruct (Z.eqb_spec (LeetCode.id b) (LeetCode.id a)) as [E|_]; [|by apply IH].
    destruct Hb. rewrite E. apply list_elem_of_In, in_map. by apply list_elem_of_In.
Qed.

(** The detail query of a listed attempt answers about that attempt. *)
Lemma details_found src a :
  distinct_ids src -> a ∈ LeetCode.attempts src ->
  LeetCode.submissionDetails src (LeetCode.id a) = Some (details_of a).
Proof.
  intros Hnd Hin. unfold LeetCode.submissionDetails.
  by rewrite (find_by_id _ _ Hnd Hin).
Qed.

Lemma take_while_sublist {A} (p : A -> bool) l x : x ∈ take_while p l -> x ∈ l.
Proof.
  induction l as [|y l IH]; cbn; [done|].
  destruct (p y); [|by intros ?%elem_of_nil].
  rewrite !elem_of_cons. intros [->|]; auto.
Qed.

Lemma pending_listed mrt src a : a ∈ pending mrt src -> a ∈ LeetCode.attempts src.
Proof.
  unfold pending, considered. rewrite list_elem_of_In, <- in_rev, filter_In.
  intros [Hin _]. apply list_elem_of_In in Hin. by eapply take_while_sublist.
Qed.

Lemma order_pending mrt src :
  rev (gathered mrt (LeetCode.attempts src)) = map ref_of (pending mrt src).
Proof. unfold gathered, pending. by rewrite map_rev. Qed.

(** A commit made for the reference of a listed attempt is the commit of
    that attempt. *)
Lemma made_commit_of src translate sprightly commitInfo a c :
  distinct_ids src -> a ∈ LeetCode.attempts src ->
  made src translate sprightly commitInfo (ref_of a) c ->
  commit_of src commitInfo a c.
Proof.
  intros Hnd Hin (details & q & date & D & Q & L & T & -> & _).
  cbn [ref_of ref_id ref_titleSlug] in D, Q.
  rewrite (details_found _ _ Hnd Hin) in D. injection D as <-.
  unfold commit_of, signature. cbn in T |- *. rewrite T. cbn.
  split; [done|]. split; [done|]. exists q. split; [exact Q|done].
Qed.

Lemma made_registered src translate sprightly commitInfo a c :
  distinct_ids src -> a ∈ LeetCode.attempts src ->
  made src translate sprightly commitInfo (ref_of a) c ->
  JSObject.truthy (JSObject.get LANG_TO_EXTENSION (LeetCode.lang a)) = true.
Proof.
  intros Hnd Hin (details & q & date & D & Q & L & _).
  cbn [ref_of ref_id] in D.
  rewrite (details_found _ _ Hnd Hin) in D. by injection D as <-.
Qed.

Lemma made_all src translate sprightly commitInfo (l : list LeetCode.Attempt) cs :
  distinct_ids src -> Forall (fun a => a ∈ LeetCode.attempts src) l ->
  Forall2 (made src translate sprightly commitInfo) (map ref_of l) cs ->
  Forall2 (commit_of src commitInfo) l cs.
Proof.
  intros Hnd Hl. revert cs. induction Hl as [|a l Ha _ IH]; intros cs H; cbn in H.
  - apply Forall2_nil_inv_l in H as ->. constructor.
  - apply Forall2_cons_inv_l in H as (c & cs' & Hm & H & ->).
    constructor; [by eapply made_commit_of|by apply IH].
Qed.

(** A committable attempt that is listed is not refused. *)
Lemma committable_not_refused src a r e r' :
  distinct_ids src -> a ∈ LeetCode.attempts src -> committable src a ->
  ~ refused src (ref_of a) (GitHub.default_branch r) r e r'.
Proof.
  intros Hnd Hin (Hlang & Hq & Ht) R. unfold refused in R.
  cbn [ref_of ref_id ref_titleSlug] in R.
  rewrite (details_found _ _ Hnd Hin) in R. unfold LeetCode.question in R.
  destruct R as [R|[R|(details & q & [= <-] & Q & R)]]; [done|..].
  - rewrite R in Hq. by destruct Hq.
  - cbn in R. destruct R as [(R & _)|[(_ & R)|R]]; [| |done].
    + by rewrite (TableFacts.registered_truthy _ Hlang) in R.
    + destruct (JSDateFacts.parse_toISOString_seconds _ Ht) as (s & Hs & _). congruence.
Qed.

Section Run.
Variable src : LeetCode.Source.
Variable translate : string -> string.
Variable sprightly : string -> Submission -> string.

(** A run that no failure hits, on committable pending submissions and
    with enough fuel, commits all of them. *)
Lemma sync_calm fuel w mostRecentTimestamp commitInfo :
  faults w = [] ->
  checkpoint_of (repo w) = Some (mostRecentTimestamp, commitInfo) ->
  distinct_ids src ->
  Forall (committable src) (pending mostRecentTimestamp src) ->
  (length (LeetCode.attempts src) < 20 * fuel)%nat ->
  exists cs w',
    sync src translate sprightly fuel w = (Ok tt, w')
    /\ faults w' = []
    /\ GitHub.branch_log (repo w') = rev cs ++ GitHub.branch_log (repo w)
    /\ GitHub.commits (repo w') = rev cs ++ GitHub.commits (repo w)
    /\ length (GitHub.trees (repo w')) = (length (GitHub.trees (repo w)) + length cs)%nat
    /\ Forall2 (commit_of src commitInfo) (pending mostRecentTimestamp src) cs
    /\ chained (GitHub.head (repo w)) cs.
Proof.
  intros F Hcp Hnd Hok Hfuel.
  destruct (sync src translate sprightly fuel w) as [res w'] eqn:H.
  apply (sync_inv _ _ _ _ _ _ _ _ _ Hcp) in H
    as (_ & _ & cs & r & Hm & Hlen & Hch & Hbl & Hcm & Htr & Hdr & Hbl' & _ & Hall & Hres).
  rewrite order_pending in Hm, Hlen, Hall, Hres.
  destruct Hres as [(-> & Hn & F')|(_ & [Hf|[[_ Hf]|(e & ref & _ & Href & _ & R)]])];
    [|done|done|].
  - rewrite Hn, firstn_all in Hm. specialize (Hall Hn). subst r.
    exists cs, w'. split_and!; auto.
    apply (made_all src translate sprightly commitInfo _ _ Hnd); [|exact Hm].
    apply Forall_forall. intros a Ha. by eapply pending_listed.
  - apply list_lookup_fmap_Some in Href as (a & -> & Ha).
    apply list_elem_of_lookup_2 in Ha.
    rewrite Forall_forall in Hok. specialize (Hok a Ha).
    rewrite <- Hdr in R.
    by apply committable_not_refused in R; [|done|by eapply pending_listed|].
Qed.

End Run.

End DataFacts.

(** * Facts about the order of the attempts and the checkpoint after a run *)

Module OrderFacts.
Import Effects Engine Spec CheckpointFacts ListingFacts SyncFacts DataFacts.

(** An entry newer than one that is above the checkpoint is above it. *)
Lemma above_newer mrt a b :
  above mrt b = true -> LeetCode.timestamp a > LeetCode.timestamp b -> above mrt a = true.
Proof.
  unfold above, leq. destruct mrt as [q|]; [|done].
  rewrite !negb_true_iff. intros Hb Hab.
  destruct (Qle_bool (inject_Z (LeetCode.timestamp a)) q) eqn:Ha; [|done].
  apply Qle_bool_iff in Ha.
  assert (inject_Z (LeetCode.timestamp b) <= q)%Q as Hle.
  { eapply Qle_trans; [|exact Ha]. rewrite <- Zle_Qle. lia. }
  apply Qle_bool_iff in Hle. congruence.
Qed.

Lemma sorted_head_newer (l : list LeetCode.Attempt) x a :
  StronglySorted Z.gt (map LeetCode.timestamp (x :: l)) -> a ∈ l ->
  LeetCode.timestamp x > LeetCode.timestamp a.
Proof.
  cbn. intros H Ha. apply StronglySorted_inv in H as [_ H].
  rewrite List.Forall_forall in H. apply H, in_map. by apply list_elem_of_In.
Qed.

Lemma gathered_sublist mrt l a :
  a ∈ List.filter accepted (considered mrt l) -> a ∈ l.
Proof.
  rewrite list_elem_of_In, filter_In. intros [Hin _].
  apply list_elem_of_In in Hin. by eapply take_while_sublist.
Qed.

Lemma filter_none {A} (p : A -> bool) l :
  (forall a, a ∈ l -> p a = false) -> List.filter p l = [].
Proof.
  induction l as [|x l IH]; intros H; cbn; [done|].
  rewrite (H x) by left. apply IH. intros a Ha. apply H. by right.
Qed.

(** On a list delivered newest first, considering the entries amounts to
    keeping those above the checkpoint. *)
Lemma considered_filter mrt (l : list LeetCode.Attempt) :
  StronglySorted Z.gt (map LeetCode.timestamp l) ->
  considered mrt l = List.filter (above mrt) l.
Proof.
  unfold considered. induction l as [|x l IH]; intros Hs; cbn; [done|].
  destruct (above mrt x) eqn:Hx.
  - rewrite IH; [done|]. cbn in Hs. by apply StronglySorted_inv in Hs as [? _].
  - symmetry. apply filter_none. intros a Ha.
    destruct (above mrt a) eqn:Hab; [|done].
    pose proof (sorted_head_newer _ _ _ Hs Ha) as Hgt.
    by rewrite (above_newer mrt x a) in Hx.
Qed.

(** The pending submissions are the accepted attempts above the checkpoint,
    oldest first. *)
Lemma pending_filter mrt src :
  newest_first src ->
  pending mrt src
  = rev (List.filter (fun a => accepted a && above mrt a) (LeetCode.attempts src)).
Proof.
  intros Hs. unfold pending. rewrite considered_filter by done. f_equal.
  induction (LeetCode.attempts src) as [|x l IH]; cbn; [done|].
  destruct (above mrt x), (accepted x) eqn:Hx; cbn; rewrite ?Hx, ?IH; done.
Qed.

Lemma sorted_filter (p : LeetCode.Attempt -> bool) l :
  StronglySorted Z.gt (map LeetCode.timestamp l) ->
  StronglySorted Z.gt (map LeetCode.timestamp (List.filter p l)).
Proof.
  induction l as [|x l IH]; cbn; [done|]. intros Hs.
  apply StronglySorted_inv in Hs as [Hs Hx]. destruct (p x); cbn; [|by apply IH].
  constructor; [by apply IH|].
  rewrite List.Forall_forall in Hx |- *. intros t Ht.
  apply in_map_iff in Ht as (a & <- & Ha). apply filter_In in Ha as [Ha _].
  apply Hx, in_map, Ha.
Qed.

Lemma sorted_snoc (r : list Z) x :
  StronglySorted Z.lt r -> (forall y, In y r -> y < x) ->
  StronglySorted Z.lt (r ++ [x]).
Proof.
  induction 1 as [|y r _ IH Hy]; intros Hx; cbn.
  - repeat constructor.
  - constructor; [apply IH; intros; apply Hx; by right|].
    rewrite List.Forall_forall in Hy |- *. intros t Ht.
    apply in_app_iff in Ht as [Ht|[<-|[]]]; [by apply Hy|]. apply Hx. by left.
Qed.

Lemma sorted_rev (l : list Z) :
  StronglySorted Z.gt l -> StronglySorted Z.lt (rev l).
Proof.
  induction 1 as [|x l _ IH Hx]; cbn; [constructor|].
  apply sorted_snoc; [done|]. rewrite List.Forall_forall in Hx.
  intros y Hy. apply in_rev in Hy. specialize (Hx y Hy). lia.
Qed.

(** The pending submissions are in increasing order of time. *)
Lemma pending_sorted mrt src :
  newest_first src ->
  StronglySorted Z.lt (map LeetCode.timestamp (pending mrt src)).
Proof.
  intros Hs. rewrite pending_filter by done. rewrite map_rev.
  by apply sorted_rev, sorted_filter.
Qed.

(** The checkpoint moved to a gathered attempt [a]: what is gathered then is
    what was gathered before [a]. *)
Lemma gathered_after mrt mrt' (l : list LeetCode.Attempt) a : forall newer older,
  StronglySorted Z.gt (map LeetCode.timestamp l) ->
  (forall t, leq t mrt' = (t <=? LeetCode.timestamp a)) ->
  List.filter accepted (considered mrt l) = newer ++ a :: older ->
  List.filter accepted (considered mrt' l) = newer.
Proof.
  unfold considered. induction l as [|x l IH]; intros newer older Hs Hleq HG; cbn in HG |- *.
  { by destruct newer. }
  assert (Hs' : StronglySorted Z.gt (map LeetCode.timestamp l))
    by (cbn in Hs; by apply StronglySorted_inv in Hs as [? _]).
  destruct (above mrt x) eqn:Hx; [|by destruct newer].
  assert (Hnewer : a ∈ l -> above mrt' x = true).
  { intros Ha. pose proof (sorted_head_newer _ _ _ Hs Ha).
    unfold above. rewrite Hleq. apply negb_true_iff, Z.leb_gt. lia. }
  cbn in HG. destruct (accepted x) eqn:Hacc.
  - destruct newer as [|g newer]; cbn in HG; injection HG as -> HG.
    + unfold above. rewrite Hleq, Z.leb_refl. done.
    + rewrite Hnewer.
      * cbn. rewrite Hacc. f_equal. by eapply IH.
      * eapply gathered_sublist. unfold considered. rewrite HG.
        apply elem_of_app. right. left.
  - rewrite Hnewer.
    + cbn. rewrite Hacc. by eapply IH.
    + eapply gathered_sublist. unfold considered. rewrite HG.
      apply elem_of_app. right. left.
Qed.

(** The checkpoint moved to the newest gathered attempt: nothing is
    gathered, whatever the order of the attempts. *)
Lemma gathered_after_newest mrt mrt' (l : list LeetCode.Attempt) a older :
  leq (LeetCode.timestamp a) mrt' = true ->
  List.filter accepted (considered mrt l) = a :: older ->
  List.filter accepted (considered mrt' l) = [].
Proof.
  unfold considered. intros Hleq. induction l as [|x l IH]; cbn; [done|].
  destruct (above mrt x); [|done]. cbn.
  destruct (accepted x) eqn:Hacc.
  - intros [= -> _]. unfold above. by rewrite Hleq.
  - intros HG. destruct (above mrt' x); [|done]. cbn. rewrite Hacc. by apply IH.
Qed.

End OrderFacts.

(** * Facts about consecutive runs *)

Module RunFacts.
Import Effects EffectsFacts Engine Spec CheckpointFacts ListingFacts SyncFacts
       DataFacts OrderFacts.

(** The checkpoint depends on the log of the branch only. *)
Lemma checkpoint_of_log r r' :
  GitHub.branch_log r' = GitHub.branch_log r -> checkpoint_of r' = checkpoint_of r.
Proof. unfold checkpoint_of, GitHub.listCommits. by intros ->. Qed.

Lemma checkpoint_of_none r : checkpoint_of r = None -> GitHub.branch_log r = [].
Proof.
  unfold checkpoint_of, GitHub.listCommits. intros H%checkpoint_nil.
  by destruct (GitHub.branch_log r).
Qed.

Lemma message_for_marked a q : String.prefix "[" (message_for a q) = true.
Proof.
  assert (exists rest, message_for a q = String "[" rest) as [rest ->]
    by (eexists; reflexivity).
  by destruct rest.
Qed.

(** The commit of an attempt depends on the name and the email of the
    identity only. *)
Lemma commit_of_identity src info info' a c :
  GitHub.name info' = GitHub.name info -> GitHub.email info' = GitHub.email info ->
  commit_of src info' a c -> commit_of src info a c.
Proof.
  intros Hn He (Hs & Hc & Hq). split; [|done].
  unfold signature in *. by rewrite <- Hn, <- He.
Qed.

Lemma commit_of_author src info a c :
  commit_of src info a c ->
  GitHub.name (GitHub.author c) = GitHub.name info
  /\ GitHub.email (GitHub.author c) = GitHub.email info.
Proof.
  intros (Hs & _). unfold signature in Hs.
  destruct (JSDate.toISOString _); [|done]. by injection Hs as <-.
Qed.

(** After the commit of attempt [a] has become the head of the branch, the
    checkpoint is the time of [a], and the identity is the author of that
    commit. *)
Lemma checkpoint_after src info a c older r :
  commit_of src info a c ->
  0 <= LeetCode.timestamp a < 253402300800 ->
  GitHub.branch_log r = c :: older ->
  exists mrt,
    checkpoint_of r = Some (mrt, GitHub.author c)
    /\ forall t, leq t mrt = (t <=? LeetCode.timestamp a).
Proof.
  intros (Hs & Hc & q & _ & Hm) Ht Hlog.
  exists (parse_seconds (GitHub.date (GitHub.committer c))). split.
  - unfold checkpoint_of, GitHub.listCommits. rewrite Hlog. cbn [take].
    unfold checkpoint. cbn [List.find]. unfold marked, COMMIT_MESSAGE.
    by rewrite Hm, message_for_marked.
  - intros t. apply leq_parse_seconds. rewrite Hc.
    destruct (JSDateFacts.parse_toISOString_seconds _ Ht) as (s & Hs' & Hp).
    unfold signature in Hs. rewrite Hs' in Hs. cbn in Hs. by injection Hs as <-.
Qed.

(** The checkpoint moved to the [k]-th pending submission: the pending
    submissions are then the ones after it. *)
Lemma pending_after src mrt mrt' k a :
  newest_first src ->
  (forall t, leq t mrt' = (t <=? LeetCode.timestamp a)) ->
  last (take k (pending mrt src)) = Some a ->
  pending mrt' src = drop k (pending mrt src).
Proof.
  intros Hs Hleq Hlast. apply last_Some in Hlast as [older Hk].
  assert (HG : List.filter accepted (considered mrt (LeetCode.attempts src))
               = rev (drop k (pending mrt src)) ++ a :: rev older).
  { rewrite <- (rev_involutive (List.filter _ _)). fold (pending mrt src).
    rewrite <- (take_drop k (pending mrt src)) at 1.
    rewrite Hk, !rev_app_distr. done. }
  unfold pending at 1. rewrite (gathered_after _ _ _ _ _ _ Hs Hleq HG).
  apply rev_involutive.
Qed.

(** The checkpoint moved to the newest pending submission: nothing is
    pending. *)
Lemma pending_after_newest src mrt mrt' a :
  leq (LeetCode.timestamp a) mrt' = true ->
  last (pending mrt src) = Some a ->
  pending mrt' src = [].
Proof.
  intros Hleq Hlast. apply last_Some in Hlast as [older Hp].
  assert (HG : List.filter accepted (considered mrt (LeetCode.attempts src))
               = a :: rev older).
  { rewrite <- (rev_involutive (List.filter _ _)). fold (pending mrt src).
    by rewrite Hp, rev_app_distr. }
  unfold pending. by rewrite (gathered_after_newest _ _ _ _ _ Hleq HG).
Qed.

Section Run.
Variable src : LeetCode.Source.
Variable translate : string -> string.
Variable sprightly : string -> Submission -> string.

(** Every commit a run creates carries the marker. *)
Lemma sync_created fuel w res w' :
  sync src translate sprightly fuel w = (res, w') -> created (repo w) (repo w').
Proof.
  intros H. destruct (checkpoint_of (repo w)) as [[mrt info]|] eqn:Hcp.
  - by pose proof (sync_inv _ _ _ _ _ _ _ _ _ Hcp H) as (_ & Hc & _).
  - apply checkpoint_of_none in Hcp.
    pose proof (sync_empty _ _ _ _ _ _ _ Hcp H) as (_ & _ & -> & _).
    apply created_refl.
Qed.

(** What any run leaves on the branch: commits of the oldest [k] pending
    submissions, on top of what was there. *)
Lemma sync_progress fuel w res w' mrt info :
  checkpoint_of (repo w) = Some (mrt, info) ->
  distinct_ids src ->
  sync src translate sprightly fuel w = (res, w') ->
  exists cs,
    (length cs <= length (pending mrt src))%nat
    /\ GitHub.branch_log (repo w') = rev cs ++ GitHub.branch_log (repo w)
    /\ Forall2 (commit_of src info) (take (length cs) (pending mrt src)) cs
    /\ chained (GitHub.head (repo w)) cs
    /\ (res = Ok tt -> length cs = length (pending mrt src))
    /\ (cs = [] -> res = Ok tt -> repo w' = repo w)
    /\ (pending mrt src = [] -> repo w' = repo w).
Proof.
  intros Hcp Hnd H.
  pose proof (sync_inv _ _ _ _ _ _ _ _ _ Hcp H)
    as (_ & _ & cs & r & Hm & Hlen & Hch & Hbl & Hcm & Htr & Hdr & Hbl' & Hnil & Hall & Hres).
  rewrite order_pending in Hm, Hlen, Hall, Hres.
  rewrite length_map in Hlen, Hall. rewrite firstn_map in Hm.
  exists cs. split; [done|]. split; [congruence|]. split.
  { apply (made_all src translate sprightly info _ _ Hnd); [|exact Hm].
    apply Forall_take, Forall_forall. intros a Ha. by eapply pending_listed. }
  split; [done|].
  assert (Hok : res = Ok tt -> length cs = length (pending mrt src)).
  { intros ->. destruct Hres as [(_ & Hn & _)|(Hno & _)]; [|by destruct (Hno tt)].
    by rewrite length_map in Hn. }
  split; [done|]. split.
  - intros Hcs Hr. rewrite Hall by auto. auto.
  - intros Hp. rewrite Hp in Hlen, Hall. cbn in Hlen, Hall.
    destruct cs; [|cbn in Hlen; lia]. rewrite Hall by done. auto.
Qed.

End Run.

End RunFacts.

(** * Facts about the marker and the message *)

Module MarkerFacts.
Import Effects Engine Spec CheckpointFacts.

(** A message carries the marker when its first character is "[". *)
Lemma marker_prefix message :
  String.prefix "[" message = true <-> exists rest, message = String "[" rest.
Proof.
  destruct message as [|a rest]; cbn [String.prefix].
  - split; [done|]. by intros [? ?].
  - destruct (ascii_dec "[" a) as [<-|Hne].
    + split; [by exists rest|]. intros _. by destruct rest.
    + split; [done|]. intros [rest' [= ? _]]. by destruct Hne.
Qed.

Lemma marker_prefix_false message :
  String.prefix "[" message = false <-> forall rest, message <> String "[" rest.
Proof.
  split.
  - intros H rest ->. by rewrite (proj2 (marker_prefix _) (ex_intro _ rest eq_refl)) in H.
  - intros H. destruct (String.prefix "[" message) eqn:E; [|done].
    apply marker_prefix in E as [rest ->]. by destruct (H rest).
Qed.

(** An array in a template literal is its elements joined by commas. *)
Lemma join_concat tags : join tags = String.concat "," tags.
Proof.
  induction tags as [|tag tags IH]; [done|].
  destruct tags as [|tag' tags]; [done|].
  cbn [join String.concat] in *. by rewrite IH.
Qed.

Lemma commit_message_concat submission :
  commit_message submission
  = "[" +:+ difficulty submission +:+ "] [" +:+ String.concat "," (tags submission)
      +:+ "] [" +:+ runtimeDisplay submission +:+ "] [" +:+ memoryDisplay submission +:+ "]".
Proof. unfold commit_message, COMMIT_MESSAGE. by rewrite join_concat. Qed.

Lemma message_for_concat a q :
  message_for a q
  = "[" +:+ LeetCode.difficulty q +:+ "] [" +:+ String.concat "," (LeetCode.topicTags q)
      +:+ "] [" +:+ LeetCode.runtimeDisplay a +:+ "] [" +:+ LeetCode.memoryDisplay a +:+ "]".
Proof. unfold message_for. by rewrite join_concat. Qed.

(** Every commit that a run puts on the branch carries the marker, however
    the run ends. *)
Lemma sync_branch_marked src translate sprightly fuel w res w' :
  sync src translate sprightly fuel w = (res, w') ->
  exists cs,
    GitHub.branch_log (repo w') = cs ++ GitHub.branch_log (repo w)
    /\ Forall (fun c => String.prefix "[" (GitHub.message c) = true) cs.
Proof.
  intros Hrun. destruct (checkpoint_of (repo w)) as [[mrt info]|] eqn:Hcp.
  - pose proof (SyncFacts.sync_inv _ _ _ _ _ _ _ _ _ Hcp Hrun)
      as (_ & _ & cs & r & Hmade & _ & _ & Hlog & _ & _ & _ & Hlog' & _).
    exists (rev cs). split; [by rewrite Hlog', Hlog|].
    apply Forall_rev. eapply Forall2_Forall_r; [exact Hmade|].
    apply Forall_forall. intros ref _ c (details & q & date & _ & _ & _ & _ & -> & _).
    apply SyncFacts.commit_message_marked.
  - apply RunFacts.checkpoint_of_none in Hcp.
    destruct (SyncFacts.sync_empty _ _ _ _ _ _ _ Hcp Hrun) as (_ & _ & -> & _).
    by exists [].
Qed.

End MarkerFacts.

(** * The properties of the design document *)

Section Claims.
Import Effects EffectsFacts Engine Spec RetryFacts GitHubFacts CommitFacts
       CheckpointFacts ListingFacts SyncFacts DataFacts OrderFacts RunFacts
       CalendarFacts MarkerFacts TableFacts.

(** C3 - Checkpoint extraction.  Scanning the fetched commits from the
    newest, the first commit whose message starts with the marker gives the
    checkpoint, whatever follows it: the identity is its author and the
    timestamp is its committer date converted to epoch seconds.  For a
    date that the host writes [YYYY-MM-DDTHH:MM:SSZ], the timestamp is the
    number of seconds that the calendar counts from 1970-01-01T00:00:00Z
    to that instant; for any date it is what [Date.parse] answers, divided
    by 1000.  When no fetched commit carries the marker the timestamp is 0
    and the identity is the author of the oldest fetched commit.  With the
    marker on the third newest commit, dated 2023-01-01T00:00:00Z, the
    timestamp is 1672531200. *)
Theorem checkpoint_extraction
    (newer older plain : list GitHub.Commit) (c c1 c2 c3 oldest : GitHub.Commit)
    (w : World) (y m d h mi s : Z) :
  Forall (fun x => String.prefix "[" (GitHub.message x) = false) newer ->
  String.prefix "[" (GitHub.message c) = true ->
  Calendar.valid y m d h mi s ->
  GitHub.date (GitHub.committer c) = Calendar.instant y m d h mi s ->
  Forall (fun x => String.prefix "[" (GitHub.message x) = false) plain ->
  last plain = Some oldest ->
  String.prefix "[" (GitHub.message c1) = false ->
  String.prefix "[" (GitHub.message c2) = false ->
  String.prefix "[" (GitHub.message c3) = true ->
  GitHub.date (GitHub.committer c3) = "2023-01-01T00:00:00Z" ->
  (exists q, resolveCheckpoint (newer ++ c :: older) w
             = (Ok (Num q, GitHub.author c), w)
             /\ (q == inject_Z (Calendar.epoch_seconds y m d h mi s))%Q)
  /\ (forall marked_commit,
        String.prefix "[" (GitHub.message marked_commit) = true ->
        resolveCheckpoint (newer ++ marked_commit :: older) w
        = (Ok (parse_seconds (GitHub.date (GitHub.committer marked_commit)),
               GitHub.author marked_commit), w))
  /\ resolveCheckpoint plain w = (Ok (Num 0, GitHub.author oldest), w)
  /\ exists q, resolveCheckpoint (c1 :: c2 :: c3 :: older) w
               = (Ok (Num q, GitHub.author c3), w)
               /\ (q == 1672531200)%Q.
Proof.
  intros Hnewer Hc Hvalid Hinstant Hplain Hlast H1 H2 H3 Hdate.
  rewrite !resolveCheckpoint_checkpoint. unfold checkpoint. split; [|split; [|split]].
  - rewrite (find_first_marked newer c older) by done.
    unfold parse_seconds. rewrite Hinstant, (parse_instant _ _ _ _ _ _ Hvalid).
    eexists. split; [reflexivity|].
    unfold Qeq. cbn [Qnum Qden inject_Z]. lia.
  - intros marked_commit Hmarked. rewrite resolveCheckpoint_checkpoint. unfold checkpoint.
    by rewrite (find_first_marked newer marked_commit older).
  - by rewrite (find_unmarked plain), Hlast.
  - change (c1 :: c2 :: c3 :: older) with ([c1; c2] ++ c3 :: older).
    rewrite (find_first_marked [c1; c2] c3 older); [|by repeat constructor|done].
    rewrite Hdate. by eexists.
Qed.

Lemma checkpoint_extraction_witness :
  let leap_day :=
    {| GitHub.commit_sha := 2%nat; GitHub.message := "[Medium] [Tree] [0 ms] [7 MB]";
       GitHub.tree := 0%nat; GitHub.parents := [1%nat];
       GitHub.author := Sample.ada;
       GitHub.committer := {| GitHub.name := "Ada"; GitHub.email := "ada@example.org";
                              GitHub.date := "2024-02-29T23:59:59Z" |} |} in
  (exists q, resolveCheckpoint (take 2 Sample.marked_third ++ [leap_day])
               (Sample.world Sample.repository [])
             = (Ok (Num q, Sample.ada), Sample.world Sample.repository [])
             /\ (q == 1709251199)%Q)
  /\ resolveCheckpoint Sample.marked_third (Sample.world Sample.repository [])
     = (Ok (Num (1672531200000 # 1000),
            {| GitHub.name := "Grace"; GitHub.email := "grace@example.org";
               GitHub.date := "2023-01-01T00:00:00Z" |}),
        Sample.world Sample.repository [])
  /\ resolveCheckpoint [Sample.initial] (Sample.world Sample.repository [])
     = (Ok (Num 0, Sample.ada), Sample.world Sample.repository []).
Proof.
  intros leap_day.
  destruct (checkpoint_extraction
              (take 2 Sample.marked_third) [] [Sample.initial]
              leap_day
              (default Sample.initial (Sample.marked_third !! 0%nat))
              (default Sample.initial (Sample.marked_third !! 1%nat))
              (default Sample.initial (Sample.marked_third !! 2%nat))
              Sample.initial (Sample.world Sample.repository [])
              2024 2 29 23 59 59)
    as (Hleap & Hany & Hplain & _).
  - repeat constructor.
  - reflexivity.
  - unfold Calendar.valid. vm_compute. intuition discriminate.
  - reflexivity.
  - repeat constructor.
  - reflexivity.
  - reflexivity.
  - reflexivity.
  - reflexivity.
  - reflexivity.
  - split; [exact Hleap|]. split; [|exact Hplain].
    exact (Hany (default Sample.initial (Sample.marked_third !! 2%nat)) eq_refl).
Defined.

(** C9 - The sync marker is the single character "[".  When [commit]
    returns it has stored a commit whose message is
    "[difficulty] [tags] [runtime] [memory]", the tags separated by commas.
    A run that nothing stops creates such a commit for each pending
    submission, from the difficulty and the tags of its question and the
    runtime and the memory of the attempt; and however a run ends, every
    commit it puts on the branch or in the store starts with "[".  The
    scan takes for the checkpoint the first fetched commit whose message
    starts with "[", were it made by hand, passes over those whose message
    starts otherwise, and finds no checkpoint when no message starts with
    "[". *)
Theorem sync_marker
    (src : LeetCode.Source) (translate : string -> string)
    (sprightly : string -> Submission -> string)
    (defaultBranch : string) (commitInfo : GitHub.Person)
    (treeSHA latestCommitSHA tsha csha : GitHub.sha) (submission : Submission)
    (wc wc' : World)
    (fuel : nat) (w : World) (resumeTimestamp : number) (authorIdentity : GitHub.Person)
    (fuel' : nat) (ws ws' : World) (result : Result unit)
    (newer older plain : list GitHub.Commit) (c oldest : GitHub.Commit) :
  commit defaultBranch commitInfo treeSHA latestCommitSHA submission wc
    = (Ok (tsha, csha), wc') ->
  faults w = [] ->
  checkpoint_of (repo w) = Some (resumeTimestamp, authorIdentity) ->
  distinct_ids src ->
  Forall (committable src) (pending resumeTimestamp src) ->
  (length (LeetCode.attempts src) < 20 * fuel)%nat ->
  sync src translate sprightly fuel' ws = (result, ws') ->
  Forall (fun x => forall rest, GitHub.message x <> String "[" rest) newer ->
  (exists rest, GitHub.message c = String "[" rest) ->
  Forall (fun x => forall rest, GitHub.message x <> String "[" rest) plain ->
  last plain = Some oldest ->
  COMMIT_MESSAGE = "["
  /\ (exists new,
        GitHub.commits (repo wc') = new :: GitHub.commits (repo wc)
        /\ GitHub.commit_sha new = csha
        /\ GitHub.message new
           = "[" +:+ difficulty submission +:+ "] [" +:+ String.concat "," (tags submission)
               +:+ "] [" +:+ runtimeDisplay submission
               +:+ "] [" +:+ memoryDisplay submission +:+ "]")
  /\ (exists cs w',
        sync src translate sprightly fuel w = (Ok tt, w')
        /\ GitHub.branch_log (repo w') = rev cs ++ GitHub.branch_log (repo w)
        /\ Forall2
             (fun a new =>
                exists q,
                  LeetCode.questions src !! LeetCode.titleSlug a = Some q
                  /\ GitHub.message new
                     = "[" +:+ LeetCode.difficulty q
                         +:+ "] [" +:+ String.concat "," (LeetCode.topicTags q)
                         +:+ "] [" +:+ LeetCode.runtimeDisplay a
                         +:+ "] [" +:+ LeetCode.memoryDisplay a +:+ "]")
             (pending resumeTimestamp src) cs)
  /\ (exists cs,
        GitHub.branch_log (repo ws') = cs ++ GitHub.branch_log (repo ws)
        /\ Forall (fun new => exists rest, GitHub.message new = String "[" rest) cs)
  /\ (forall new, new ∈ GitHub.commits (repo ws') ->
        new ∈ GitHub.commits (repo ws)
        \/ exists rest, GitHub.message new = String "[" rest)
  /\ resolveCheckpoint (newer ++ c :: older) ws
     = (Ok (parse_seconds (GitHub.date (GitHub.committer c)), GitHub.author c), ws)
  /\ resolveCheckpoint plain ws = (Ok (Num 0, GitHub.author oldest), ws).
Proof.
  intros Hcommit Hcalm Hcp Hids Hok Hfuel Hsync Hnewer Hc Hplain Hlast.
  split; [done|]. split; [|split; [|split; [|split; [|split]]]].
  - apply commit_inv in Hcommit as (_ & [(date & t & s & C)|(e & ? & _)]); [|done].
    cbn zeta in C. destruct C as ([= <- <-] & _ & _ & _ & Hcs & _).
    eexists. split; [exact Hcs|]. split; [done|]. apply commit_message_concat.
  - destruct (sync_calm src translate sprightly fuel w _ _ Hcalm Hcp Hids Hok Hfuel)
      as (cs & w' & Hrun & _ & Hlog & _ & _ & Hall & _).
    exists cs, w'. split; [done|]. split; [done|].
    eapply Forall2_impl; [exact Hall|]. cbn beta.
    intros a new (_ & _ & q & Hq & Hmessage). exists q. split; [done|].
    by rewrite Hmessage, message_for_concat.
  - destruct (sync_branch_marked _ _ _ _ _ _ _ Hsync) as (cs & Hlog & Hmarked).
    exists cs. split; [done|]. eapply Forall_impl; [exact Hmarked|].
    intros new. apply marker_prefix.
  - intros new Hnew. destruct (sync_created _ _ _ _ _ _ _ Hsync new Hnew) as [|Hm];
      [by left|right]. by apply marker_prefix.
  - rewrite resolveCheckpoint_checkpoint. unfold checkpoint.
    rewrite (find_first_marked newer c older); [done| |by apply marker_prefix].
    eapply Forall_impl; [exact Hnewer|]. intros x. apply marker_prefix_false.
  - rewrite resolveCheckpoint_checkpoint. unfold checkpoint.
    rewrite (find_unmarked plain), Hlast; [done|].
    eapply Forall_impl; [exact Hplain|]. intros x. apply marker_prefix_false.
Qed.

Lemma sync_marker_witness :
  map GitHub.message
    (GitHub.branch_log
       (repo (sync Sample.account Sample.translate Sample.sprightly 1
                (Sample.world Sample.repository [])).2))
  = [ "[Easy] [Array,Hash Table] [3 ms] [2 MB]"; "[Easy] [Array,Hash Table] [3 ms] [2 MB]";
      "Initial commit" ]
  /\ (exists cs w',
        sync Sample.account Sample.translate Sample.sprightly 1
          (Sample.world Sample.repository []) = (Ok tt, w')
        /\ GitHub.branch_log (repo w') = rev cs ++ [Sample.initial]
        /\ Forall (fun new => GitHub.message new
                              = "[Easy] [Array,Hash Table] [3 ms] [2 MB]") cs
        /\ length cs = 2%nat)
  /\ resolveCheckpoint
       [ {| GitHub.commit_sha := 2%nat; GitHub.message := "[WIP] draft";
            GitHub.tree := 0%nat; GitHub.parents := [1%nat];
            GitHub.author := Sample.ada; GitHub.committer := Sample.ada |};
         Sample.initial ]
       (Sample.world Sample.repository [])
     = (Ok (Num (1672480800000 # 1000), Sample.ada), Sample.world Sample.repository []).
Proof.
  split; [vm_compute; reflexivity|].
  pose (submission :=
          enriched Sample.translate Sample.sprightly
            {| ref_id := 11; ref_titleSlug := "two-sum" |}
            (details_of (Sample.attempt 11 1672531200 "Accepted" "golang"))
            Sample.two_sum).
  pose (by_hand :=
          {| GitHub.commit_sha := 2%nat; GitHub.message := "[WIP] draft";
             GitHub.tree := 0%nat; GitHub.parents := [1%nat];
             GitHub.author := Sample.ada; GitHub.committer := Sample.ada |}).
  pose (run := sync Sample.account Sample.translate Sample.sprightly 1
                 (Sample.world Sample.repository [])).
  destruct (sync_marker Sample.account Sample.translate Sample.sprightly
              "main" Sample.ada 0%nat 1%nat 2%nat 3%nat submission
              (Sample.world Sample.repository [])
              (commit "main" Sample.ada 0%nat 1%nat submission
                 (Sample.world Sample.repository [])).2
              1%nat (Sample.world Sample.repository []) (Num 0) Sample.ada
              1%nat (Sample.world Sample.repository []) run.2 run.1
              [] [Sample.initial] [Sample.initial] by_hand Sample.initial)
    as (_ & _ & (cs & w' & Hrun & Hlog & Hall) & _ & _ & Hscan & _).
  - vm_compute. reflexivity.
  - reflexivity.
  - reflexivity.
  - unfold distinct_ids. cbn. compute_done.
  - change (pending (Num 0) Sample.account)
      with [ Sample.attempt 11 1672531200 "Accepted" "golang";
             Sample.attempt 13 1672531500 "Accepted" "golang" ].
    repeat (apply Forall_cons; split); [| |apply Forall_nil; done];
      (split; [by eexists; vm_compute|split; [by eexists; vm_compute|cbn; lia]]).
  - cbn. lia.
  - apply surjective_pairing.
  - constructor.
  - by exists "WIP] draft"%string.
  - repeat constructor. intros rest. discriminate.
  - reflexivity.
  - split; [|exact Hscan].
    exists cs, w'. split; [exact Hrun|]. split; [exact Hlog|].
    change (pending (Num 0) Sample.account)
      with [ Sample.attempt 11 1672531200 "Accepted" "golang";
             Sample.attempt 13 1672531500 "Accepted" "golang" ] in Hall.
    split; [|symmetry; exact (Forall2_length _ _ _ Hall)].
    eapply Forall2_Forall_r; [exact Hall|].
    repeat (apply Forall_cons; split); [| |apply Forall_nil; done];
      intros new (q & Hq & ->); vm_compute in Hq; injection Hq as <-;
      vm_compute; reflexivity.
Defined.

(** C2 - Listing consumption filter.  A page is consumed in the order it is
    delivered: the first entry at or below the checkpoint stops the
    consumption of the page, the flag returned being false, and then no
    further page is requested; an entry above the checkpoint that is not
    accepted is skipped and the consumption goes on; an accepted entry above
    the checkpoint is appended with its id and its slug.  Over the pages of
    a run the result is the accepted entries among those delivered before
    the first entry at or below the checkpoint.  For timestamps 50, 40, 30,
    20 and the checkpoint 30, the entries considered are those of 50 and
    40. *)
Theorem listing_consumption_filter
    (src : LeetCode.Source) (fuel : nat) (w : World)
    (mostRecentTimestamp : number) (more : bool)
    (page before after : list LeetCode.Attempt) (stop skipped taken : LeetCode.Attempt)
    (submissions : list Ref) (example : list LeetCode.Attempt) :
  forallb (above mostRecentTimestamp) before = true ->
  leq (LeetCode.timestamp stop) mostRecentTimestamp = true ->
  leq (LeetCode.timestamp skipped) mostRecentTimestamp = false ->
  LeetCode.statusDisplay skipped <> "Accepted" ->
  leq (LeetCode.timestamp taken) mostRecentTimestamp = false ->
  LeetCode.statusDisplay taken = "Accepted" ->
  faults w = [] ->
  (length (LeetCode.attempts src) < 20 * fuel)%nat ->
  map LeetCode.timestamp example = [50; 40; 30; 20] ->
  addToSubmissions {| LeetCode.hasNext := more; LeetCode.submissions := page |}
      submissions mostRecentTimestamp
    = (forallb (above mostRecentTimestamp) page,
       submissions ++ gathered mostRecentTimestamp page)
  /\ addToSubmissions
       {| LeetCode.hasNext := more; LeetCode.submissions := before ++ stop :: after |}
       submissions mostRecentTimestamp
     = (false, submissions ++ gathered mostRecentTimestamp before)
  /\ addEntries (skipped :: after) submissions mostRecentTimestamp
     = addEntries after submissions mostRecentTimestamp
  /\ addEntries (taken :: after) submissions mostRecentTimestamp
     = addEntries after
         (submissions ++ [ {| ref_id := LeetCode.id taken;
                              ref_titleSlug := LeetCode.titleSlug taken |} ])
         mostRecentTimestamp
  /\ (exists w',
        listing src fuel mostRecentTimestamp None 0 [] w
        = (Ok (gathered mostRecentTimestamp (LeetCode.attempts src)), w'))
  /\ (forallb (above mostRecentTimestamp) (take 20 (LeetCode.attempts src)) = false ->
      listing src fuel mostRecentTimestamp None 0 [] w
      = (Ok (gathered mostRecentTimestamp (LeetCode.attempts src)),
         {| repo := repo w; faults := [];
            trace := trace w ++ [Request (SubmissionList 0 20)] |}))
  /\ considered (Num 30) example = take 2 example.
Proof.
  intros Hbefore Hstop Hskip Hstatus Htaken Haccepted Hcalm Hfuel Hexample.
  assert (Hlisting : exists w',
             listing src fuel mostRecentTimestamp None 0 [] w
             = (Ok (gathered mostRecentTimestamp (LeetCode.attempts src)), w')).
  { destruct (listing src fuel mostRecentTimestamp None 0 [] w) as [res w'] eqn:H.
    apply listing_inv in H as (_ & [[-> _]|[(reason & _ & Hf)|[_ Hf]]]).
    - by exists w'.
    - by destruct Hf.
    - destruct Hf. lia. }
  split; [apply addEntries_gathered|]. split; [|split; [|split; [|split; [|split]]]].
  - unfold addToSubmissions. cbn [LeetCode.submissions].
    rewrite addEntries_gathered, forallb_app, Hbefore, gathered_all by done.
    cbn [forallb]. unfold above at 1. rewrite Hstop. cbn. f_equal. f_equal.
    unfold gathered at 2, considered. cbn. unfold above. rewrite Hstop. cbn.
    by rewrite app_nil_r.
  - cbn [addEntries]. rewrite Hskip.
    by apply String.eqb_neq in Hstatus as ->.
  - cbn [addEntries]. rewrite Htaken.
    by apply String.eqb_eq in Haccepted as ->.
  - exact Hlisting.
  - intros Hstopped. destruct fuel as [|fuel']; [lia|]. cbn [listing].
    unfold bind at 1, ret at 1.
    rewrite (bind_ok _ _ _ (LeetCode.submissionList src 0 20)
               {| repo := repo w; faults := [];
                  trace := trace w ++ [Request (SubmissionList 0 20)] |}).
    2:{ unfold getSubmissions.
        rewrite (retrying_recovers _ _ _ [] _ _ _ []); [done|done|by left|cbn; lia|lia]. }
    unfold addToSubmissions. rewrite addEntries_gathered.
    cbn [LeetCode.submissionList LeetCode.submissions].
    change (drop 0 (LeetCode.attempts src)) with (LeetCode.attempts src).
    rewrite Hstopped. cbn [negb app].
    unfold ret. f_equal. f_equal.
    rewrite <- (take_drop 20 (LeetCode.attempts src)) at 2.
    by rewrite gathered_stop.
  - destruct example as [|e50 [|e40 [|e30 [|e20 [|]]]]]; try discriminate Hexample.
    injection Hexample as H50 H40 H30 H20.
    unfold considered, above. cbn [take_while].
    rewrite H50, H40, H30. reflexivity.
Qed.

Lemma listing_consumption_filter_witness :
  considered (Num 30)
    [ Sample.attempt 4 50 "Accepted" "golang"; Sample.attempt 3 40 "Wrong Answer" "golang";
      Sample.attempt 2 30 "Accepted" "golang"; Sample.attempt 1 20 "Accepted" "golang" ]
  = [ Sample.attempt 4 50 "Accepted" "golang"; Sample.attempt 3 40 "Wrong Answer" "golang" ]
  /\ addToSubmissions
       {| LeetCode.hasNext := true;
          LeetCode.submissions :=
            [ Sample.attempt 4 50 "Accepted" "golang";
              Sample.attempt 3 40 "Wrong Answer" "golang";
              Sample.attempt 2 30 "Accepted" "golang";
              Sample.attempt 1 20 "Accepted" "golang" ] |}
       [] (Num 30)
     = (false, [ {| ref_id := 4; ref_titleSlug := "two-sum" |} ]).
Proof.
  pose (example :=
          [ Sample.attempt 4 50 "Accepted" "golang";
            Sample.attempt 3 40 "Wrong Answer" "golang";
            Sample.attempt 2 30 "Accepted" "golang";
            Sample.attempt 1 20 "Accepted" "golang" ]).
  destruct (listing_consumption_filter Sample.account 1
              (Sample.world Sample.repository []) (Num 30) true
              example (take 2 example) (drop 3 example)
              (Sample.attempt 2 30 "Accepted" "golang")
              (Sample.attempt 3 40 "Wrong Answer" "golang")
              (Sample.attempt 4 50 "Accepted" "golang")
              [] example)
    as (_ & Hstop & _ & _ & _ & _ & Hexample).
  - reflexivity.
  - reflexivity.
  - reflexivity.
  - discriminate.
  - reflexivity.
  - reflexivity.
  - reflexivity.
  - cbn. lia.
  - reflexivity.
  - split; [exact Hexample|exact Hstop].
Defined.



(** C10 - A run needs a repository that has a commit.  On a repository
    whose history is empty the list of commits is requested and the run
    throws: reading the author of the last element of the empty list fails,
    when the request itself has not failed.  Nothing is requested from the
    platform and nothing is written. *)
Theorem empty_history_fails
    (src : LeetCode.Source) (translate : string -> string)
    (sprightly : string -> Submission -> string) (fuel : nat)
    (w w' : World) (res : Result unit) :
  GitHub.branch_log (repo w) = [] ->
  sync src translate sprightly fuel w = (res, w') ->
  (exists e, res = Throw e)
  /\ (faults w = [] ->
      res = Throw (TypeError "Cannot read properties of undefined (reading 'commit')"))
  /\ repo w' = repo w
  /\ trace w' = trace w ++ [Request (ListCommits 100)].
Proof. apply sync_empty. Qed.

Lemma empty_history_fails_witness :
  sync Sample.account Sample.translate Sample.sprightly 1
    (Sample.world Sample.empty_repository [])
  = (Throw (TypeError "Cannot read properties of undefined (reading 'commit')"),
     {| repo := Sample.empty_repository; faults := [];
        trace := [Request (ListCommits 100)] |}).
Proof.
  destruct (empty_history_fails Sample.account Sample.translate Sample.sprightly 1
              (Sample.world Sample.empty_repository [])
              (sync Sample.account Sample.translate Sample.sprightly 1
                 (Sample.world Sample.empty_repository [])).2
              (sync Sample.account Sample.translate Sample.sprightly 1
                 (Sample.world Sample.empty_repository [])).1)
    as (_ & Hres & Hrepo & Htrace).
  - reflexivity.
  - apply surjective_pairing.
  - reflexivity.
Defined.

(** C6 - The question lookup is not retried.  With a failure due on the
    question request of the first pending submission, the run makes that
    request once, does not sleep, and throws a [TypeError] on reading the
    response that is not there; the failure of the request is not what is
    thrown.  The same failure on the detail request of the submission is
    followed by a sleep of one second and a second request, and the run
    ends well. *)
Example question_lookup_not_retried :
  sync Sample.account Sample.translate Sample.sprightly 1
    (Sample.world Sample.repository [None; None; None; None; Some "ECONNRESET"])
  = (Throw (TypeError "Cannot read properties of undefined (reading 'data')"),
     {| repo := Sample.repository; faults := [];
        trace := [ Request (ListCommits 100); Request (SubmissionList 0 20);
                   Request GetRepo; Request (SubmissionDetails 11);
                   Request (QuestionDetail "two-sum") ] |})
  /\ (sync Sample.account Sample.translate Sample.sprightly 1
        (Sample.world Sample.repository [None; None; None; Some "ECONNRESET"])).1
     = Ok tt
  /\ take 7 (trace (sync Sample.account Sample.translate Sample.sprightly 1
                      (Sample.world Sample.repository
                         [None; None; None; Some "ECONNRESET"])).2)
     = [ Request (ListCommits 100); Request (SubmissionList 0 20);
         Request GetRepo; Request (SubmissionDetails 11); Delay 1000;
         Request (SubmissionDetails 11); Request (QuestionDetail "two-sum") ].
Proof. split; [|split]; vm_compute; reflexivity. Qed.

End Claims.

Section ClaimsOnRuns.
Import Effects EffectsFacts Engine Spec RetryFacts GitHubFacts CommitFacts
       CheckpointFacts ListingFacts SyncFacts DataFacts OrderFacts RunFacts
       CalendarFacts MarkerFacts TableFacts.

(** C4 - Ordering and commit construction.  When the platform delivers the
    attempts newest first, the pending submissions are the accepted
    attempts above the checkpoint, in increasing order of time.  A run that
    no failure hits commits each of them, in that order: it creates as many
    commits as there are pending submissions and nothing else on the
    branch; each commit has the previous one as its only parent, the first
    one having the head the branch had when the run started; its author and
    its committer are the recovered identity at the instant of its own
    submission, in ISO form. *)
Theorem ordering_and_commit_construction
    (src : LeetCode.Source) (translate : string -> string)
    (sprightly : string -> Submission -> string) (fuel : nat) (w : World)
    (resumeTimestamp : number) (authorIdentity : GitHub.Person) :
  faults w = [] ->
  checkpoint_of (repo w) = Some (resumeTimestamp, authorIdentity) ->
  newest_first src ->
  distinct_ids src ->
  Forall (committable src) (pending resumeTimestamp src) ->
  (length (LeetCode.attempts src) < 20 * fuel)%nat ->
  pending resumeTimestamp src
    = rev (List.filter (fun a => accepted a && above resumeTimestamp a)
             (LeetCode.attempts src))
  /\ StronglySorted Z.lt (map LeetCode.timestamp (pending resumeTimestamp src))
  /\ exists cs w',
      sync src translate sprightly fuel w = (Ok tt, w')
      /\ length cs = length (pending resumeTimestamp src)
      /\ GitHub.branch_log (repo w') = rev cs ++ GitHub.branch_log (repo w)
      /\ GitHub.commits (repo w') = rev cs ++ GitHub.commits (repo w)
      /\ chained (GitHub.head (repo w)) cs
      /\ Forall2
           (fun a c =>
              exists date,
                JSDate.toISOString (LeetCode.timestamp a * 1000) = Some date
                /\ GitHub.author c
                   = {| GitHub.name := GitHub.name authorIdentity;
                        GitHub.email := GitHub.email authorIdentity;
                        GitHub.date := date |}
                /\ GitHub.committer c = GitHub.author c)
           (pending resumeTimestamp src) cs.
Proof.
  intros Hcalm Hcp Hsorted Hids Hok Hfuel.
  split; [by apply pending_filter|]. split; [by apply pending_sorted|].
  destruct (sync_calm src translate sprightly fuel w _ _ Hcalm Hcp Hids Hok Hfuel)
    as (cs & w' & Hrun & _ & Hlog & Hcommits & _ & Hall & Hchain).
  exists cs, w'. split_and!; auto.
  - symmetry. by eapply Forall2_length.
  - eapply Forall2_impl; [exact Hall|].
    intros a c (Hs & Hc & _). unfold signature in Hs.
    destruct (JSDate.toISOString (LeetCode.timestamp a * 1000)) as [date|]; [|done].
    exists date. cbn in Hs. injection Hs as Hs. by rewrite Hc, <- Hs.
Qed.

Lemma ordering_and_commit_construction_witness :
  map (fun c => (GitHub.parents c, GitHub.date (GitHub.author c),
                 GitHub.date (GitHub.committer c), GitHub.name (GitHub.author c)))
    (GitHub.branch_log
       (repo (sync Sample.account Sample.translate Sample.sprightly 1
                (Sample.world Sample.repository [])).2))
  = [ ([3%nat], "2023-01-01T00:05:00.000Z", "2023-01-01T00:05:00.000Z", "Ada");
      ([1%nat], "2023-01-01T00:00:00.000Z", "2023-01-01T00:00:00.000Z", "Ada");
      ([], "2022-12-31T10:00:00Z", "2022-12-31T10:00:00Z", "Ada") ]
  /\ exists cs w',
      sync Sample.account Sample.translate Sample.sprightly 1
        (Sample.world Sample.repository []) = (Ok tt, w')
      /\ length cs = 2%nat
      /\ GitHub.branch_log (repo w') = rev cs ++ [Sample.initial].
Proof.
  split; [vm_compute; reflexivity|].
  destruct (ordering_and_commit_construction Sample.account Sample.translate
              Sample.sprightly 1 (Sample.world Sample.repository [])
              (Num 0) Sample.ada)
    as (_ & _ & cs & w' & Hrun & Hlen & Hlog & _).
  - reflexivity.
  - reflexivity.
  - unfold newest_first. cbn. repeat constructor; lia.
  - unfold distinct_ids. cbn. compute_done.
  - change (pending (Num 0) Sample.account)
      with [ Sample.attempt 11 1672531200 "Accepted" "golang";
             Sample.attempt 13 1672531500 "Accepted" "golang" ].
    repeat (apply Forall_cons; split); [| |apply Forall_nil; done];
      (split; [by eexists; vm_compute|split; [by eexists; vm_compute|cbn; lia]]).
  - cbn. lia.
  - exists cs, w'. split; [exact Hrun|]. split; [exact Hlen|exact Hlog].
Defined.

(** C8 - A language named like an inherited member passes the check of the
    table.  The table has no entry for "constructor", yet reading it at
    that key finds the member every object inherits, which is truthy:
    [commit] does not throw, writes a tree whose source file has the
    printed function for extension, writes the commit and moves the
    branch; a run commits the submission and goes on to the next one.  For
    "rust", which has no entry either, [commit] throws before any request
    and the run stops there. *)
Example extension_lookup_inherits :
  let submission language :=
    enriched Sample.translate Sample.sprightly
      {| ref_id := 12; ref_titleSlug := "two-sum" |}
      (details_of (Sample.attempt 12 1672531400 "Accepted" language)) Sample.two_sum in
  let account language :=
    {| LeetCode.attempts :=
         [ Sample.attempt 13 1672531500 "Accepted" "golang";
           Sample.attempt 12 1672531400 "Accepted" language;
           Sample.attempt 11 1672531200 "Accepted" "golang" ];
       LeetCode.questions := {[ "two-sum" := Sample.two_sum ]} |} in
  let written language :=
    commit "main" Sample.ada 0%nat 1%nat (submission language)
      (Sample.world Sample.repository []) in
  let run language :=
    sync (account language) Sample.translate Sample.sprightly 1
      (Sample.world Sample.repository []) in
  LANG_TO_EXTENSION !! "constructor" = None
  /\ (written "constructor").1 = Ok (2%nat, 3%nat)
  /\ trace (written "constructor").2
     = [Request CreateTree; Request CreateCommit; Request UpdateRef]
  /\ map GitHub.path (flat_map GitHub.entries (GitHub.trees (repo (written "constructor").2)))
     = [ "Two Sum/two-sum.function Object() { [native code] }"; "Two Sum/README.md" ]
  /\ GitHub.head (repo (written "constructor").2) = 3%nat
  /\ (run "constructor").1 = Ok tt
  /\ length (GitHub.branch_log (repo (run "constructor").2)) = 4%nat
  /\ LANG_TO_EXTENSION !! "rust" = None
  /\ written "rust"
     = (Throw (Thrown "Language rust does not have a registered extension."),
        Sample.world Sample.repository [])
  /\ (run "rust").1 = Throw (Thrown "Language rust does not have a registered extension.")
  /\ length (GitHub.branch_log (repo (run "rust").2)) = 2%nat.
Proof. repeat split; vm_compute; reflexivity. Qed.

(** C1 - A re-invocation does not commit all of Sk+1..SN when the run was
    stopped by a submission itself.  On the account whose second accepted
    attempt is in Rust, a run that no failure hits commits S1, throws for
    S2 and leaves S2 and S3 pending; the re-invocation, which no failure
    hits either, has exactly S2 and S3 pending and throws for S2 again: it
    commits neither S2 nor S3, and leaves the repository as it found
    it. *)
Lemma resume_repeats_refusal :
  let first_run :=
    sync Sample.account_with_rust Sample.translate Sample.sprightly 1
      (Sample.world Sample.repository []) in
  let second_run :=
    sync Sample.account_with_rust Sample.translate Sample.sprightly 1
      {| repo := repo first_run.2; faults := []; trace := [] |} in
  let S1 := Sample.attempt 11 1672531200 "Accepted" "golang" in
  let S2 := Sample.attempt 12 1672531400 "Accepted" "rust" in
  let S3 := Sample.attempt 13 1672531500 "Accepted" "golang" in
  pending (Num 0) Sample.account_with_rust = [S1; S2; S3]
  /\ first_run.1 = Throw (Thrown "Language rust does not have a registered extension.")
  /\ (exists c1, GitHub.branch_log (repo first_run.2) = [c1; Sample.initial]
                 /\ commit_of Sample.account_with_rust Sample.ada S1 c1)
  /\ second_run.1 = Throw (Thrown "Language rust does not have a registered extension.")
  /\ repo second_run.2 = repo first_run.2
  /\ ~ (exists cs2,
          GitHub.branch_log (repo second_run.2)
          = rev cs2 ++ GitHub.branch_log (repo first_run.2)
          /\ Forall2 (commit_of Sample.account_with_rust Sample.ada) [S2; S3] cs2).
Proof.
  intros first_run second_run S1 S2 S3.
  assert (Hsame : repo second_run.2 = repo first_run.2) by (vm_compute; reflexivity).
  split; [reflexivity|]. split; [vm_compute; reflexivity|]. split.
  { eexists. split; [vm_compute; reflexivity|].
    split; [vm_compute; reflexivity|]. split; [reflexivity|].
    exists Sample.two_sum. split; [reflexivity|]. vm_compute. reflexivity. }
  split; [vm_compute; reflexivity|]. split; [exact Hsame|].
  intros (cs2 & Hlog & Hall). rewrite Hsame in Hlog.
  apply Forall2_length in Hall.
  assert (Hlen : length (GitHub.branch_log (repo first_run.2))
                 = (length (rev cs2) + length (GitHub.branch_log (repo first_run.2)))%nat)
    by (rewrite Hlog at 1; apply length_app).
  rewrite length_rev in Hlen. cbn in Hall. lia.
Qed.

(** C1 - Resume correctness.  Let the platform deliver the attempts
    newest first and let S1..SN be the pending submissions, oldest first,
    at times of the years 1970 to 9999.  However a run ends and whatever
    stopped it, it leaves on the branch, on top of what was there, the
    commits of S1..Sk for some k, and k is N if the run ended well.  The
    checkpoint recovered from the repository it leaves is at the time of
    Sk: a timestamp is at or below it exactly when it is at most the
    timestamp of Sk, so the pending submissions of a re-invocation are
    exactly Sk+1..SN.  The re-invocation, whatever happens to it, keeps the
    commits of S1..Sk and adds on top of them the commits of Sk+1..Sk+j in
    order for some j: it recommits none of S1..Sk, and j is N - k if it
    ends well.  It ends well, having created no other commit, when no
    failure hits it and each of Sk+1..SN can be committed; it stops again
    at the first of them that cannot. *)
Theorem resume_correctness
    (src : LeetCode.Source) (translate : string -> string)
    (sprightly : string -> Submission -> string) (fuel fuel' : nat)
    (w w1 w2 : World) (res res2 : Result unit)
    (resumeTimestamp : number) (authorIdentity : GitHub.Person)
    (failures : list (option string)) (events : list Event) :
  checkpoint_of (repo w) = Some (resumeTimestamp, authorIdentity) ->
  newest_first src ->
  distinct_ids src ->
  Forall (fun a => 0 <= LeetCode.timestamp a < 253402300800)
    (pending resumeTimestamp src) ->
  sync src translate sprightly fuel w = (res, w1) ->
  sync src translate sprightly fuel'
    {| repo := repo w1; faults := failures; trace := events |} = (res2, w2) ->
  exists k cs1 j cs2 checkpoint identity,
    (k <= length (pending resumeTimestamp src))%nat
    /\ (res = Ok tt -> k = length (pending resumeTimestamp src))
    /\ GitHub.branch_log (repo w1) = rev cs1 ++ GitHub.branch_log (repo w)
    /\ Forall2 (commit_of src authorIdentity) (take k (pending resumeTimestamp src)) cs1
    /\ checkpoint_of (repo w1) = Some (checkpoint, identity)
    /\ (forall last_committed,
          last (take k (pending resumeTimestamp src)) = Some last_committed ->
          forall t, leq t checkpoint = (t <=? LeetCode.timestamp last_committed))
    /\ pending checkpoint src = drop k (pending resumeTimestamp src)
    /\ (j <= length (drop k (pending resumeTimestamp src)))%nat
    /\ GitHub.branch_log (repo w2) = rev cs2 ++ rev cs1 ++ GitHub.branch_log (repo w)
    /\ Forall2 (commit_of src authorIdentity)
         (take j (drop k (pending resumeTimestamp src))) cs2
    /\ (res2 = Ok tt -> j = length (drop k (pending resumeTimestamp src)))
    /\ (failures = [] ->
        Forall (committable src) (drop k (pending resumeTimestamp src)) ->
        (length (LeetCode.attempts src) < 20 * fuel')%nat ->
        res2 = Ok tt
        /\ GitHub.commits (repo w2) = rev cs2 ++ GitHub.commits (repo w1))
    /\ (forall refused_again,
          failures = [] ->
          (length (LeetCode.attempts src) < 20 * fuel')%nat ->
          drop k (pending resumeTimestamp src) !! j = Some refused_again ->
          ~ committable src refused_again).
Proof.
  intros Hcp Hsorted Hids Hrange Hrun Hrun2.
  destruct (sync_progress _ _ _ _ _ _ _ _ _ Hcp Hids Hrun)
    as (cs1 & Hk & Hlog & Hdone & _ & Hall & _ & _).
  (* the checkpoint that the first run leaves *)
  assert (Hnext : exists checkpoint identity,
             checkpoint_of (repo w1) = Some (checkpoint, identity)
             /\ GitHub.name identity = GitHub.name authorIdentity
             /\ GitHub.email identity = GitHub.email authorIdentity
             /\ (forall last_committed,
                   last (take (length cs1) (pending resumeTimestamp src))
                   = Some last_committed ->
                   forall t, leq t checkpoint = (t <=? LeetCode.timestamp last_committed))
             /\ pending checkpoint src = drop (length cs1) (pending resumeTimestamp src)).
  { destruct (last (take (length cs1) (pending resumeTimestamp src))) as [a|] eqn:Hlast.
    - pose proof Hlast as Hsplit. apply last_Some in Hsplit as [before Hsplit].
      pose proof Hdone as Hdone'. rewrite Hsplit in Hdone'.
      apply Forall2_app_inv_l in Hdone' as (cs & cl & _ & Ha & Hcs).
      apply Forall2_cons_inv_l in Ha as (c & nil & Ha & Hnil & ->).
      apply Forall2_nil_inv_l in Hnil as ->.
      assert (Hain : a ∈ pending resumeTimestamp src).
      { assert (a ∈ take (length cs1) (pending resumeTimestamp src)) as Hin
          by (rewrite Hsplit; apply elem_of_app; right; left).
        apply elem_of_take in Hin as (i & Hi & _). by eapply list_elem_of_lookup_2. }
      rewrite Forall_forall in Hrange. specialize (Hrange a Hain).
      assert (Hhead : GitHub.branch_log (repo w1)
                      = c :: rev cs ++ GitHub.branch_log (repo w)).
      { rewrite Hlog, Hcs, rev_app_distr. done. }
      destruct (checkpoint_after _ _ _ _ _ _ Ha Hrange Hhead) as (mrt' & Hcp' & Hleq).
      destruct (commit_of_author _ _ _ _ Ha) as [Hname Hemail].
      exists mrt', (GitHub.author c). split; [done|]. split; [done|]. split; [done|].
      split; [by intros ? [= <-]|].
      by apply (pending_after _ _ _ _ _ Hsorted Hleq).
    - assert (Hnone : cs1 = []).
      { apply last_None in Hlast. destruct cs1 as [|c cs]; [done|].
        apply Forall2_length in Hdone. rewrite Hlast in Hdone. done. }
      exists resumeTimestamp, authorIdentity. subst cs1. cbn [length rev app drop] in *.
      split; [rewrite <- Hcp; by apply checkpoint_of_log|]. done. }
  destruct Hnext as (checkpoint & identity & Hcp' & Hname & Hemail & Hleq & Hpending).
  destruct (sync_progress _ _ _ _
              {| repo := repo w1; faults := failures; trace := events |}
              _ _ _ _ Hcp' Hids Hrun2)
    as (cs2 & Hj & Hlog2 & Hdone2 & _ & Hall2 & _ & _).
  cbn [repo] in Hlog2. rewrite Hpending in Hj, Hdone2, Hall2.
  exists (length cs1), cs1, (length cs2), cs2, checkpoint, identity.
  split; [done|]. split; [done|]. split; [done|]. split; [done|]. split; [done|].
  split; [done|]. split; [done|]. split; [done|].
  split; [by rewrite Hlog2, Hlog|].
  split. { eapply Forall2_impl; [exact Hdone2|]. intros a c. by apply commit_of_identity. }
  split; [done|].
  assert (Hcalm : failures = [] ->
            Forall (committable src) (drop (length cs1) (pending resumeTimestamp src)) ->
            (length (LeetCode.attempts src) < 20 * fuel')%nat ->
            res2 = Ok tt
            /\ GitHub.commits (repo w2) = rev cs2 ++ GitHub.commits (repo w1)).
  { intros -> Hok Hfuel.
    destruct (sync_calm src translate sprightly fuel'
                {| repo := repo w1; faults := []; trace := events |} checkpoint identity)
      as (cs & w' & Hrun' & _ & Hlog' & Hcommits' & _); try done.
    { by rewrite Hpending. }
    rewrite Hrun2 in Hrun'. injection Hrun' as -> <-. split; [done|].
    cbn [repo] in Hlog', Hcommits'. rewrite Hlog2 in Hlog'.
    apply app_inv_tail in Hlog'. by rewrite Hlog'. }
  split; [exact Hcalm|].
  intros refused_again Hnone Hfuel Hat Hok.
  (* were it committable, a shorter list would be committable and the run
     would have committed it *)
  subst failures.
  pose proof (sync_inv src translate sprightly fuel'
                {| repo := repo w1; faults := []; trace := events |} res2 w2
                checkpoint identity Hcp' Hrun2)
    as (_ & _ & cs & r & Hm & Hlen & _ & Hbl & _ & _ & Hdr & Hbl' & _ & _ & Hres).
  cbn [repo faults] in Hbl, Hdr, Hbl', Hres.
  rewrite order_pending, Hpending in Hm, Hlen, Hres. rewrite length_map in Hlen.
  assert (Hcs : length cs = length cs2).
  { rewrite Hbl, Hlog2 in Hbl'. apply app_inv_tail in Hbl'.
    by rewrite <- (length_rev cs), <- Hbl', length_rev. }
  apply lookup_lt_Some in Hat as Hlt.
  destruct Hres as [(_ & Hn & _)|(_ & [Hf|[[_ Hf]|(e & ref & -> & Href & _ & R)]])].
  - rewrite length_map in Hn. lia.
  - done.
  - by destruct Hf.
  - rewrite Hcs in Href.
    apply list_lookup_fmap_Some in Href as (a & -> & Ha).
    rewrite Hat in Ha. injection Ha as <-.
    rewrite <- Hdr in R.
    apply committable_not_refused in R; [done|done| |done].
    apply (pending_listed resumeTimestamp).
    rewrite lookup_drop in Hat. by apply list_elem_of_lookup_2 in Hat.
Qed.

Lemma resume_correctness_witness :
  let failures := repeat None 9 ++ [Some "ECONNRESET"] in
  let first_run :=
    sync Sample.account Sample.translate Sample.sprightly 1
      (Sample.world Sample.repository failures) in
  let second_run :=
    sync Sample.account Sample.translate Sample.sprightly 1
      {| repo := repo first_run.2; faults := []; trace := [] |} in
  first_run.1 = Throw (TypeError "Cannot read properties of undefined (reading 'data')")
  /\ exists cs1 cs2,
      length cs1 = 1%nat
      /\ GitHub.branch_log (repo first_run.2) = rev cs1 ++ [Sample.initial]
      /\ second_run.1 = Ok tt
      /\ GitHub.branch_log (repo second_run.2) = rev cs2 ++ rev cs1 ++ [Sample.initial]
      /\ length cs2 = 1%nat.
Proof.
  intros failures first_run second_run. split; [vm_compute; reflexivity|].
  destruct (resume_correctness Sample.account Sample.translate Sample.sprightly 1 1
              (Sample.world Sample.repository failures) first_run.2 second_run.2
              first_run.1 second_run.1 (Num 0) Sample.ada [] [])
    as (k & cs1 & j & cs2 & checkpoint & identity & _ & _ & Hlog & _ & _ & _ & _ & _
        & Hlog2 & _).
  - reflexivity.
  - unfold newest_first. cbn. repeat constructor; lia.
  - unfold distinct_ids. cbn. compute_done.
  - change (pending (Num 0) Sample.account)
      with [ Sample.attempt 11 1672531200 "Accepted" "golang";
             Sample.attempt 13 1672531500 "Accepted" "golang" ].
    repeat (apply Forall_cons; split); [| |apply Forall_nil; done]; cbn; lia.
  - apply surjective_pairing.
  - apply surjective_pairing.
  - change (GitHub.branch_log (repo (Sample.world Sample.repository failures)))
      with [Sample.initial] in Hlog, Hlog2.
    assert (Hone : length cs1 = 1%nat).
    { assert (length (GitHub.branch_log (repo first_run.2)) = 2%nat) as Hlen
        by (vm_compute; reflexivity).
      rewrite Hlog, length_app, length_rev in Hlen. cbn in Hlen. lia. }
    assert (Htwo : length cs2 = 1%nat).
    { assert (length (GitHub.branch_log (repo second_run.2)) = 3%nat) as Hlen
        by (vm_compute; reflexivity).
      rewrite Hlog2, !length_app, !length_rev in Hlen. cbn in Hlen. lia. }
    exists cs1, cs2. split; [exact Hone|]. split; [exact Hlog|].
    split; [vm_compute; reflexivity|]. split; [exact Hlog2|exact Htwo].
Defined.

(** C5 - Idempotence.  After a run that ended well, a second run on the same
    attempts leaves the repository as the first one left it, whatever
    happens to its requests: it creates no commit and no tree, and does not
    move the branch.  The order of the attempts does not matter. *)
Theorem idempotence
    (src : LeetCode.Source) (translate : string -> string)
    (sprightly : string -> Submission -> string) (fuel fuel' : nat)
    (w w1 w2 : World) (res : Result unit)
    (resumeTimestamp : number) (authorIdentity : GitHub.Person)
    (failures : list (option string)) (events : list Event) :
  checkpoint_of (repo w) = Some (resumeTimestamp, authorIdentity) ->
  distinct_ids src ->
  Forall (fun a => 0 <= LeetCode.timestamp a < 253402300800)
    (pending resumeTimestamp src) ->
  sync src translate sprightly fuel w = (Ok tt, w1) ->
  sync src translate sprightly fuel'
    {| repo := repo w1; faults := failures; trace := events |} = (res, w2) ->
  repo w2 = repo w1
  /\ exists checkpoint identity,
      checkpoint_of (repo w1) = Some (checkpoint, identity)
      /\ pending checkpoint src = [].
Proof.
  intros Hcp Hids Hrange Hrun1 Hrun2.
  destruct (sync_progress _ _ _ _ _ _ _ _ _ Hcp Hids Hrun1)
    as (cs1 & _ & Hlog & Hdone & _ & Hall & Hsame & _).
  specialize (Hall eq_refl). rewrite Hall, firstn_all in Hdone.
  assert (Hnext : exists checkpoint identity,
             checkpoint_of (repo w1) = Some (checkpoint, identity)
             /\ pending checkpoint src = []).
  { destruct (last (pending resumeTimestamp src)) as [a|] eqn:Hlast.
    - pose proof Hlast as Hsplit. apply last_Some in Hsplit as [before Hsplit].
      rewrite Hsplit in Hdone. apply Forall2_app_inv_l in Hdone
        as (cs & cl & _ & Ha & Hcs).
      apply Forall2_cons_inv_l in Ha as (c & nil & Ha & Hnil & ->).
      apply Forall2_nil_inv_l in Hnil as ->.
      assert (Hin : a ∈ pending resumeTimestamp src)
        by (rewrite Hsplit; apply elem_of_app; right; left).
      rewrite Forall_forall in Hrange. specialize (Hrange a Hin).
      assert (Hhead : GitHub.branch_log (repo w1)
                      = c :: rev cs ++ GitHub.branch_log (repo w))
        by (by rewrite Hlog, Hcs, rev_app_distr).
      destruct (checkpoint_after _ _ _ _ _ _ Ha Hrange Hhead) as (mrt' & Hcp' & Hleq).
      exists mrt', (GitHub.author c). split; [done|].
      eapply pending_after_newest; [|exact Hlast].
      rewrite Hleq. apply Z.leb_refl.
    - apply last_None in Hlast. exists resumeTimestamp, authorIdentity.
      split; [|done]. rewrite <- Hcp. apply checkpoint_of_log.
      rewrite Hlast in Hdone. apply Forall2_nil_inv_l in Hdone as ->.
      by rewrite Hlog. }
  split; [|done]. destruct Hnext as (mrt' & info' & Hcp' & Hnone).
  destruct (sync_progress _ _ _ _
              {| repo := repo w1; faults := failures; trace := events |}
              _ _ _ _ Hcp' Hids Hrun2)
    as (_ & _ & _ & _ & _ & _ & _ & Hrepo).
  exact (Hrepo Hnone).
Qed.

Lemma idempotence_witness :
  let first_run :=
    sync Sample.account Sample.translate Sample.sprightly 1
      (Sample.world Sample.repository [None; None; None; Some "ECONNRESET"]) in
  let second_run :=
    sync Sample.account Sample.translate Sample.sprightly 1
      {| repo := repo first_run.2; faults := [None; Some "ETIMEDOUT"]; trace := [] |} in
  first_run.1 = Ok tt
  /\ length (GitHub.commits (repo first_run.2)) = 3%nat
  /\ repo second_run.2 = repo first_run.2.
Proof.
  intros first_run second_run.
  assert (Hfirst : first_run.1 = Ok tt) by (vm_compute; reflexivity).
  split; [exact Hfirst|]. split; [vm_compute; reflexivity|].
  destruct (idempotence Sample.account Sample.translate Sample.sprightly 1 1
              (Sample.world Sample.repository [None; None; None; Some "ECONNRESET"])
              first_run.2 second_run.2 second_run.1 (Num 0) Sample.ada
              [None; Some "ETIMEDOUT"] [])
    as (Hsame & _).
  - reflexivity.
  - unfold distinct_ids. cbn. compute_done.
  - change (pending (Num 0) Sample.account)
      with [ Sample.attempt 11 1672531200 "Accepted" "golang";
             Sample.attempt 13 1672531500 "Accepted" "golang" ].
    repeat (apply Forall_cons; split); [| |apply Forall_nil; done]; cbn; lia.
  - rewrite <- Hfirst. apply surjective_pairing.
  - apply surjective_pairing.
  - exact Hsame.
Defined.

End ClaimsOnRuns.
(** * Facts about the shape of a run *)

Module ShapeFacts.
Import Effects EffectsFacts Engine Spec Shape GitHubFacts CommitFacts.

(** The steps of [commit], with the repository and the trace each one
    leaves. *)
Lemma commit_steps defaultBranch commitInfo treeSHA latestCommitSHA submission w res w' :
  commit defaultBranch commitInfo treeSHA latestCommitSHA submission w = (res, w') ->
  if negb (JSObject.truthy (JSObject.get LANG_TO_EXTENSION (lang submission))) then
    res = Throw (Thrown ("Language " +:+ lang submission
                           +:+ " does not have a registered extension."))
    /\ w' = w
  else
    let treeData := [
      {| GitHub.path := title submission +:+ "/" +:+ slug submission +:+ "."
                          +:+ JSObject.template
                                (JSObject.get LANG_TO_EXTENSION (lang submission));
         GitHub.mode := "100644";
         GitHub.content := code submission |};
      {| GitHub.path := title submission +:+ "/README.md";
         GitHub.mode := "100644";
         GitHub.content := text (readme submission) |} ] in
    let r1 := GitHub.createTree treeSHA treeData (repo w) in
    (exists reason,
        res = Throw (HttpError reason) /\ repo w' = repo w /\ faults w <> []
        /\ trace w' = trace w ++ [Request CreateTree])
    \/ (JSDate.toISOString (timestamp submission * 1000) = None
        /\ res = Throw (RangeError "Invalid time value")
        /\ repo w' = r1.2
        /\ (faults w = [] -> faults w' = [])
        /\ trace w' = trace w ++ [Request CreateTree])
    \/ exists date,
        JSDate.toISOString (timestamp submission * 1000) = Some date
        /\ let person := {| GitHub.name := GitHub.name commitInfo;
                            GitHub.email := GitHub.email commitInfo;
                            GitHub.date := date |} in
           let r2 := GitHub.createCommit (commit_message submission) r1.1
                       [latestCommitSHA] person person r1.2 in
           (exists reason,
               res = Throw (HttpError reason) /\ repo w' = r1.2 /\ faults w <> []
               /\ trace w' = trace w ++ [Request CreateTree; Request CreateCommit])
           \/ (exists reason,
                 res = Throw (HttpError reason) /\ repo w' = r2.2
                 /\ (faults w <> [] \/ defaultBranch <> GitHub.default_branch (repo w))
                 /\ trace w' = trace w ++ [Request CreateTree; Request CreateCommit;
                                           Request UpdateRef])
           \/ (res = Ok (r1.1, r2.1)
               /\ GitHub.updateRef ("heads/" +:+ defaultBranch) r2.1 r2.2 = Some (repo w')
               /\ (faults w = [] -> faults w' = [])
               /\ trace w' = trace w ++ [Request CreateTree; Request CreateCommit;
                                         Request UpdateRef]).
Proof.
  unfold commit.
  destruct (JSObject.truthy (JSObject.get LANG_TO_EXTENSION (lang submission))) eqn:L; cbn [negb].
  2:{ by intros [= <- <-]. }
  cbn zeta. intros H.
  apply bind_inv in H as [(tsha & w1 & H1 & H)|[(e & H1 & ->)|[H1 ->]]];
    pose proof (request_inv _ _ _ _ _ H1) as [T1 _];
    apply request_served_inv in H1 as [(reason & R1 & Hr1 & Hf1)|(R1 & Hr1 & F1)]; try done.
  2:{ injection R1 as ->. left. exists reason. split_and!; auto. }
  injection R1 as ->. right.
  destruct (JSDate.toISOString (timestamp submission * 1000)) as [date|] eqn:D.
  2:{ injection H as <- <-. left. split_and!; auto. }
  right. exists date. split; [done|]. cbn zeta.
  apply bind_inv in H as [(csha & w2 & H2 & H)|[(e & H2 & ->)|[H2 ->]]];
    pose proof (request_inv _ _ _ _ _ H2) as [T2 _];
    apply request_served_inv in H2 as [(reason & R2 & Hr2 & Hf2)|(R2 & Hr2 & F2)]; try done.
  2:{ injection R2 as ->. left. exists reason. rewrite T2, T1, <- app_assoc, Hr2, Hr1. split_and!; auto. }
  injection R2 as ->. rewrite Hr1 in Hr2. right.
  apply bind_inv in H as [([] & w3 & H3 & H)|[(e & H3 & ->)|[H3 ->]]];
    apply request_inv in H3 as [T3 [(reason & R3 & Hr3 & Hf3)|[F3 R3]]]; try done.
  - injection H as <- <-. right. rewrite Hr1, Hr2 in R3.
    match type of R3 with context [GitHub.updateRef ?a ?b ?c] =>
      destruct (GitHub.updateRef a b c) as [r3|] eqn:U end; [|by destruct R3].
    destruct R3 as [_ R3]. rewrite R3, T3, T2, T1, <- !app_assoc, ?Hr1.
    split_and!; auto.
  - injection R3 as ->. left. exists reason.
    rewrite Hr3, Hr2, T3, T2, T1, <- !app_assoc. split_and!; auto.
    left. intros F. by apply Hf3, F2, F1.
  - rewrite Hr1, Hr2 in R3.
    match type of R3 with context [GitHub.updateRef ?a ?b ?c] =>
      destruct (GitHub.updateRef a b c) as [r3|] eqn:U end; [by destruct R3|].
    destruct R3 as [[= ->] R3]. left. eexists.
    rewrite R3, T3, T2, T1, <- !app_assoc. split_and!; auto.
    right. unfold GitHub.updateRef in U. case_decide as E; [done|].
    intros ->. by apply E.
  - rewrite Hr1, Hr2 in R3.
    match type of R3 with context [GitHub.updateRef ?a ?b ?c] =>
      destruct (GitHub.updateRef a b c) as [r3|] eqn:U end; by destruct R3.
Qed.

(** The two lookups when no failure is due. *)
Lemma getSubmissionData_calm src id w :
  faults w = [] ->
  getSubmissionData src id w
  = (Ok (LeetCode.submissionDetails src id),
     {| repo := repo w; faults := [];
        trace := trace w ++ [Request (SubmissionDetails id)] |}).
Proof.
  intros F. unfold getSubmissionData.
  by rewrite (RetryFacts.retrying_recovers _ _ _ [] _ _ _ []); [|done|left|cbn; lia|lia].
Qed.

(** The question lookup: one request, answered or dropped. *)
Lemma getQuestionData_steps src titleSlug w :
  getQuestionData src titleSlug w
  = (match faults w with
     | Some _ :: _ => Ok None
     | _ => Ok (Some (LeetCode.question src titleSlug))
     end,
     {| repo := repo w; faults := tail (faults w);
        trace := trace w ++ [Request (QuestionDetail titleSlug)] |}).
Proof.
  unfold getQuestionData, try_catch, bind, ret.
  destruct (faults w) as [|[reason|] rest] eqn:F.
  - by rewrite query_calm.
  - by rewrite (query_fault _ _ _ reason rest).
  - by rewrite (query_pass _ _ _ rest).
Qed.

(** An iteration of the commit loop when no failure is due: the two
    lookups, then [commit] on the submission built from their answers. *)
Lemma syncOne_calm src translate sprightly ref defaultBranch commitInfo
    treeSHA latestCommitSHA w :
  faults w = [] ->
  syncOne src translate sprightly ref defaultBranch commitInfo treeSHA latestCommitSHA w
  = let w2 := {| repo := repo w; faults := [];
                 trace := trace w ++ [ Request (SubmissionDetails (ref_id ref));
                                       Request (QuestionDetail (ref_titleSlug ref)) ] |} in
    match LeetCode.question src (ref_titleSlug ref) with
    | None => (Throw (TypeError "Cannot read properties of null (reading 'topicTags')"), w2)
    | Some q =>
        match LeetCode.submissionDetails src (ref_id ref) with
        | None => (Throw (TypeError "Cannot read properties of null (reading 'lang')"), w2)
        | Some details =>
            commit defaultBranch commitInfo treeSHA latestCommitSHA
              (enriched translate sprightly ref details q) w2
        end
    end.
Proof.
  intros F. unfold syncOne.
  rewrite (bind_ok _ _ _ _ _ (getSubmissionData_calm src (ref_id ref) w F)).
  unfold bind at 1. rewrite getQuestionData_steps. cbn [faults trace repo tail].
  rewrite <- app_assoc. cbn [app].
  destruct (LeetCode.question src (ref_titleSlug ref)) as [q|]; [|done].
  by destruct (LeetCode.submissionDetails src (ref_id ref)).
Qed.

End ShapeFacts.

(** * Facts about runs that nothing stops *)

Module RunShapeFacts.
Import Effects EffectsFacts Engine Spec Shape GitHubFacts CommitFacts CheckpointFacts
       ListingFacts DataFacts ShapeFacts.

(** Whether a window of the entries is wholly above the checkpoint, from
    the number of entries before the first one that is not. *)
Lemma forallb_window {A} (p : A -> bool) : forall l m o,
  (o <= length (take_while p l))%nat ->
  forallb p (take m (drop o l))
  = ((o + m) `min` length l <=? length (take_while p l))%nat.
Proof.
  induction l as [|x l IH]; intros m o Ho.
  - rewrite drop_nil, take_nil. cbn. by rewrite Nat.min_0_r.
  - cbn [take_while] in Ho |- *. destruct (p x) eqn:Hx; cbn [length] in Ho |- *.
    + destruct o as [|o].
      * rewrite drop_0. destruct m as [|m]; [done|].
        rewrite firstn_cons. cbn [forallb]. rewrite Hx. cbn [andb].
        rewrite <- (drop_0 l), IH by lia.
        cbn [Nat.add]. by rewrite <- Nat.succ_min_distr.
      * rewrite skipn_cons, IH by lia.
        cbn [Nat.add]. by rewrite <- Nat.succ_min_distr.
    + assert (o = 0%nat) as -> by lia. rewrite drop_0.
      destruct m as [|m]; [done|].
      rewrite firstn_cons. cbn [forallb]. by rewrite Hx.
Qed.

Lemma take_while_length {A} (p : A -> bool) l :
  (length (take_while p l) <= length l)%nat.
Proof. induction l as [|x l IH]; cbn; [done|]. destruct (p x); cbn; lia. Qed.

Lemma div20 c k : (20 * k <= c < 20 * k + 20)%nat -> (c / 20 = k)%nat.
Proof. intros H. symmetry. apply (Nat.div_unique c 20 k (c - 20 * k)); lia. Qed.

Lemma pages_trace_step k count :
  pages_trace k (S count)
  = [Delay 1000; Request (SubmissionList (20 * k) 20)] ++ pages_trace (S k) count.
Proof. done. Qed.

(** The listing loop when no failure is due, entered at page [k]: the
    entries gathered, and the pages requested. *)
Lemma listing_calm src mrt : forall fuel response k submissions w,
  let l := LeetCode.attempts src in
  let c := length (considered mrt l) in
  faults w = [] ->
  (20 * k <= c)%nat ->
  (k = 0 \/ 20 * k < length l)%nat ->
  (length l < 20 * k + 20 * fuel)%nat ->
  listing src fuel mrt response (20 * k) submissions w
  = (Ok (submissions ++ gathered mrt (drop (20 * k) l)),
     {| repo := repo w; faults := [];
        trace := trace w ++ match response with None => [] | Some _ => [Delay 1000] end
                   ++ [Request (SubmissionList (20 * k) 20)]
                   ++ pages_trace (S k) (later_pages c (length l) - k) |}).
Proof.
  induction fuel as [|fuel IH]; intros response k submissions w l c F Hk Hn Hfuel; [lia|].
  pose proof (take_while_length (above mrt) l) as Hc. fold (considered mrt l) in Hc.
  fold c in Hc.
  cbn [listing].
  set (w0 := {| repo := repo w; faults := [];
                trace := trace w ++ match response with
                                    | None => [] | Some _ => [Delay 1000] end |}).
  assert (H0 : (match response with None => ret tt | Some _ => delay 1000 end) w
               = (Ok tt, w0)).
  { unfold w0. destruct response.
    - unfold delay, emit. by rewrite F.
    - unfold ret. rewrite app_nil_r. destruct w; cbn in *; by subst. }
  rewrite (bind_ok _ _ _ _ _ H0).
  assert (H1 : getSubmissions src (20 * k) match response with
                                            | None => 0%nat | Some _ => 5%nat end 0 w0
               = (Ok (LeetCode.submissionList src (20 * k) 20),
                  {| repo := repo w; faults := [];
                     trace := trace w0 ++ [Request (SubmissionList (20 * k) 20)] |})).
  { unfold getSubmissions.
    rewrite (RetryFacts.retrying_recovers _ _ _ [] _ _ _ []); [done|done|by left|cbn; lia|lia]. }
  rewrite (bind_ok _ _ _ _ _ H1).
  unfold addToSubmissions. rewrite addEntries_gathered.
  cbn [LeetCode.submissionList LeetCode.submissions LeetCode.hasNext].
  fold l. pose proof (page_split l (20 * k)) as Hsplit.
  rewrite (forallb_window _ l 20 (20 * k)) by done.
  fold (considered mrt l). fold c.
  pose proof (forallb_window (above mrt) l 20 (20 * k) Hk) as Hwin.
  fold (considered mrt l) in Hwin. fold c in Hwin.
  destruct (Nat.leb_spec ((20 * k + 20) `min` length l) c) as [Hall|Hstop]; cbn [negb].
  - destruct (Nat.ltb_spec (20 * k + 20) (length l)) as [Hnext|Hlast].
    + replace (20 * k + 20)%nat with (20 * S k)%nat by lia.
      rewrite IH; [|done|subst c l; lia..]. cbn [repo trace]. f_equal.
      * f_equal. rewrite <- app_assoc. f_equal.
        rewrite Hsplit at 2. rewrite gathered_all by done.
        by replace (20 * k + 20)%nat with (20 * S k)%nat by lia.
      * f_equal. unfold w0. cbn [trace]. rewrite <- !app_assoc. f_equal. f_equal.
        cbn [app]. f_equal.
        assert (S k <= later_pages c (length l))%nat as Hp.
        { unfold later_pages. apply Nat.div_le_lower_bound; lia. }
        replace (later_pages c (length l) - k)%nat
          with (S (later_pages c (length l) - S k)) by lia.
        by rewrite pages_trace_step.
    + unfold ret. f_equal.
      * f_equal. rewrite Hsplit at 2.
        by rewrite (drop_ge _ (20 * k + 20)), app_nil_r by lia.
      * f_equal. unfold w0. cbn [trace]. rewrite <- !app_assoc. do 2 f_equal.
        assert (later_pages c (length l) = k) as ->.
        { unfold later_pages. apply div20. lia. }
        rewrite Nat.sub_diag. done.
  - unfold ret. f_equal.
    + f_equal. rewrite Hsplit at 2. by rewrite gathered_stop.
    + f_equal. unfold w0. cbn [trace]. rewrite <- !app_assoc. do 2 f_equal.
      assert (later_pages c (length l) = k) as ->.
      { unfold later_pages. apply div20. lia. }
      rewrite Nat.sub_diag. done.
Qed.

(** [commit] when no failure is due, for a submission in Go whose time can
    be represented, on the default branch. *)
Lemma commit_calm defaultBranch commitInfo treeSHA latestCommitSHA submission w date :
  faults w = [] ->
  lang submission = "golang" ->
  JSDate.toISOString (timestamp submission * 1000) = Some date ->
  defaultBranch = GitHub.default_branch (repo w) ->
  exists tsha csha w',
    commit defaultBranch commitInfo treeSHA latestCommitSHA submission w
      = (Ok (tsha, csha), w')
    /\ faults w' = []
    /\ trace w' = trace w ++ [Request CreateTree; Request CreateCommit; Request UpdateRef]
    /\ GitHub.trees (repo w')
       = {| GitHub.tree_sha := tsha; GitHub.base_tree := treeSHA;
            GitHub.entries :=
              [ {| GitHub.path := title submission +:+ "/" +:+ slug submission +:+ ".go";
                   GitHub.mode := "100644";
                   GitHub.content := code submission |};
                {| GitHub.path := title submission +:+ "/README.md";
                   GitHub.mode := "100644";
                   GitHub.content := text (readme submission) |} ] |}
         :: GitHub.trees (repo w)
    /\ GitHub.commits (repo w')
       = commit_object commitInfo latestCommitSHA submission date csha tsha
         :: GitHub.commits (repo w)
    /\ GitHub.default_branch (repo w') = GitHub.default_branch (repo w).
Proof.
  intros F Hlang Hdate Hbranch.
  destruct (commit defaultBranch commitInfo treeSHA latestCommitSHA submission w)
    as [res w'] eqn:Hrun.
  apply commit_steps in Hrun. rewrite Hlang in Hrun.
  change (negb (JSObject.truthy (JSObject.get LANG_TO_EXTENSION "golang"))) with false in Hrun.
  change (JSObject.template (JSObject.get LANG_TO_EXTENSION "golang")) with "go" in Hrun. cbn zeta in Hrun.
  destruct Hrun as [(reason & _ & _ & ? & _)|[(? & _)|(date' & Hdate' & Hrun)]];
    [done|congruence|].
  assert (date' = date) as -> by congruence.
  destruct Hrun as [(reason & _ & _ & ? & _)|[(reason & _ & _ & [?|?] & _)|Hrun]];
    [done|done|done|].
  destruct Hrun as (-> & Href & Hf & Htrace).
  unfold GitHub.updateRef in Href. case_decide; [|done]. injection Href as Href.
  eexists _, _, w'. split; [done|]. rewrite <- Href. cbn. auto.
Qed.

(** The commit loop when no failure is due and every submission can be
    committed: the requests made, and the trees and commits stored, oldest
    first. *)
Lemma syncAll_calm src translate sprightly n :
  forall submissions defaultBranch commitInfo treeSHA latestCommitSHA w,
    faults w = [] ->
    (n <= length submissions)%nat ->
    defaultBranch = GitHub.default_branch (repo w) ->
    Forall (fun ref => exists details q date,
                LeetCode.submissionDetails src (ref_id ref) = Some details
                /\ LeetCode.question src (ref_titleSlug ref) = Some q
                /\ LeetCode.lang_name details = "golang"
                /\ JSDate.toISOString (LeetCode.d_timestamp details * 1000) = Some date)
      (take n submissions) ->
    exists ts cs w',
      syncAll src translate sprightly n submissions defaultBranch commitInfo
        treeSHA latestCommitSHA w = (Ok tt, w')
      /\ faults w' = []
      /\ trace w' = trace w ++ flat_map requests_of (rev (take n submissions))
      /\ GitHub.trees (repo w') = rev ts ++ GitHub.trees (repo w)
      /\ GitHub.commits (repo w') = rev cs ++ GitHub.commits (repo w)
      /\ based treeSHA ts
      /\ Forall2 (fun c t => GitHub.tree c = GitHub.tree_sha t) cs ts
      /\ Forall2 (fun ref t => exists details q,
                     LeetCode.submissionDetails src (ref_id ref) = Some details
                     /\ LeetCode.question src (ref_titleSlug ref) = Some q
                     /\ GitHub.entries t
                        = let submission := enriched translate sprightly ref details q in
                          [ {| GitHub.path := title submission +:+ "/" +:+ slug submission
                                                +:+ ".go";
                               GitHub.mode := "100644";
                               GitHub.content := code submission |};
                            {| GitHub.path := title submission +:+ "/README.md";
                               GitHub.mode := "100644";
                               GitHub.content := text (readme submission) |} ])
           (rev (take n submissions)) ts.
Proof.
  induction n as [|i IH];
    intros submissions defaultBranch commitInfo treeSHA latestCommitSHA w F Hn Hbranch Hall.
  { exists [], [], w. cbn. rewrite app_nil_r. split_and!; auto. }
  destruct (lookup_lt_is_Some_2 submissions i ltac:(lia)) as [ref Href].
  rewrite (take_S_r _ _ _ Href) in Hall |- *.
  apply Forall_app in Hall as [Hall Hready].
  apply Forall_singleton in Hready as (details & q & date & Hd & Hq & Hlang & Hdate).
  rewrite rev_unit. cbn [syncAll]. rewrite Href.
  destruct (commit_calm defaultBranch commitInfo treeSHA latestCommitSHA
              (enriched translate sprightly ref details q)
              {| repo := repo w; faults := [];
                 trace := trace w ++ [ Request (SubmissionDetails (ref_id ref));
                                       Request (QuestionDetail (ref_titleSlug ref)) ] |}
              date)
    as (tsha & csha & w1 & Hcommit & F1 & T1 & Htrees & Hcommits & Hdb); try done.
  assert (Hone : syncOne src translate sprightly ref defaultBranch commitInfo
                   treeSHA latestCommitSHA w = (Ok (tsha, csha), w1)).
  { rewrite syncOne_calm by done. cbn zeta. by rewrite Hq, Hd. }
  rewrite (bind_ok _ _ _ _ _ Hone). cbn [fst snd].
  destruct (IH submissions defaultBranch commitInfo tsha csha w1) as
    (ts & cs & w' & Hrun & F' & T' & Htrees' & Hcommits' & Hbased & Htree & Hfiles);
    [done|lia|by rewrite Hdb|done|].
  eexists (_ :: ts), (_ :: cs), w'. split; [done|]. split; [done|].
  cbn [rev flat_map]. rewrite <- !app_assoc. cbn [app].
  split.
  { rewrite T', T1. cbn [trace requests_of]. by rewrite <- !app_assoc. }
  split; [by rewrite Htrees', Htrees|]. split; [by rewrite Hcommits', Hcommits|].
  split; [done|]. split; [by constructor|].
  constructor; [|done]. by exists details, q.
Qed.

Lemma Forall2_with {A B} (P : A -> Prop) (R : A -> B -> Prop) l k :
  Forall P l -> Forall2 R l k -> Forall2 (fun x y => P x /\ R x y) l k.
Proof.
  intros HP HR. induction HR as [|x y l k Hxy _ IH]; [constructor|].
  apply Forall_cons in HP as [Hx HP]. constructor; auto.
Qed.

(** An attempt that can be committed, as the lookups of the commit loop
    see it. *)
Lemma committable_ready src a :
  distinct_ids src -> a ∈ LeetCode.attempts src -> committable src a ->
  exists q date,
    LeetCode.submissionDetails src (LeetCode.id a) = Some (details_of a)
    /\ LeetCode.question src (LeetCode.titleSlug a) = Some q
    /\ LeetCode.lang a = "golang"
    /\ JSDate.toISOString (LeetCode.timestamp a * 1000) = Some date.
Proof.
  intros Hids Ha ([ext Hext] & [q Hq] & Hrange).
  destruct (JSDateFacts.parse_toISOString_seconds _ Hrange) as (date & Hdate & _).
  exists q, date. split; [by apply details_found|]. split; [done|]. split; [|done].
  unfold LANG_TO_EXTENSION in Hext. by apply lookup_singleton_Some in Hext as [<- _].
Qed.

(** A whole run when no failure is due and every pending submission can be
    committed. *)
Lemma sync_calm_shape src translate sprightly fuel w mrt info newest older :
  faults w = [] ->
  checkpoint_of (repo w) = Some (mrt, info) ->
  GitHub.branch_log (repo w) = newest :: older ->
  distinct_ids src ->
  Forall (committable src) (pending mrt src) ->
  (length (LeetCode.attempts src) < 20 * fuel)%nat ->
  exists ts cs w',
    sync src translate sprightly fuel w = (Ok tt, w')
    /\ faults w' = []
    /\ trace w'
       = trace w ++ [Request (ListCommits 100); Request (SubmissionList 0 20)]
           ++ pages_trace 1 (later_pages (length (considered mrt (LeetCode.attempts src)))
                               (length (LeetCode.attempts src)))
           ++ [Request GetRepo]
           ++ flat_map requests_of (map ref_of (pending mrt src))
    /\ GitHub.trees (repo w') = rev ts ++ GitHub.trees (repo w)
    /\ GitHub.commits (repo w') = rev cs ++ GitHub.commits (repo w)
    /\ based (GitHub.tree newest) ts
    /\ Forall2 (fun c t => GitHub.tree c = GitHub.tree_sha t) cs ts
    /\ Forall2 (fun a t => exists q,
                   LeetCode.questions src !! LeetCode.titleSlug a = Some q
                   /\ GitHub.entries t
                      = let submission :=
                          enriched translate sprightly (ref_of a) (details_of a) q in
                        [ {| GitHub.path := title submission +:+ "/" +:+ slug submission
                                              +:+ ".go";
                             GitHub.mode := "100644";
                             GitHub.content := code submission |};
                          {| GitHub.path := title submission +:+ "/README.md";
                             GitHub.mode := "100644";
                             GitHub.content := text (readme submission) |} ])
         (pending mrt src) ts.
Proof.
  intros F Hcp Hlog Hids Hok Hfuel. unfold sync.
  rewrite (bind_ok _ _ _ _ _ (query_calm (ListCommits 100) (GitHub.listCommits 100) w F)).
  unfold bind at 1. rewrite resolveCheckpoint_checkpoint. cbn [repo].
  unfold checkpoint_of in Hcp. rewrite Hcp.
  pose proof (listing_calm src mrt fuel None 0 []
                {| repo := repo w; faults := [];
                   trace := trace w ++ [Request (ListCommits 100)] |}
                eq_refl ltac:(lia) ltac:(by left) ltac:(lia)) as Hlist.
  cbn zeta in Hlist. change (20 * 0)%nat with 0%nat in Hlist.
  rewrite (bind_ok _ _ _ _ _ Hlist). clear Hlist.
  rewrite drop_0, Nat.sub_0_r. cbn [app repo trace].
  erewrite bind_ok; [|by apply query_calm].
  cbn [repo trace].
  unfold GitHub.listCommits. rewrite Hlog. rewrite firstn_cons.
  assert (Hlisted : Forall (fun a => a ∈ LeetCode.attempts src) (pending mrt src)).
  { apply Forall_forall. intros a Ha. by eapply pending_listed. }
  pose proof (order_pending mrt src) as Horder.
  destruct (syncAll_calm src translate sprightly
              (length (gathered mrt (LeetCode.attempts src)))
              (gathered mrt (LeetCode.attempts src)) (GitHub.get (repo w)) info
              (GitHub.tree newest) (GitHub.commit_sha newest)
              {| repo := repo w; faults := [];
                 trace := ((trace w ++ [Request (ListCommits 100)])
                           ++ Request (SubmissionList 0 20)
                              :: pages_trace 1
                                   (later_pages
                                      (length (considered mrt (LeetCode.attempts src)))
                                      (length (LeetCode.attempts src))))
                          ++ [Request GetRepo] |})
    as (ts & cs & w' & Hrun & F' & T' & Htrees & Hcommits & Hbased & Htree & Hfiles);
    [done|done|done| |].
  { rewrite firstn_all, <- (rev_involutive (gathered mrt (LeetCode.attempts src))).
    apply Forall_rev. rewrite Horder. apply Forall_fmap.
    apply Forall_forall. intros a Ha. rewrite Forall_forall in Hok, Hlisted.
    destruct (committable_ready src a Hids (Hlisted a Ha) (Hok a Ha))
      as (q & date & Hd & Hq & Hlang & Hdate).
    exists (details_of a), q, date. cbn. auto. }
  rewrite firstn_all, Horder in T', Hfiles.
  exists ts, cs, w'. split; [done|]. split; [done|].
  split. { rewrite T'. cbn [trace]. by rewrite <- !app_assoc. }
  split; [done|]. split; [done|]. split; [done|]. split; [done|].
  apply Forall2_fmap_l in Hfiles.
  eapply Forall2_impl; [exact (Forall2_with _ _ _ _ Hlisted Hfiles)|].
  cbn beta. intros a t (Ha & details & q & Hd & Hq & Hentries).
  cbn [ref_of ref_id ref_titleSlug] in Hd, Hq.
  rewrite (details_found _ _ Hids Ha) in Hd. injection Hd as <-.
  by exists q.
Qed.

End RunShapeFacts.

(** * Facts about traces *)

Module TraceFacts.
Import Effects Engine Spec Shape.

Lemma sleeps_app t1 t2 : sleeps (t1 ++ t2) = sleeps t1 ++ sleeps t2.
Proof. apply omap_app. Qed.

Lemma calls_app t1 t2 : calls (t1 ++ t2) = calls t1 ++ calls t2.
Proof. apply omap_app. Qed.

Lemma sleeps_pages_trace count : forall first,
  sleeps (pages_trace first count) = repeat 1000 count.
Proof.
  induction count as [|count IH]; intros first; [done|].
  change (pages_trace first (S count))
    with ([Delay 1000; Request (SubmissionList (20 * first) 20)]
            ++ pages_trace (S first) count).
  rewrite sleeps_app, IH. done.
Qed.

Lemma calls_pages_trace count : forall first,
  calls (pages_trace first count)
  = map (fun k => SubmissionList (20 * k) 20) (seq first count).
Proof.
  induction count as [|count IH]; intros first; [done|].
  change (pages_trace first (S count))
    with ([Delay 1000; Request (SubmissionList (20 * first) 20)]
            ++ pages_trace (S first) count).
  rewrite calls_app, IH. done.
Qed.

Lemma sleeps_requests refs : sleeps (flat_map requests_of refs) = [].
Proof.
  induction refs as [|ref refs IH]; [done|].
  cbn [flat_map]. rewrite sleeps_app, IH. done.
Qed.

Lemma calls_requests refs :
  length (calls (flat_map requests_of refs)) = (5 * length refs)%nat.
Proof.
  induction refs as [|ref refs IH]; [done|].
  cbn [flat_map]. rewrite calls_app, length_app, IH. cbn. lia.
Qed.

End TraceFacts.

(** * Further properties of the engine *)

Section Writes.
Import Effects EffectsFacts Engine Spec Shape RetryFacts GitHubFacts CommitFacts
       ShapeFacts.

(** X1 - What a successful [commit] writes.  When [commit] returns for a
    submission in Go, it has made the three write requests in order, stored
    one tree built on [treeSHA] that holds the source file
    [title/slug.go] and [title/README.md], both with mode 100644, stored
    one commit on that tree whose parent is [latestCommitSHA], and moved
    the branch to that commit; the pair returned names the tree and the
    commit. *)
Theorem commit_writes
    (defaultBranch : string) (commitInfo : GitHub.Person)
    (treeSHA latestCommitSHA tsha csha : GitHub.sha) (submission : Submission)
    (w w' : World) :
  lang submission = "golang" ->
  commit defaultBranch commitInfo treeSHA latestCommitSHA submission w
    = (Ok (tsha, csha), w') ->
  exists date,
    JSDate.toISOString (timestamp submission * 1000) = Some date
    /\ trace w' = trace w ++ [Request CreateTree; Request CreateCommit; Request UpdateRef]
    /\ GitHub.trees (repo w')
       = {| GitHub.tree_sha := tsha; GitHub.base_tree := treeSHA;
            GitHub.entries :=
              [ {| GitHub.path := title submission +:+ "/" +:+ slug submission +:+ ".go";
                   GitHub.mode := "100644";
                   GitHub.content := code submission |};
                {| GitHub.path := title submission +:+ "/README.md";
                   GitHub.mode := "100644";
                   GitHub.content := text (readme submission) |} ] |}
         :: GitHub.trees (repo w)
    /\ GitHub.commits (repo w')
       = {| GitHub.commit_sha := csha;
            GitHub.message := commit_message submission;
            GitHub.tree := tsha;
            GitHub.parents := [latestCommitSHA];
            GitHub.author := {| GitHub.name := GitHub.name commitInfo;
                                GitHub.email := GitHub.email commitInfo;
                                GitHub.date := date |};
            GitHub.committer := {| GitHub.name := GitHub.name commitInfo;
                                   GitHub.email := GitHub.email commitInfo;
                                   GitHub.date := date |} |}
         :: GitHub.commits (repo w)
    /\ GitHub.head (repo w') = csha
    /\ GitHub.default_branch (repo w') = defaultBranch
    /\ GitHub.default_branch (repo w) = defaultBranch.
Proof.
  intros Hlang Hrun. apply commit_steps in Hrun. rewrite Hlang in Hrun.
  change (negb (JSObject.truthy (JSObject.get LANG_TO_EXTENSION "golang"))) with false in Hrun.
  change (JSObject.template (JSObject.get LANG_TO_EXTENSION "golang")) with "go" in Hrun. cbn zeta in Hrun.
  destruct Hrun as [(reason & ? & _)|[(_ & ? & _)|(date & Hdate & Hrun)]]; [done|done|].
  destruct Hrun as [(reason & ? & _)|[(reason & ? & _)|(Hres & Href & _ & Htrace)]];
    [done|done|].
  injection Hres as -> ->. exists date. split; [done|]. split; [done|].
  unfold GitHub.updateRef in Href. case_decide as Hbranch; [|done].
  injection Href as <-. cbn. split_and!; try done.
  - cbn in Hbranch. symmetry. by simplify_eq.
  - cbn in Hbranch. symmetry. by simplify_eq.
Qed.

Lemma commit_writes_witness :
  let submission :=
    enriched Sample.translate Sample.sprightly
      {| ref_id := 11; ref_titleSlug := "two-sum" |}
      (details_of (Sample.attempt 11 1672531200 "Accepted" "golang")) Sample.two_sum in
  let after := (commit "main" Sample.ada 0%nat 1%nat submission
                  (Sample.world Sample.repository [])).2 in
  trace after = [Request CreateTree; Request CreateCommit; Request UpdateRef]
  /\ map GitHub.path (flat_map GitHub.entries (GitHub.trees (repo after)))
     = ["Two Sum/two-sum.go"; "Two Sum/README.md"]
  /\ GitHub.head (repo after) = 3%nat.
Proof.
  intros submission after.
  destruct (commit_writes "main" Sample.ada 0%nat 1%nat 2%nat 3%nat submission
              (Sample.world Sample.repository []) after)
    as (date & _ & Htrace & Htrees & _ & Hhead & _).
  - reflexivity.
  - vm_compute. reflexivity.
  - split; [exact Htrace|]. split; [|exact Hhead].
    rewrite Htrees. reflexivity.
Defined.

(** X2 - A [commit] that fails leaves the branch where it was.  Whatever
    request fails, and at whatever step, the head and the log of the
    branch are unchanged and nothing is removed from the object store: at
    most one tree and one commit, which no branch reaches, have been added
    to it, the commit only together with its tree.  The requests made are
    an initial part of the three writes. *)
Theorem commit_failure_keeps_branch
    (defaultBranch : string) (commitInfo : GitHub.Person)
    (treeSHA latestCommitSHA : GitHub.sha) (submission : Submission)
    (w w' : World) (e : Exn) :
  commit defaultBranch commitInfo treeSHA latestCommitSHA submission w = (Throw e, w') ->
  GitHub.head (repo w') = GitHub.head (repo w)
  /\ GitHub.branch_log (repo w') = GitHub.branch_log (repo w)
  /\ GitHub.default_branch (repo w') = GitHub.default_branch (repo w)
  /\ (exists ts cs,
        GitHub.trees (repo w') = ts ++ GitHub.trees (repo w)
        /\ GitHub.commits (repo w') = cs ++ GitHub.commits (repo w)
        /\ (length cs <= length ts <= 1)%nat
        /\ Forall (fun c => GitHub.message c = commit_message submission) cs)
  /\ exists n, trace w'
               = trace w ++ take n [Request CreateTree; Request CreateCommit;
                                    Request UpdateRef].
Proof.
  intros Hrun. apply commit_steps in Hrun.
  destruct (JSObject.truthy (JSObject.get LANG_TO_EXTENSION (lang submission))); cbn [negb] in Hrun.
  2:{ destruct Hrun as [_ ->]. split_and!; try done.
      - exists [], []. cbn. split_and!; auto; lia.
      - exists 0%nat. by rewrite app_nil_r. }
  cbn zeta in Hrun.
  destruct Hrun as [(reason & _ & -> & _ & ->)|[(_ & _ & -> & _ & ->)|(date & _ & Hrun)]].
  - split_and!; try done; [exists [], []; cbn; split_and!; auto; lia|by exists 1%nat].
  - split_and!; try done; [eexists [_], []; cbn; split_and!; auto; lia|by exists 1%nat].
  - destruct Hrun as [(reason & _ & -> & _ & ->)|[(reason & _ & -> & _ & ->)|(? & _)]];
      [| |done].
    + split_and!; try done; [eexists [_], []; cbn; split_and!; auto; lia|by exists 2%nat].
    + split_and!; try done.
      * etrans; [apply branch_log_createCommit|apply branch_log_createTree].
      * eexists [_], [_]. cbn. split_and!; auto; lia.
      * by exists 3%nat.
Qed.

Lemma commit_failure_keeps_branch_witness :
  let submission :=
    enriched Sample.translate Sample.sprightly
      {| ref_id := 11; ref_titleSlug := "two-sum" |}
      (details_of (Sample.attempt 11 1672531200 "Accepted" "golang")) Sample.two_sum in
  let after := (commit "main" Sample.ada 0%nat 1%nat submission
                  (Sample.world Sample.repository [None; None; Some "ECONNRESET"])).2 in
  GitHub.branch_log (repo after) = [Sample.initial]
  /\ length (GitHub.commits (repo after)) = 2%nat.
Proof.
  intros submission after.
  destruct (commit_failure_keeps_branch "main" Sample.ada 0%nat 1%nat submission
              (Sample.world Sample.repository [None; None; Some "ECONNRESET"]) after
              (HttpError "ECONNRESET"))
    as (_ & Hlog & _).
  - vm_compute. reflexivity.
  - split; [exact Hlog|]. vm_compute. reflexivity.
Defined.

(** X3 - A time that [Date] cannot represent.  For a submission in Go whose
    timestamp is beyond 8 640 000 000 000 seconds either way, [commit]
    that no failure hits throws a [RangeError] when it formats the date:
    by then it has requested and stored the tree, which stays in the store;
    it has not requested a commit, and the branch is where it was. *)
Theorem commit_invalid_time
    (defaultBranch : string) (commitInfo : GitHub.Person)
    (treeSHA latestCommitSHA : GitHub.sha) (submission : Submission) (w : World) :
  lang submission = "golang" ->
  8640000000000 < Z.abs (timestamp submission) ->
  faults w = [] ->
  exists message t w',
    commit defaultBranch commitInfo treeSHA latestCommitSHA submission w
      = (Throw (RangeError message), w')
    /\ trace w' = trace w ++ [Request CreateTree]
    /\ GitHub.trees (repo w') = t :: GitHub.trees (repo w)
    /\ GitHub.base_tree t = treeSHA
    /\ map GitHub.path (GitHub.entries t)
       = [ title submission +:+ "/" +:+ slug submission +:+ ".go";
           title submission +:+ "/README.md" ]
    /\ GitHub.commits (repo w') = GitHub.commits (repo w)
    /\ GitHub.head (repo w') = GitHub.head (repo w).
Proof.
  intros Hlang Htime Hcalm.
  assert (Hdate : JSDate.toISOString (timestamp submission * 1000) = None).
  { unfold JSDate.toISOString, JSDate.maxTime.
    destruct (Z.leb_spec (Z.abs (timestamp submission * 1000)) 8640000000000000); [lia|done]. }
  destruct (commit defaultBranch commitInfo treeSHA latestCommitSHA submission w)
    as [res w'] eqn:Hrun.
  apply commit_steps in Hrun. rewrite Hlang in Hrun.
  change (negb (JSObject.truthy (JSObject.get LANG_TO_EXTENSION "golang"))) with false in Hrun.
  change (JSObject.template (JSObject.get LANG_TO_EXTENSION "golang")) with "go" in Hrun. cbn zeta in Hrun.
  destruct Hrun as [(reason & _ & _ & ? & _)|[(_ & -> & Hrepo & _ & Htrace)|(date & ? & _)]];
    [done| |congruence].
  eexists _, _, w'. split; [done|]. split; [done|]. rewrite Hrepo. by cbn.
Qed.

Lemma commit_invalid_time_witness :
  let submission :=
    enriched Sample.translate Sample.sprightly
      {| ref_id := 11; ref_titleSlug := "two-sum" |}
      (details_of (Sample.attempt 11 8640000000001 "Accepted" "golang")) Sample.two_sum in
  exists message w',
    commit "main" Sample.ada 0%nat 1%nat submission (Sample.world Sample.repository [])
      = (Throw (RangeError message), w')
    /\ trace w' = [Request CreateTree]
    /\ GitHub.commits (repo w') = [Sample.initial].
Proof.
  intros submission.
  destruct (commit_invalid_time "main" Sample.ada 0%nat 1%nat submission
              (Sample.world Sample.repository []))
    as (message & t & w' & Hrun & Htrace & _ & _ & _ & Hcommits & _).
  - reflexivity.
  - cbn. lia.
  - reflexivity.
  - exists message, w'. split; [exact Hrun|]. split; [exact Htrace|exact Hcommits].
Defined.

End Writes.

Section Lookups.
Import Effects EffectsFacts Engine Spec Shape RetryFacts GitHubFacts CommitFacts
       SyncFacts ShapeFacts.

(** X4 - The detail lookup of a submission is retried.  After up to five
    rejected requests, each followed by a sleep of 1, 3, 9, 27 and 81
    seconds in turn, the next request answers and [getSubmissionData]
    returns the details; contrary to the first listing request, a first
    failure is retried.  After six rejected requests the sixth failure is
    thrown as it is, 121 seconds of sleep having been spent.  The
    repository is not touched. *)
Theorem submission_details_retry
    (src : LeetCode.Source) (id : Z) (reasons : list string) (final : string)
    (rest : list (option string)) (r : GitHub.Repo) (t : list Event) :
  (rest = [] \/ exists rest', rest = None :: rest') ->
  ((length reasons <= 5)%nat ->
   getSubmissionData src id {| repo := r; faults := map Some reasons ++ rest; trace := t |}
   = (Ok (LeetCode.submissionDetails src id),
      {| repo := r; faults := tail rest;
         trace := t ++ retry_trace (SubmissionDetails id) 0 (length reasons) |}))
  /\ (length reasons = 5%nat ->
      getSubmissionData src id
        {| repo := r; faults := map Some (reasons ++ [final]) ++ rest; trace := t |}
      = (Throw (HttpError final),
         {| repo := r; faults := rest;
            trace := t ++ retry_trace (SubmissionDetails id) 0 5 |}))
  /\ sleeps (retry_trace (SubmissionDetails id) 0 5) = [1000; 3000; 9000; 27000; 81000]
  /\ calls (retry_trace (SubmissionDetails id) 0 5)
     = repeat (SubmissionDetails id) 6.
Proof.
  intros Hrest. split; [|split; [|split]]; [| |reflexivity..].
  - intros Hbudget. unfold getSubmissionData.
    rewrite (retrying_recovers _ _ _ reasons _ _ _ rest); [done|done|done|lia|lia].
  - intros Hspent. unfold getSubmissionData.
    rewrite (retrying_gives_up _ _ _ reasons _ _ _ final rest);
      [by rewrite Hspent|done|lia|lia].
Qed.

Lemma submission_details_retry_witness :
  (getSubmissionData Sample.account 11
     (Sample.world Sample.repository [Some "ETIMEDOUT"; None])).2
  = {| repo := Sample.repository; faults := [];
       trace := [ Request (SubmissionDetails 11); Delay 1000;
                  Request (SubmissionDetails 11) ] |}.
Proof.
  destruct (submission_details_retry Sample.account 11 ["ETIMEDOUT"] "ECONNRESET" [None]
              Sample.repository [])
    as (Hrecover & _).
  - right. by exists [].
  - exact (f_equal snd (Hrecover ltac:(cbn; lia))).
Defined.

(** X5 - The question lookup makes one request and never throws.  Whatever
    failure is due, [getQuestionData] makes exactly one request, does not
    sleep, leaves the repository as it is and returns: the response of the
    platform when the request went through, and nothing ([undefined]) when
    it was rejected, the failure being dropped. *)
Theorem question_lookup_single_request
    (src : LeetCode.Source) (titleSlug : string) (w w' : World)
    (res : Result (option (option LeetCode.Question))) :
  getQuestionData src titleSlug w = (res, w') ->
  trace w' = trace w ++ [Request (QuestionDetail titleSlug)]
  /\ repo w' = repo w
  /\ faults w' = tail (faults w)
  /\ ((res = Ok (Some (LeetCode.question src titleSlug))
       /\ forall reason, head (faults w) <> Some (Some reason))
      \/ (res = Ok None /\ exists reason, head (faults w) = Some (Some reason))).
Proof.
  rewrite getQuestionData_steps. intros [= <- <-]. cbn [trace repo faults].
  split; [done|]. split; [done|]. split; [done|].
  destruct (faults w) as [|[reason|] rest]; cbn; eauto.
Qed.

Lemma question_lookup_single_request_witness :
  getQuestionData Sample.account "two-sum" (Sample.world Sample.repository [Some "ECONNRESET"])
  = (Ok None, {| repo := Sample.repository; faults := [];
                 trace := [Request (QuestionDetail "two-sum")] |}).
Proof.
  destruct (question_lookup_single_request Sample.account "two-sum"
              (Sample.world Sample.repository [Some "ECONNRESET"])
              (getQuestionData Sample.account "two-sum"
                 (Sample.world Sample.repository [Some "ECONNRESET"])).2
              (getQuestionData Sample.account "two-sum"
                 (Sample.world Sample.repository [Some "ECONNRESET"])).1)
    as (_ & _ & _ & _).
  - apply surjective_pairing.
  - reflexivity.
Defined.

(** X6 - A submission or a question the platform does not know.  When the
    platform answers [null] to the question lookup, or to the detail lookup
    of the submission, an iteration of the commit loop throws, whatever
    failures are due, and the repository is as it was.  When no failure is
    due what it throws is a [TypeError], after the two lookups and no other
    request. *)
Theorem lookup_unknown_aborts
    (src : LeetCode.Source) (translate : string -> string)
    (sprightly : string -> Submission -> string)
    (ref : Ref) (defaultBranch : string) (commitInfo : GitHub.Person)
    (treeSHA latestCommitSHA : GitHub.sha) (w w' : World)
    (res : Result (GitHub.sha * GitHub.sha)) :
  LeetCode.question src (ref_titleSlug ref) = None
  \/ LeetCode.submissionDetails src (ref_id ref) = None ->
  syncOne src translate sprightly ref defaultBranch commitInfo treeSHA latestCommitSHA w
    = (res, w') ->
  (exists e, res = Throw e)
  /\ repo w' = repo w
  /\ (faults w = [] ->
      (exists message, res = Throw (TypeError message))
      /\ trace w' = trace w ++ [ Request (SubmissionDetails (ref_id ref));
                                 Request (QuestionDetail (ref_titleSlug ref)) ]).
Proof.
  intros Hunknown Hrun.
  assert (Hthrown : (exists e, res = Throw e) /\ repo w' = repo w).
  { unfold syncOne in Hrun.
    apply bind_inv in Hrun as [(details & w1 & H1 & Hrun)|[(e & H1 & ->)|[H1 ->]]].
    2,3: apply getSubmissionData_inv in H1 as (? & [[? _]|(? & ? & _)]); by eauto.
    apply getSubmissionData_inv in H1 as (Hr1 & [[[= ->] _]|(? & ? & _)]); [|done].
    unfold bind in Hrun. rewrite getQuestionData_steps in Hrun. rewrite <- Hr1.
    destruct (faults w1) as [|[reason|] rest].
    2:{ injection Hrun as <- <-. eauto. }
    all: destruct Hunknown as [Hq|Hd];
      [rewrite Hq in Hrun
      |rewrite Hd in Hrun; destruct (LeetCode.question src (ref_titleSlug ref))];
      injection Hrun as <- <-; eauto. }
  destruct Hthrown as [Hthrown Hrepo]. split; [done|]. split; [done|].
  - intros Hcalm. rewrite syncOne_calm in Hrun by done. cbn zeta in Hrun.
    destruct Hunknown as [Hq|Hd].
    + rewrite Hq in Hrun. injection Hrun as <- <-. split; [by eexists|done].
    + rewrite Hd in Hrun.
      destruct (LeetCode.question src (ref_titleSlug ref));
        injection Hrun as <- <-; (split; [by eexists|done]).
Qed.

Lemma lookup_unknown_aborts_witness :
  exists message,
    syncOne Sample.account Sample.translate Sample.sprightly
      {| ref_id := 11; ref_titleSlug := "three-sum" |} "main" Sample.ada 0%nat 1%nat
      (Sample.world Sample.repository [])
    = (Throw (TypeError message),
       {| repo := Sample.repository; faults := [];
          trace := [ Request (SubmissionDetails 11);
                     Request (QuestionDetail "three-sum") ] |}).
Proof.
  pose (run := syncOne Sample.account Sample.translate Sample.sprightly
                 {| ref_id := 11; ref_titleSlug := "three-sum" |} "main" Sample.ada
                 0%nat 1%nat (Sample.world Sample.repository [])).
  destruct (lookup_unknown_aborts Sample.account Sample.translate Sample.sprightly
              {| ref_id := 11; ref_titleSlug := "three-sum" |} "main" Sample.ada
              0%nat 1%nat (Sample.world Sample.repository []) run.2 run.1)
    as (_ & _ & Hcalm).
  - left. reflexivity.
  - apply surjective_pairing.
  - destruct (Hcalm eq_refl) as ((message & Hres) & _).
    exists message. fold run. rewrite (surjective_pairing run), Hres. reflexivity.
Defined.

End Lookups.

Section Runs.
Import Effects EffectsFacts Engine Spec Shape RetryFacts GitHubFacts CommitFacts
       CheckpointFacts ListingFacts SyncFacts DataFacts RunFacts ShapeFacts
       RunShapeFacts TraceFacts.

(** X7 - The pages of the listing.  When no failure is due the listing loop
    requests the first page at once and each later page, 20 entries further,
    after a sleep of one second.  It requests no page beyond the one that
    holds the first entry at or below the checkpoint, and no page beyond the
    last entry of the account: with [stop] entries before the first one at
    or below the checkpoint and [total] entries in all, the pages after the
    first number [min stop (total - 1) / 20]. *)
Theorem listing_pages
    (src : LeetCode.Source) (fuel : nat) (mostRecentTimestamp : number) (w : World) :
  faults w = [] ->
  (length (LeetCode.attempts src) < 20 * fuel)%nat ->
  let stop := length (considered mostRecentTimestamp (LeetCode.attempts src)) in
  let total := length (LeetCode.attempts src) in
  let pages := later_pages stop total in
  listing src fuel mostRecentTimestamp None 0 [] w
  = (Ok (gathered mostRecentTimestamp (LeetCode.attempts src)),
     {| repo := repo w; faults := [];
        trace := trace w ++ Request (SubmissionList 0 20) :: pages_trace 1 pages |})
  /\ calls (Request (SubmissionList 0 20) :: pages_trace 1 pages)
     = map (fun k => SubmissionList (20 * k) 20) (seq 0 (S pages))
  /\ sleeps (Request (SubmissionList 0 20) :: pages_trace 1 pages) = repeat 1000 pages
  /\ (20 * pages <= stop)%nat
  /\ (20 * pages <= total - 1)%nat
  /\ (stop < total -> stop < 20 * pages + 20)%nat
  /\ (stop = total -> total <= 20 * pages + 20)%nat.
Proof.
  intros Hcalm Hfuel stop total pages.
  pose proof (listing_calm src mostRecentTimestamp fuel None 0 [] w Hcalm
                ltac:(lia) ltac:(by left) ltac:(lia)) as Hrun.
  cbn zeta in Hrun. change (20 * 0)%nat with 0%nat in Hrun.
  rewrite drop_0, Nat.sub_0_r in Hrun.
  split; [exact Hrun|].
  change (Request (SubmissionList 0 20) :: pages_trace 1 pages)
    with ([Request (SubmissionList 0 20)] ++ pages_trace 1 pages).
  split; [by rewrite calls_app, calls_pages_trace|].
  split; [by rewrite sleeps_app, sleeps_pages_trace|].
  assert (Hdiv : (20 * pages <= stop `min` (total - 1)
                  /\ stop `min` (total - 1) < 20 * pages + 20)%nat).
  { unfold pages, later_pages.
    pose proof (Nat.div_mod_eq (stop `min` (total - 1)) 20) as Heq.
    pose proof (Nat.mod_upper_bound (stop `min` (total - 1)) 20 ltac:(lia)). lia. }
  pose proof (take_while_length (above mostRecentTimestamp) (LeetCode.attempts src)) as Hle.
  fold (considered mostRecentTimestamp (LeetCode.attempts src)) in Hle.
  fold stop in Hle. fold total in Hle.
  split_and!; lia.
Qed.

Lemma listing_pages_witness :
  let src := {| LeetCode.attempts :=
                  map (fun i => Sample.attempt (Z.of_nat i) (100 - Z.of_nat i)
                                  "Accepted" "golang") (seq 0 45);
                LeetCode.questions := ∅ |} in
  listing src 3 (Num 70) None 0 [] (Sample.world Sample.repository [])
  = (Ok (gathered (Num 70) (LeetCode.attempts src)),
     {| repo := Sample.repository; faults := [];
        trace := [ Request (SubmissionList 0 20); Delay 1000;
                   Request (SubmissionList 20 20) ] |}).
Proof.
  intros src.
  destruct (listing_pages src 3 (Num 70) (Sample.world Sample.repository []))
    as (Hrun & _).
  - reflexivity.
  - vm_compute. lia.
  - rewrite Hrun. vm_compute. reflexivity.
Defined.

(** X8 - The requests of a run.  A run that no failure hits, on pending
    submissions that can all be committed, ends well after these requests
    in this order: the list of commits; the pages of the listing, a second
    apart; the repository; then for each pending submission, oldest
    first, its details, its question, and the three writes of its commit.
    With [p] pages after the first and [N] pending submissions that is
    [3 + p + 5 N] requests and [p] seconds of sleep. *)
Theorem run_requests
    (src : LeetCode.Source) (translate : string -> string)
    (sprightly : string -> Submission -> string) (fuel : nat) (w : World)
    (resumeTimestamp : number) (authorIdentity : GitHub.Person) :
  faults w = [] ->
  checkpoint_of (repo w) = Some (resumeTimestamp, authorIdentity) ->
  distinct_ids src ->
  Forall (committable src) (pending resumeTimestamp src) ->
  (length (LeetCode.attempts src) < 20 * fuel)%nat ->
  let pages := later_pages (length (considered resumeTimestamp (LeetCode.attempts src)))
                 (length (LeetCode.attempts src)) in
  exists w',
    sync src translate sprightly fuel w = (Ok tt, w')
    /\ trace w'
       = trace w ++ [Request (ListCommits 100); Request (SubmissionList 0 20)]
           ++ pages_trace 1 pages
           ++ [Request GetRepo]
           ++ flat_map requests_of (map ref_of (pending resumeTimestamp src))
    /\ length (calls (trace w'))
       = (length (calls (trace w)) + 3 + pages
          + 5 * length (pending resumeTimestamp src))%nat
    /\ sleeps (trace w') = sleeps (trace w) ++ repeat 1000 pages.
Proof.
  intros Hcalm Hcp Hids Hok Hfuel pages.
  destruct (GitHub.branch_log (repo w)) as [|newest older] eqn:Hlog.
  { unfold checkpoint_of, GitHub.listCommits in Hcp. by rewrite Hlog in Hcp. }
  destruct (sync_calm_shape src translate sprightly fuel w _ _ _ _
              Hcalm Hcp Hlog Hids Hok Hfuel)
    as (ts & cs & w' & Hrun & _ & Htrace & _).
  exists w'. split; [done|]. split; [done|]. rewrite Htrace. fold pages. split.
  - rewrite !calls_app, !length_app, calls_pages_trace, calls_requests.
    rewrite !length_map, length_seq.
    change (length (calls [Request (ListCommits 100); Request (SubmissionList 0 20)]))
      with 2%nat.
    change (length (calls [Request GetRepo])) with 1%nat. lia.
  - rewrite !sleeps_app, sleeps_pages_trace, sleeps_requests.
    cbn [sleeps omap]. by rewrite !app_nil_r.
Qed.

Lemma run_requests_witness :
  trace (sync Sample.account Sample.translate Sample.sprightly 1
           (Sample.world Sample.repository [])).2
  = [ Request (ListCommits 100); Request (SubmissionList 0 20); Request GetRepo;
      Request (SubmissionDetails 11); Request (QuestionDetail "two-sum");
      Request CreateTree; Request CreateCommit; Request UpdateRef;
      Request (SubmissionDetails 13); Request (QuestionDetail "two-sum");
      Request CreateTree; Request CreateCommit; Request UpdateRef ].
Proof.
  destruct (run_requests Sample.account Sample.translate Sample.sprightly 1
              (Sample.world Sample.repository []) (Num 0) Sample.ada)
    as (w' & Hrun & Htrace & _).
  - reflexivity.
  - reflexivity.
  - unfold distinct_ids. cbn. compute_done.
  - change (pending (Num 0) Sample.account)
      with [ Sample.attempt 11 1672531200 "Accepted" "golang";
             Sample.attempt 13 1672531500 "Accepted" "golang" ].
    repeat (apply Forall_cons; split); [| |apply Forall_nil; done];
      (split; [by eexists; vm_compute|split; [by eexists; vm_compute|cbn; lia]]).
  - cbn. lia.
  - rewrite Hrun. cbn [snd]. rewrite Htrace. vm_compute. reflexivity.
Defined.

(** X9 - The trees of a run.  A run that no failure hits, on pending
    submissions that can all be committed, stores one tree for each of
    them, oldest first.  Each tree is built on the tree of the submission
    before it, the first one on the tree of the commit the branch pointed to
    when the run started, so that the files of earlier submissions stay in
    place.  The tree of a submission holds its code at
    [title/titleSlug.go] and, at [title/README.md], the template
    [readme.tmpl] rendered on the submission as built from the two
    lookups, the question text translated; it is the tree of the commit
    made for the submission. *)
Theorem run_trees
    (src : LeetCode.Source) (translate : string -> string)
    (sprightly : string -> Submission -> string) (fuel : nat) (w : World)
    (resumeTimestamp : number) (authorIdentity : GitHub.Person)
    (newest : GitHub.Commit) (older : list GitHub.Commit) :
  faults w = [] ->
  checkpoint_of (repo w) = Some (resumeTimestamp, authorIdentity) ->
  GitHub.branch_log (repo w) = newest :: older ->
  distinct_ids src ->
  Forall (committable src) (pending resumeTimestamp src) ->
  (length (LeetCode.attempts src) < 20 * fuel)%nat ->
  exists ts cs w',
    sync src translate sprightly fuel w = (Ok tt, w')
    /\ GitHub.trees (repo w') = rev ts ++ GitHub.trees (repo w)
    /\ GitHub.branch_log (repo w') = rev cs ++ GitHub.branch_log (repo w)
    /\ based (GitHub.tree newest) ts
    /\ Forall2 (fun c t => GitHub.tree c = GitHub.tree_sha t) cs ts
    /\ Forall2
         (fun a t =>
            exists q,
              LeetCode.questions src !! LeetCode.titleSlug a = Some q
              /\ GitHub.entries t
                 = [ {| GitHub.path := LeetCode.title q +:+ "/" +:+ LeetCode.titleSlug a
                                         +:+ ".go";
                        GitHub.mode := "100644";
                        GitHub.content := LeetCode.code a |};
                     {| GitHub.path := LeetCode.title q +:+ "/README.md";
                        GitHub.mode := "100644";
                        GitHub.content :=
                          sprightly "readme.tmpl"
                            {| id := LeetCode.id a;
                               slug := LeetCode.titleSlug a;
                               title := LeetCode.title q;
                               lang := LeetCode.lang a;
                               timestamp := LeetCode.timestamp a;
                               code := LeetCode.code a;
                               question := translate (LeetCode.content q);
                               difficulty := LeetCode.difficulty q;
                               tags := LeetCode.topicTags q;
                               runtimeDisplay := LeetCode.runtimeDisplay a;
                               memoryDisplay := LeetCode.memoryDisplay a;
                               readme := None |} |} ])
         (pending resumeTimestamp src) ts.
Proof.
  intros Hcalm Hcp Hlog Hids Hok Hfuel.
  destruct (sync_calm_shape src translate sprightly fuel w _ _ _ _
              Hcalm Hcp Hlog Hids Hok Hfuel)
    as (ts & cs & w' & Hrun & _ & _ & Htrees & Hcommits & Hbased & Htree & Hfiles).
  destruct (sync_calm src translate sprightly fuel w _ _ Hcalm Hcp Hids Hok Hfuel)
    as (cs0 & w0 & Hrun0 & _ & Hlog0 & Hcommits0 & _).
  rewrite Hrun in Hrun0. injection Hrun0 as <-.
  rewrite Hcommits in Hcommits0. apply app_inv_tail in Hcommits0.
  rewrite <- Hcommits0 in Hlog0.
  exists ts, cs, w'. split_and!; done.
Qed.

Lemma run_trees_witness :
  map (fun t => (GitHub.tree_sha t, GitHub.base_tree t,
                 map GitHub.path (GitHub.entries t)))
    (GitHub.trees (repo (sync Sample.account Sample.translate Sample.sprightly 1
                           (Sample.world Sample.repository [])).2))
  = [ (4%nat, 2%nat, ["Two Sum/two-sum.go"; "Two Sum/README.md"]);
      (2%nat, 0%nat, ["Two Sum/two-sum.go"; "Two Sum/README.md"]) ]
  /\ exists ts cs w',
      sync Sample.account Sample.translate Sample.sprightly 1
        (Sample.world Sample.repository []) = (Ok tt, w')
      /\ GitHub.trees (repo w') = rev ts
      /\ based 0%nat ts
      /\ Forall2 (fun c t => GitHub.tree c = GitHub.tree_sha t) cs ts.
Proof.
  split; [vm_compute; reflexivity|].
  destruct (run_trees Sample.account Sample.translate Sample.sprightly 1
              (Sample.world Sample.repository []) (Num 0) Sample.ada Sample.initial [])
    as (ts & cs & w' & Hrun & Htrees & _ & Hbased & Htree & _).
  - reflexivity.
  - reflexivity.
  - reflexivity.
  - unfold distinct_ids. cbn. compute_done.
  - change (pending (Num 0) Sample.account)
      with [ Sample.attempt 11 1672531200 "Accepted" "golang";
             Sample.attempt 13 1672531500 "Accepted" "golang" ].
    repeat (apply Forall_cons; split); [| |apply Forall_nil; done];
      (split; [by eexists; vm_compute|split; [by eexists; vm_compute|cbn; lia]]).
  - cbn. lia.
  - exists ts, cs, w'. split; [exact Hrun|]. split; [|split; [exact Hbased|exact Htree]].
    rewrite Htrees. apply app_nil_r.
Defined.

(** X14 - Retried failures do not change what is gathered.  Whatever
    failures hit the requests of the listing loop, when the loop returns it
    returns the same entries as when nothing fails: the accepted entries
    delivered before the first one at or below the checkpoint, each once
    and in the order delivered.  Otherwise it throws the failure of a
    request (the model being given an iteration for each page of the
    account).  The loop leaves the repository as it is. *)
Theorem listing_result_stable
    (src : LeetCode.Source) (fuel : nat) (mostRecentTimestamp : number)
    (w w' : World) (res : Result (list Ref)) :
  (length (LeetCode.attempts src) < 20 * fuel)%nat ->
  listing src fuel mostRecentTimestamp None 0 [] w = (res, w') ->
  repo w' = repo w
  /\ (res = Ok (map ref_of (List.filter accepted
                              (take_while (above mostRecentTimestamp)
                                 (LeetCode.attempts src))))
      \/ exists reason, res = Throw (HttpError reason) /\ faults w <> []).
Proof.
  intros Hfuel Hrun.
  apply listing_inv in Hrun as (Hrepo & [[-> _]|[(reason & -> & Hf)|[_ Hout]]]).
  - split; [done|]. left. by rewrite drop_0.
  - split; [done|]. right. by exists reason.
  - exfalso. apply Hout. lia.
Qed.

Lemma listing_result_stable_witness :
  let src := {| LeetCode.attempts :=
                  map (fun i => Sample.attempt (Z.of_nat i) (100 - Z.of_nat i)
                                  "Accepted" "golang") (seq 0 45);
                LeetCode.questions := ∅ |} in
  let run := listing src 3 (Num 70) None 0 []
               (Sample.world Sample.repository [None; Some "ETIMEDOUT"; Some "ETIMEDOUT"]) in
  sleeps (trace run.2) = [1000; 1000; 3000]
  /\ option_map (map ref_id) (match run.1 with Ok l => Some l | _ => None end)
     = Some (map Z.of_nat (seq 0 30)).
Proof.
  intros src run. split; [vm_compute; reflexivity|].
  destruct (listing_result_stable src 3 (Num 70)
              (Sample.world Sample.repository [None; Some "ETIMEDOUT"; Some "ETIMEDOUT"])
              run.2 run.1)
    as (_ & [Hres|(reason & Hres & _)]).
  - vm_compute. lia.
  - apply surjective_pairing.
  - rewrite Hres. vm_compute. reflexivity.
  - exfalso. revert Hres. vm_compute. discriminate.
Defined.

End Runs.

Section Safety.
Import Effects EffectsFacts Engine Spec Shape RetryFacts GitHubFacts CommitFacts
       CheckpointFacts ListingFacts SyncFacts DataFacts RunFacts ShapeFacts
       RunShapeFacts.

(** X10 - A run only adds to the branch.  Whatever the repository, the
    account and the failures, and however the run ends, the log of the
    branch afterwards is the log before with the commits of the run on
    top: although the reference is updated with [force], no commit
    leaves the branch.  Each commit added carries the sync marker, and
    the default branch is the same. *)
Theorem run_appends
    (src : LeetCode.Source) (translate : string -> string)
    (sprightly : string -> Submission -> string) (fuel : nat)
    (w w' : World) (res : Result unit) :
  sync src translate sprightly fuel w = (res, w') ->
  GitHub.default_branch (repo w') = GitHub.default_branch (repo w)
  /\ exists cs,
      GitHub.branch_log (repo w') = cs ++ GitHub.branch_log (repo w)
      /\ Forall (fun c => String.prefix "[" (GitHub.message c) = true) cs.
Proof.
  intros Hrun. destruct (checkpoint_of (repo w)) as [[mrt info]|] eqn:Hcp.
  - pose proof (sync_inv _ _ _ _ _ _ _ _ _ Hcp Hrun)
      as (Hdb & _ & cs & r & Hmade & _ & _ & Hlog & _ & _ & _ & Hlog' & _).
    split; [done|]. exists (rev cs). split; [by rewrite Hlog', Hlog|].
    apply Forall_rev. eapply Forall2_Forall_r; [exact Hmade|].
    apply Forall_forall. intros ref _ c (details & q & date & _ & _ & _ & _ & -> & _).
    apply commit_message_marked.
  - apply checkpoint_of_none in Hcp.
    destruct (sync_empty _ _ _ _ _ _ _ Hcp Hrun) as (_ & _ & -> & _).
    split; [done|]. by exists [].
Qed.

Lemma run_appends_witness :
  let failures := repeat None 7 ++ [Some "ECONNRESET"] in
  let run := sync Sample.account Sample.translate Sample.sprightly 1
               (Sample.world Sample.repository failures) in
  (exists reason, run.1 = Throw (HttpError reason))
  /\ exists cs, GitHub.branch_log (repo run.2) = cs ++ [Sample.initial]
                /\ Forall (fun c => String.prefix "[" (GitHub.message c) = true) cs.
Proof.
  intros failures run.
  split; [exists "ECONNRESET"; vm_compute; reflexivity|].
  destruct (run_appends Sample.account Sample.translate Sample.sprightly 1
              (Sample.world Sample.repository failures) run.2 run.1)
    as (_ & cs & Hlog & Hmarked).
  - apply surjective_pairing.
  - exists cs. split; [exact Hlog|exact Hmarked].
Defined.

(** X11 - The checkpoint is sought in the newest 100 commits only.  When
    the newest hundred commits of the branch do not carry the marker, the
    checkpoint is 0 and the identity is the author of the hundredth
    commit, whatever sync commits lie deeper in the history.  A run that
    no failure hits then commits again every accepted attempt of the
    account, when their times are positive: all of them are pending. *)
Theorem checkpoint_window
    (src : LeetCode.Source) (translate : string -> string)
    (sprightly : string -> Submission -> string) (fuel : nat) (w : World)
    (hundredth : GitHub.Commit) :
  GitHub.branch_log (repo w) !! 99%nat = Some hundredth ->
  Forall (fun c => String.prefix "[" (GitHub.message c) = false)
    (take 100 (GitHub.branch_log (repo w))) ->
  resolveCheckpoint (GitHub.listCommits 100 (repo w)) w
  = (Ok (Num 0, GitHub.author hundredth), w)
  /\ (faults w = [] ->
      distinct_ids src ->
      Forall (fun a => 0 < LeetCode.timestamp a) (LeetCode.attempts src) ->
      Forall (committable src) (List.filter accepted (LeetCode.attempts src)) ->
      (length (LeetCode.attempts src) < 20 * fuel)%nat ->
      exists cs w',
        sync src translate sprightly fuel w = (Ok tt, w')
        /\ GitHub.branch_log (repo w') = rev cs ++ GitHub.branch_log (repo w)
        /\ Forall2 (commit_of src (GitHub.author hundredth))
             (rev (List.filter accepted (LeetCode.attempts src))) cs).
Proof.
  intros Hth Hplain.
  assert (Hlast : last (GitHub.listCommits 100 (repo w)) = Some hundredth).
  { unfold GitHub.listCommits. rewrite last_lookup.
    apply lookup_lt_Some in Hth as Hlen.
    rewrite length_take, Nat.min_l by lia. cbn [pred].
    by rewrite lookup_take_lt by lia. }
  assert (Hcp : checkpoint_of (repo w) = Some (Num 0, GitHub.author hundredth)).
  { unfold checkpoint_of, checkpoint. by rewrite find_unmarked, Hlast. }
  split.
  { rewrite resolveCheckpoint_checkpoint. unfold checkpoint_of in Hcp. by rewrite Hcp. }
  intros Hcalm Hids Hpositive Hok Hfuel.
  assert (Hpending : pending (Num 0) src
                     = rev (List.filter accepted (LeetCode.attempts src))).
  { unfold pending, considered. rewrite take_while_id; [done|].
    apply forallb_forall. intros a Ha. apply list_elem_of_In in Ha.
    rewrite Forall_forall in Hpositive. specialize (Hpositive a Ha).
    unfold above. rewrite leq_zero. destruct (Z.leb_spec (LeetCode.timestamp a) 0); [lia|done]. }
  destruct (sync_calm src translate sprightly fuel w _ _ Hcalm Hcp Hids) as
    (cs & w' & Hrun & _ & Hlog & _ & _ & Hall & _); [|done|].
  { rewrite Hpending. by apply Forall_rev. }
  rewrite Hpending in Hall. by exists cs, w'.
Qed.

Lemma checkpoint_window_witness :
  resolveCheckpoint (GitHub.listCommits 100 History.long) (Sample.world History.long [])
  = (Ok (Num 0, {| GitHub.name := "Grace"; GitHub.email := "team@example.org";
                   GitHub.date := "2023-01-01T00:00:00Z" |}),
     Sample.world History.long [])
  /\ exists cs w',
      sync Sample.account Sample.translate Sample.sprightly 1
        (Sample.world History.long []) = (Ok tt, w')
      /\ GitHub.branch_log (repo w') = rev cs ++ GitHub.branch_log History.long
      /\ length cs = 2%nat.
Proof.
  destruct (checkpoint_window Sample.account Sample.translate Sample.sprightly 1
              (Sample.world History.long []) (History.by_hand 1))
    as (Hcheckpoint & Hrun).
  - vm_compute. reflexivity.
  - compute_done.
  - split; [exact Hcheckpoint|].
    destruct Hrun as (cs & w' & Hrun & Hlog & Hall).
    + reflexivity.
    + unfold distinct_ids. cbn. compute_done.
    + repeat constructor.
    + change (List.filter accepted (LeetCode.attempts Sample.account))
        with [ Sample.attempt 13 1672531500 "Accepted" "golang";
               Sample.attempt 11 1672531200 "Accepted" "golang" ].
      repeat (apply Forall_cons; split); [| |apply Forall_nil; done];
        (split; [by eexists; vm_compute|split; [by eexists; vm_compute|cbn; lia]]).
    + cbn. lia.
    + exists cs, w'. split; [exact Hrun|]. split; [exact Hlog|].
      apply Forall2_length in Hall. symmetry. exact Hall.
Defined.

(** X12 - The date written by [commit] is read back by the checkpoint.  For
    a time of the years 1970 to 9999 in whole seconds, the ISO instant that
    [commit] gives the commit parses, and the quotient by 1000 that the
    scan computes from it is that time: an entry of the listing is at or
    below the checkpoint exactly when its timestamp is at most that
    time. *)
Theorem commit_date_round_trip (t : Z) :
  0 <= t < 253402300800 ->
  exists date,
    JSDate.toISOString (t * 1000) = Some date
    /\ JSDate.parse date = Some (t * 1000)
    /\ parse_seconds date = Num (t * 1000 # 1000)
    /\ forall submissionTimestamp,
        leq submissionTimestamp (parse_seconds date) = (submissionTimestamp <=? t).
Proof.
  intros Hrange.
  destruct (JSDateFacts.parse_toISOString_seconds t Hrange) as (date & Hdate & Hparse).
  exists date. split; [done|]. split; [done|].
  split; [unfold parse_seconds; by rewrite Hparse|].
  intros ts. by apply leq_parse_seconds.
Qed.

Lemma commit_date_round_trip_witness :
  JSDate.toISOString (1672531200 * 1000) = Some "2023-01-01T00:00:00.000Z"
  /\ exists date,
      JSDate.toISOString (1672531200 * 1000) = Some date
      /\ leq 1672531200 (parse_seconds date) = true
      /\ leq 1672531201 (parse_seconds date) = false.
Proof.
  split; [vm_compute; reflexivity|].
  destruct (commit_date_round_trip 1672531200) as (date & Hdate & _ & _ & Hleq).
  - lia.
  - exists date. split; [exact Hdate|]. rewrite !Hleq. split; reflexivity.
Defined.

(** X13 - Rejected credentials stop a run at once.  When the request for
    the list of commits is rejected, the run throws that failure after this
    one request.  When it goes through and the first listing request is
    rejected, the run throws that failure after these two requests,
    without a retry or a sleep.  In both cases nothing is written. *)
Theorem run_rejected_early
    (src : LeetCode.Source) (translate : string -> string)
    (sprightly : string -> Submission -> string) (fuel : nat) (w : World)
    (reason : string) (rest : list (option string)) :
  (faults w = Some reason :: rest ->
   sync src translate sprightly fuel w
   = (Throw (HttpError reason),
      {| repo := repo w; faults := rest;
         trace := trace w ++ [Request (ListCommits 100)] |}))
  /\ (faults w = None :: Some reason :: rest ->
      GitHub.branch_log (repo w) <> [] ->
      (0 < fuel)%nat ->
      sync src translate sprightly fuel w
      = (Throw (HttpError reason),
         {| repo := repo w; faults := rest;
            trace := trace w ++ [ Request (ListCommits 100);
                                  Request (SubmissionList 0 20) ] |})).
Proof.
  split.
  - intros F. unfold sync.
    by rewrite (bind_throw _ _ _ _ _ (query_fault _ _ _ _ _ F)).
  - intros F Hlog Hfuel. unfold sync.
    rewrite (bind_ok _ _ _ _ _ (query_pass _ _ _ _ F)).
    unfold bind at 1. rewrite resolveCheckpoint_checkpoint. cbn [repo].
    destruct (checkpoint (GitHub.listCommits 100 (repo w))) as [[mrt info]|] eqn:Hcp.
    2:{ apply checkpoint_of_none in Hcp. done. }
    destruct fuel as [|fuel]; [lia|].
    erewrite bind_throw; [done|].
    cbn [listing]. unfold bind at 1, ret at 1.
    erewrite bind_throw; [done|].
    unfold getSubmissions.
    rewrite (retrying_gives_up _ _ _ [] _ _ _ reason rest); [|done|done|lia].
    cbn [repo trace length]. by rewrite <- app_assoc.
Qed.

Lemma run_rejected_early_witness :
  sync Sample.account Sample.translate Sample.sprightly 1
    (Sample.world Sample.repository [None; Some "Request failed with status code 403"])
  = (Throw (HttpError "Request failed with status code 403"),
     {| repo := Sample.repository; faults := [];
        trace := [Request (ListCommits 100); Request (SubmissionList 0 20)] |}).
Proof.
  destruct (run_rejected_early Sample.account Sample.translate Sample.sprightly 1
              (Sample.world Sample.repository
                 [None; Some "Request failed with status code 403"])
              "Request failed with status code 403" [])
    as (_ & Hlisting).
  apply Hlisting.
  - reflexivity.
  - discriminate.
  - lia.
Defined.

End Safety.

Section Table.
Import Effects EffectsFacts Engine Spec RetryFacts GitHubFacts CommitFacts
       CheckpointFacts ListingFacts SyncFacts DataFacts OrderFacts RunFacts
       TableFacts.

(** X15 - A language the table has nothing for.  For a language that has
    no entry in the table and is not the name of a member that every object
    inherits, such as "rust", [commit] throws before anything is
    requested: the world is as it was.  In a run that no failure hits, when
    the pending submissions before the first one in such a language are
    committable, the run commits those, throws for that one, and leaves
    the repository as their commits left it: the branch at the last of
    them, and no tree and no commit for the refused submission. *)
Theorem extension_mapping_failure
    (src : LeetCode.Source) (translate : string -> string)
    (sprightly : string -> Submission -> string) (fuel : nat) (w wc : World)
    (resumeTimestamp : number) (authorIdentity commitInfo : GitHub.Person)
    (good rest : list LeetCode.Attempt) (bad : LeetCode.Attempt)
    (defaultBranch : string) (treeSHA latestCommitSHA : GitHub.sha)
    (submission : Submission) :
  LANG_TO_EXTENSION !! lang submission = None ->
  (lang submission ∉ JSObject.Object_prototype) ->
  faults w = [] ->
  checkpoint_of (repo w) = Some (resumeTimestamp, authorIdentity) ->
  distinct_ids src ->
  pending resumeTimestamp src = good ++ bad :: rest ->
  Forall (committable src) good ->
  LANG_TO_EXTENSION !! LeetCode.lang bad = None ->
  (LeetCode.lang bad ∉ JSObject.Object_prototype) ->
  is_Some (LeetCode.questions src !! LeetCode.titleSlug bad) ->
  (length (LeetCode.attempts src) < 20 * fuel)%nat ->
  commit defaultBranch commitInfo treeSHA latestCommitSHA submission wc
    = (Throw (Thrown ("Language " +:+ lang submission
                        +:+ " does not have a registered extension.")), wc)
  /\ LANG_TO_EXTENSION !! "rust" = None
  /\ ("rust" ∉ JSObject.Object_prototype)
  /\ exists cs w',
      sync src translate sprightly fuel w
        = (Throw (Thrown ("Language " +:+ LeetCode.lang bad
                            +:+ " does not have a registered extension.")), w')
      /\ Forall2 (commit_of src authorIdentity) good cs
      /\ GitHub.branch_log (repo w') = rev cs ++ GitHub.branch_log (repo w)
      /\ GitHub.commits (repo w') = rev cs ++ GitHub.commits (repo w)
      /\ length (GitHub.trees (repo w'))
         = (length (GitHub.trees (repo w)) + length good)%nat.
Proof.
  intros Hlang Hown Hcalm Hcp Hids Hpending Hgood Hbad Hbad_own Hquestion Hfuel.
  pose proof (proj2 (truthy_false _) (conj Hlang Hown)) as Hfalsy.
  pose proof (proj2 (truthy_false _) (conj Hbad Hbad_own)) as Hbad_falsy.
  split; [by apply commit_unregistered|]. split; [done|]. split; [compute_done|].
  destruct (sync src translate sprightly fuel w) as [res w'] eqn:Hrun.
  pose proof (sync_inv _ _ _ _ _ _ _ _ _ Hcp Hrun)
    as (_ & _ & cs & r & Hm & Hlen & Hch & Hbl & Hcm & Htr & Hdr & Hbl' & _ & _ & Hres).
  rewrite order_pending in Hm, Hlen, Hres. rewrite length_map in Hlen.
  rewrite firstn_map in Hm.
  assert (Hlisted : Forall (fun a => a ∈ LeetCode.attempts src) (pending resumeTimestamp src)).
  { apply Forall_forall. intros a Ha. by eapply pending_listed. }
  assert (Hbad_listed : bad ∈ LeetCode.attempts src).
  { rewrite Forall_forall in Hlisted. apply Hlisted. rewrite Hpending.
    apply elem_of_app. right. left. }
  (* the refused submission has not been committed *)
  assert (Hle : (length cs <= length good)%nat).
  { destruct (Nat.le_gt_cases (length cs) (length good)) as [|Hgt]; [done|exfalso].
    assert (Hat : take (length cs) (pending resumeTimestamp src) !! length good = Some bad).
    { rewrite lookup_take_lt by lia. rewrite Hpending.
      by rewrite lookup_app_r, Nat.sub_diag by lia. }
    destruct (Forall2_lookup_l _ _ _ _ _ Hm (proj2 (list_lookup_fmap_Some _ _ _ _)
                (ex_intro _ bad (conj eq_refl Hat)))) as (c & _ & Hmade).
    apply made_registered in Hmade; [|done|done]. congruence. }
  destruct Hres as [(_ & Hn & _)|(_ & [Hf|[[_ Hf]|(e & ref & -> & Href & Hcalm' & R)]])].
  - rewrite length_map, Hpending, length_app in Hn. cbn in Hn. lia.
  - done.
  - done.
  - apply list_lookup_fmap_Some in Href as (a & -> & Ha).
    rewrite <- Hdr in R.
    assert (Hk : length cs = length good).
    { destruct (Nat.lt_ge_cases (length cs) (length good)) as [Hlt|]; [exfalso|lia].
      rewrite Hpending, lookup_app_l in Ha by done.
      apply list_elem_of_lookup_2 in Ha as Hin.
      rewrite Forall_forall in Hgood, Hlisted.
      apply committable_not_refused in R; [done|done| |by apply Hgood].
      apply Hlisted. rewrite Hpending. apply elem_of_app. by left. }
    rewrite Hk, Hpending, lookup_app_r, Nat.sub_diag in Ha by lia.
    injection Ha as <-.
    unfold refused in R. cbn [ref_of ref_id ref_titleSlug] in R.
    rewrite (details_found _ _ Hids Hbad_listed) in R. unfold LeetCode.question in R.
    destruct R as [R|[R|(details & q & [= <-] & Q & R)]]; [done|..].
    { rewrite R in Hquestion. by destruct Hquestion. }
    cbn [details_of LeetCode.lang_name] in R.
    destruct R as [(_ & -> & Hrepo)|[(R & _)|R]]; [| |done].
    2:{ congruence. }
    exists cs, w'. rewrite Hrepo. split; [done|].
    rewrite Hk, Hpending, take_app_length in Hm.
    split.
    { apply (made_all src translate sprightly authorIdentity _ _ Hids); [|exact Hm].
      rewrite Hpending in Hlisted. by apply Forall_app in Hlisted as [? _]. }
    rewrite <- Hk. auto.
Qed.

Lemma extension_mapping_failure_witness :
  exists cs w',
    sync Sample.account_with_rust Sample.translate Sample.sprightly 1
      (Sample.world Sample.repository [])
    = (Throw (Thrown "Language rust does not have a registered extension."), w')
    /\ length cs = 1%nat
    /\ GitHub.branch_log (repo w') = rev cs ++ [Sample.initial]
    /\ GitHub.commits (repo w') = rev cs ++ [Sample.initial]
    /\ length (GitHub.trees (repo w')) = 1%nat.
Proof.
  pose (submission :=
          enriched Sample.translate Sample.sprightly
            {| ref_id := 12; ref_titleSlug := "two-sum" |}
            (details_of (Sample.attempt 12 1672531400 "Accepted" "rust"))
            Sample.two_sum).
  destruct (extension_mapping_failure Sample.account_with_rust Sample.translate
              Sample.sprightly 1 (Sample.world Sample.repository [])
              (Sample.world Sample.repository []) (Num 0) Sample.ada Sample.ada
              [Sample.attempt 11 1672531200 "Accepted" "golang"]
              [Sample.attempt 13 1672531500 "Accepted" "golang"]
              (Sample.attempt 12 1672531400 "Accepted" "rust")
              "main" 0%nat 1%nat submission)
    as (_ & _ & _ & cs & w' & Hrun & Hgood & Hlog & Hcommits & Htrees).
  - reflexivity.
  - compute_done.
  - reflexivity.
  - reflexivity.
  - unfold distinct_ids. cbn. compute_done.
  - reflexivity.
  - apply Forall_cons; split; [|apply Forall_nil; done].
    split; [by eexists; vm_compute|split; [by eexists; vm_compute|cbn; lia]].
  - reflexivity.
  - compute_done.
  - by eexists; vm_compute.
  - cbn. lia.
  - exists cs, w'. split; [exact Hrun|].
    split; [symmetry; exact (Forall2_length _ _ _ Hgood)|].
    split; [exact Hlog|]. split; [exact Hcommits|exact Htrees].
Defined.

End Table.
